(** * Array shapes for the Zend engine: a shallow embedding and its properties

    The development follows the source files of the extension:

    - [zend_compile_array_shapes.h]: the descriptors ([zend_array_of],
      [zend_array_shape], [zend_shape_element]), the tag bits and the
      reference-counting helpers;
    - [zend_compile_array_shapes.c]: the AST-to-type compiler, the shape
      hash, the stringifier, the equivalence check and the release function;
    - [zend_execute_array_shapes.c]: the structural validators and the
      argument / return verification functions;
    - [php_reflection_array_shapes.c]: the methods of [ReflectionArrayOfType],
      [ReflectionArrayShapeType] and [ReflectionArrayShapeElement].

    Machine integers are [Z] with the wrap-around written out, C strings
    are [string], the flexible array member of a shape and the members of a
    type list are [list]s, and a PHP array ([HashTable]) is an ordered
    association list. *)

From Stdlib Require Import ZArith List String Ascii Bool Lia DecimalString.
From Stdlib Require Import Permutation.
Import ListNotations.
Local Open Scope string_scope.
Local Open Scope list_scope.
Local Open Scope Z_scope.

(** ** Runtime values (zval) *)

(** The class entry of an object; classes are identified by their name. *)
Definition zend_class_entry := string.

(** Keys of a [HashTable]: a string key or an integer index ([zend_ulong]). *)
Inductive hash_key : Type :=
| key_str (s : string)
| key_idx (h : Z).

(** The type tag of a zval ([Z_TYPE_P]). *)
Inductive zval_type : Type :=
| IS_NULL | IS_FALSE | IS_TRUE | IS_LONG | IS_DOUBLE | IS_STRING
| IS_ARRAY | IS_OBJECT | IS_RESOURCE | IS_REFERENCE.

(** A zval.  An array holds its buckets in insertion order, without unused
    slots; a reference wraps the referenced zval ([Z_REFVAL_P]). *)
#[local] Unset Elimination Schemes.
Inductive zval : Type :=
| zv_null
| zv_false
| zv_true
| zv_long (lval : Z)
| zv_double (dval : Z)
| zv_string (str : string)
| zv_array (arr : list (hash_key * zval))
| zv_object (ce : zend_class_entry)
| zv_resource (res : Z)
| zv_reference (ref : zval).
#[local] Set Elimination Schemes.

Definition HashTable := list (hash_key * zval).

Definition Z_TYPE_P (val : zval) : zval_type :=
  match val with
  | zv_null => IS_NULL
  | zv_false => IS_FALSE
  | zv_true => IS_TRUE
  | zv_long _ => IS_LONG
  | zv_double _ => IS_DOUBLE
  | zv_string _ => IS_STRING
  | zv_array _ => IS_ARRAY
  | zv_object _ => IS_OBJECT
  | zv_resource _ => IS_RESOURCE
  | zv_reference _ => IS_REFERENCE
  end.

Definition zval_type_eqb (a b : zval_type) : bool :=
  match a, b with
  | IS_NULL, IS_NULL | IS_FALSE, IS_FALSE | IS_TRUE, IS_TRUE
  | IS_LONG, IS_LONG | IS_DOUBLE, IS_DOUBLE | IS_STRING, IS_STRING
  | IS_ARRAY, IS_ARRAY | IS_OBJECT, IS_OBJECT | IS_RESOURCE, IS_RESOURCE
  | IS_REFERENCE, IS_REFERENCE => true
  | _, _ => false
  end.

Definition Z_ISREF_P (val : zval) : bool :=
  zval_type_eqb (Z_TYPE_P val) IS_REFERENCE.

(** [Z_REFVAL_P]: only read after [Z_ISREF_P]. *)
Definition Z_REFVAL_P (val : zval) : zval :=
  match val with
  | zv_reference v => v
  | _ => val
  end.

(** [Z_ARRVAL_P]: only read after the [IS_ARRAY] test. *)
Definition Z_ARRVAL_P (val : zval) : HashTable :=
  match val with
  | zv_array ht => ht
  | _ => []
  end.

(** [Z_OBJCE_P]: only read after the [IS_OBJECT] test. *)
Definition Z_OBJCE_P (val : zval) : zend_class_entry :=
  match val with
  | zv_object ce => ce
  | _ => ""
  end.

Definition zend_hash_num_elements (ht : HashTable) : Z :=
  Z.of_nat (List.length ht).

(** [zend_hash_find]: the value stored under a string key, or NULL. *)
Fixpoint zend_hash_find (ht : HashTable) (key : string) : option zval :=
  match ht with
  | [] => None
  | (key_str s, v) :: rest =>
      if String.eqb s key then Some v else zend_hash_find rest key
  | (key_idx _, _) :: rest => zend_hash_find rest key
  end.

(** [zend_hash_index_find]: the value stored under an integer key, or NULL. *)
Fixpoint zend_hash_index_find (ht : HashTable) (h : Z) : option zval :=
  match ht with
  | [] => None
  | (key_idx i, v) :: rest =>
      if Z.eqb i h then Some v else zend_hash_index_find rest h
  | (key_str _, _) :: rest => zend_hash_index_find rest h
  end.

(** ** Type values and descriptors (zend_compile_array_shapes.h) *)

(** [zend_type] is the engine's pair of a pointer and a 32-bit mask.  The
    pointer is a C union; the constructors of [zend_type_ptr] are its
    readings.  The flexible array member [elements] of a shape is a list and
    [num_elements] is its length; likewise [num_types] for a type list. *)
#[local] Unset Elimination Schemes.
Inductive zend_type : Type :=
| Build_zend_type (ptr : zend_type_ptr) (type_mask : Z)
with zend_type_ptr : Type :=
| PTR_NULL
| PTR_NAME (name : string)
| PTR_LIST (types : list zend_type)
| PTR_ARRAY_OF (array_of : zend_array_of)
| PTR_ARRAY_SHAPE (shape : zend_array_shape)
with zend_array_of : Type :=
| Build_zend_array_of (element_type : zend_type) (refcount : Z) (depth : Z)
with zend_array_shape : Type :=
| Build_zend_array_shape (refcount : Z) (shape_hash : Z)
                         (elements : list zend_shape_element)
with zend_shape_element : Type :=
| Build_zend_shape_element (key : option string) (key_num : Z)
                           (is_string_key : bool) (is_optional : bool)
                           (type : zend_type).
#[local] Set Elimination Schemes.

Definition ptr (t : zend_type) : zend_type_ptr :=
  match t with Build_zend_type p _ => p end.
Definition type_mask (t : zend_type) : Z :=
  match t with Build_zend_type _ m => m end.

Definition element_type (ao : zend_array_of) : zend_type :=
  match ao with Build_zend_array_of et _ _ => et end.
Definition array_of_refcount (ao : zend_array_of) : Z :=
  match ao with Build_zend_array_of _ rc _ => rc end.
Definition depth (ao : zend_array_of) : Z :=
  match ao with Build_zend_array_of _ _ d => d end.

Definition shape_refcount (sh : zend_array_shape) : Z :=
  match sh with Build_zend_array_shape rc _ _ => rc end.
Definition shape_hash (sh : zend_array_shape) : Z :=
  match sh with Build_zend_array_shape _ h _ => h end.
Definition elements (sh : zend_array_shape) : list zend_shape_element :=
  match sh with Build_zend_array_shape _ _ els => els end.
Definition num_elements (sh : zend_array_shape) : Z :=
  Z.of_nat (List.length (elements sh)).

Definition key (e : zend_shape_element) : option string :=
  match e with Build_zend_shape_element k _ _ _ _ => k end.
Definition key_num (e : zend_shape_element) : Z :=
  match e with Build_zend_shape_element _ n _ _ _ => n end.
Definition is_string_key (e : zend_shape_element) : bool :=
  match e with Build_zend_shape_element _ _ s _ _ => s end.
Definition is_optional (e : zend_shape_element) : bool :=
  match e with Build_zend_shape_element _ _ _ o _ => o end.
Definition type (e : zend_shape_element) : zend_type :=
  match e with Build_zend_shape_element _ _ _ _ t => t end.

(** Tag bits of the extended array types. *)
Definition ZEND_TYPE_ARRAY_OF_BIT : Z := Z.shiftl 1 24.
Definition ZEND_TYPE_ARRAY_SHAPE_BIT : Z := Z.shiftl 1 25.
Definition ZEND_TYPE_EXTENDED_ARRAY_MASK : Z :=
  Z.lor ZEND_TYPE_ARRAY_OF_BIT ZEND_TYPE_ARRAY_SHAPE_BIT.

Definition ZEND_TYPE_IS_ARRAY_OF (t : zend_type) : bool :=
  negb (Z.land (type_mask t) ZEND_TYPE_ARRAY_OF_BIT =? 0).
Definition ZEND_TYPE_IS_ARRAY_SHAPE (t : zend_type) : bool :=
  negb (Z.land (type_mask t) ZEND_TYPE_ARRAY_SHAPE_BIT =? 0).
Definition ZEND_TYPE_HAS_EXTENDED_ARRAY (t : zend_type) : bool :=
  negb (Z.land (type_mask t) ZEND_TYPE_EXTENDED_ARRAY_MASK =? 0).

(** ** The host engine

    The extension is compiled against the engine's own headers
    ([zend_types.h], [zend_type_info.h], [zend_string.h], [zend_API.h]),
    which are not part of the extension.  What the extension reads from them
    is collected here and every definition below is parametric in it: the
    [MAY_BE_*] bits, the kind bits of [zend_type], the mask of a built-in
    type code, the cached hash of a string, the class table and the name of
    a zval's type. *)
Class zend_engine : Type := {
  MAY_BE_NULL : Z;
  MAY_BE_FALSE : Z;
  MAY_BE_TRUE : Z;
  MAY_BE_BOOL : Z;
  MAY_BE_LONG : Z;
  MAY_BE_DOUBLE : Z;
  MAY_BE_STRING : Z;
  MAY_BE_ARRAY : Z;
  MAY_BE_OBJECT : Z;
  MAY_BE_RESOURCE : Z;
  MAY_BE_CALLABLE : Z;
  MAY_BE_ITERABLE : Z;
  MAY_BE_VOID : Z;
  MAY_BE_NEVER : Z;
  MAY_BE_MIXED : Z;
  _ZEND_TYPE_NAME_BIT : Z;
  _ZEND_TYPE_LIST_BIT : Z;
  _ZEND_TYPE_INTERSECTION_BIT : Z;
  _ZEND_TYPE_UNION_BIT : Z;
  _ZEND_TYPE_MAY_BE_MASK : Z;
  _ZEND_TYPE_MASK : Z;
  IS_VOID : Z;
  IS_NEVER : Z;
  (** the mask [ZEND_TYPE_INIT_CODE] gives a built-in type code *)
  zend_type_code_mask : Z -> Z;
  (** [ZSTR_H]: the hash stored in a string, a [zend_ulong] *)
  ZSTR_H : string -> Z;
  zend_lookup_class : string -> option zend_class_entry;
  instanceof_function : zend_class_entry -> zend_class_entry -> bool;
  zend_ce_traversable : zend_class_entry;
  zend_zval_type_name : zval -> string
}.

Section Engine.
Context {E : zend_engine}.

Definition ZEND_TYPE_HAS_LIST (t : zend_type) : bool :=
  negb (Z.land (type_mask t) _ZEND_TYPE_LIST_BIT =? 0).
Definition ZEND_TYPE_HAS_NAME (t : zend_type) : bool :=
  negb (Z.land (type_mask t) _ZEND_TYPE_NAME_BIT =? 0).
Definition ZEND_TYPE_PURE_MASK (t : zend_type) : Z :=
  Z.land (type_mask t) _ZEND_TYPE_MAY_BE_MASK.
Definition ZEND_TYPE_IS_SET (t : zend_type) : bool :=
  negb (Z.land (type_mask t) _ZEND_TYPE_MASK =? 0).
Definition ZEND_TYPE_CONTAINS_CODE (t : zend_type) (code : Z) : bool :=
  negb (Z.land (type_mask t) (Z.shiftl 1 code) =? 0).

(** [(mask & bits) != 0] *)
Definition mask_has (mask bits : Z) : bool :=
  negb (Z.land mask bits =? 0).

(** ** Structural validation (zend_execute_array_shapes.c) *)

(** The five out-parameters of [zend_validate_array_shape], as the caller
    reads them after the call.  A caller that passes NULL for one of them
    just does not read the field. *)
Record shape_out : Type := Build_shape_out {
  missing_key : option string;
  missing_key_num : Z;
  missing_is_string_key : bool;
  bad_value : option zval;
  failed_element : option zend_shape_element
}.

(** "Initialize output parameters" *)
Definition shape_out_init : shape_out :=
  Build_shape_out None 0 false None None.

(** [p ? p : val] on a possibly-NULL zval pointer *)
Definition or_val (p : option zval) (val : zval) : zval :=
  match p with Some b => b | None => val end.

(** [zend_hash_find(ht, elem->key)] / [zend_hash_index_find(ht, elem->key_num)],
    selected by [elem->is_string_key].  The compiler never leaves the key of
    a string-keyed element NULL; the model finds nothing under a NULL key. *)
Definition shape_lookup (ht : HashTable) (elem : zend_shape_element)
  : option zval :=
  if is_string_key elem then
    match key elem with
    | Some k => zend_hash_find ht k
    | None => None
    end
  else zend_hash_index_find ht (key_num elem).

(** The three validators are mutually recursive; every call descends into
    the descriptor.  [zend_validate_array_of] returns the result together
    with what it wrote to [*bad_element] (nothing on success); where the
    tag bit of a type and the reading of its pointer disagree, which the C
    code never tests, the model fails the check.  The [ce] out-parameter of
    [zend_check_type_extended] is written and never read, and is left out. *)
Fixpoint zend_validate_array_of (array_of : zend_array_of) (ht : HashTable)
  {struct array_of} : bool * option zval :=
  if zend_hash_num_elements ht =? 0 then (true, None)
  else
    (fix foreach (buckets : HashTable) : bool * option zval :=
       match buckets with
       | [] => (true, None)
       | (_, val) :: rest =>
           if ZEND_TYPE_IS_ARRAY_OF (element_type array_of) then
             if negb (zval_type_eqb (Z_TYPE_P val) IS_ARRAY) then
               (false, Some val)
             else
               match ptr (element_type array_of) with
               | PTR_ARRAY_OF inner =>
                   let '(ok, bad_element) :=
                     zend_validate_array_of inner (Z_ARRVAL_P val) in
                   if negb ok then (false, bad_element) else foreach rest
               | _ => (false, None)
               end
           else if ZEND_TYPE_IS_ARRAY_SHAPE (element_type array_of) then
             if negb (zval_type_eqb (Z_TYPE_P val) IS_ARRAY) then
               (false, Some val)
             else
               match ptr (element_type array_of) with
               | PTR_ARRAY_SHAPE inner_shape =>
                   let '(ok, out) :=
                     zend_validate_array_shape inner_shape (Z_ARRVAL_P val) in
                   if negb ok then (false, Some (or_val (bad_value out) val))
                   else foreach rest
               | _ => (false, None)
               end
           else
             if negb (zend_check_type_extended (element_type array_of) val)
             then (false, Some val)
             else foreach rest
       end) ht

with zend_validate_array_shape (shape : zend_array_shape) (ht : HashTable)
  {struct shape} : bool * shape_out :=
  (fix loop (elems : list zend_shape_element) : bool * shape_out :=
     match elems with
     | [] => (true, shape_out_init)
     | elem :: rest =>
         match shape_lookup ht elem with
         | None =>
             if is_optional elem then loop rest
             else
               (false,
                Build_shape_out
                  (if is_string_key elem then key elem else None)
                  (if negb (is_string_key elem) then key_num elem else 0)
                  (is_string_key elem)
                  None
                  (Some elem))
         | Some val =>
             if ZEND_TYPE_IS_ARRAY_OF (type elem) then
               if negb (zval_type_eqb (Z_TYPE_P val) IS_ARRAY) then
                 (false, Build_shape_out None 0 false (Some val) (Some elem))
               else
                 match ptr (type elem) with
                 | PTR_ARRAY_OF inner_array_of =>
                     let '(ok, inner_bad) :=
                       zend_validate_array_of inner_array_of (Z_ARRVAL_P val) in
                     if negb ok then
                       (false,
                        Build_shape_out None 0 false
                          (Some (or_val inner_bad val)) (Some elem))
                     else loop rest
                 | _ => (false, shape_out_init)
                 end
             else if ZEND_TYPE_IS_ARRAY_SHAPE (type elem) then
               if negb (zval_type_eqb (Z_TYPE_P val) IS_ARRAY) then
                 (false, Build_shape_out None 0 false (Some val) (Some elem))
               else
                 match ptr (type elem) with
                 | PTR_ARRAY_SHAPE inner_shape =>
                     let '(ok, inner) :=
                       zend_validate_array_shape inner_shape (Z_ARRVAL_P val) in
                     if negb ok then
                       (false,
                        Build_shape_out
                          (missing_key inner)
                          (missing_key_num inner)
                          (missing_is_string_key inner)
                          (Some (or_val (bad_value inner) val))
                          (Some (match failed_element inner with
                                 | Some inner_failed => inner_failed
                                 | None => elem
                                 end)))
                     else loop rest
                 | _ => (false, shape_out_init)
                 end
             else
               if negb (zend_check_type_extended (type elem) val) then
                 (false, Build_shape_out None 0 false (Some val) (Some elem))
               else loop rest
         end
     end) (elements shape)

with zend_check_type_extended (ty : zend_type) (val : zval)
  {struct ty} : bool :=
  let val := if Z_ISREF_P val then Z_REFVAL_P val else val in
  if ZEND_TYPE_IS_ARRAY_OF ty then
    match ptr ty with
    | PTR_ARRAY_OF array_of =>
        if negb (zval_type_eqb (Z_TYPE_P val) IS_ARRAY) then false
        else fst (zend_validate_array_of array_of (Z_ARRVAL_P val))
    | _ => false
    end
  else if ZEND_TYPE_IS_ARRAY_SHAPE ty then
    match ptr ty with
    | PTR_ARRAY_SHAPE shape =>
        if negb (zval_type_eqb (Z_TYPE_P val) IS_ARRAY) then false
        else fst (zend_validate_array_shape shape (Z_ARRVAL_P val))
    | _ => false
    end
  else if ZEND_TYPE_HAS_LIST ty then
    match ptr ty with
    | PTR_LIST type_list =>
        let is_intersection :=
          mask_has (type_mask ty) _ZEND_TYPE_INTERSECTION_BIT in
        if is_intersection then
          (fix all_match (l : list zend_type) : bool :=
             match l with
             | [] => true
             | t :: l' =>
                 if negb (zend_check_type_extended t val) then false
                 else all_match l'
             end) type_list
        else
          (fix any_match (l : list zend_type) : bool :=
             match l with
             | [] => false
             | t :: l' =>
                 if zend_check_type_extended t val then true
                 else any_match l'
             end) type_list
    | _ => false
    end
  else if ZEND_TYPE_HAS_NAME ty then
    match ptr ty with
    | PTR_NAME name =>
        if negb (zval_type_eqb (Z_TYPE_P val) IS_OBJECT) then false
        else
          match zend_lookup_class name with
          | None => false
          | Some expected_ce => instanceof_function (Z_OBJCE_P val) expected_ce
          end
    | _ => false
    end
  else
    let type_mask := ZEND_TYPE_PURE_MASK ty in
    match Z_TYPE_P val with
    | IS_NULL => mask_has type_mask MAY_BE_NULL
    | IS_FALSE => mask_has type_mask (Z.lor MAY_BE_FALSE MAY_BE_BOOL)
    | IS_TRUE => mask_has type_mask (Z.lor MAY_BE_TRUE MAY_BE_BOOL)
    | IS_LONG => mask_has type_mask MAY_BE_LONG
    | IS_DOUBLE => mask_has type_mask MAY_BE_DOUBLE
    | IS_STRING => mask_has type_mask MAY_BE_STRING
    | IS_ARRAY => mask_has type_mask MAY_BE_ARRAY
    | IS_OBJECT =>
        if mask_has type_mask MAY_BE_OBJECT then true
        else if mask_has type_mask MAY_BE_ITERABLE
                && instanceof_function (Z_OBJCE_P val) zend_ce_traversable
        then true
        else false
    | IS_RESOURCE => mask_has type_mask MAY_BE_RESOURCE
    | IS_REFERENCE => false
    end.

End Engine.

(** ** The type-expression tree *)

Inductive zend_ast_kind : Type :=
| ZEND_AST_ZVAL
| ZEND_AST_TYPE
| ZEND_AST_CLASS_TYPE
| ZEND_AST_NAME
| ZEND_AST_NULLABLE_TYPE
| ZEND_AST_TYPE_UNION
| ZEND_AST_TYPE_INTERSECTION
| ZEND_AST_TYPE_ARRAY_OF
| ZEND_AST_TYPE_ARRAY_SHAPE
| ZEND_AST_SHAPE_ELEMENT
| ZEND_AST_SHAPE_ELEMENT_LIST
| ZEND_AST_OTHER (k : Z).

(** A node carries either a zval ([zend_ast_zval]) or children ([zend_ast],
    [zend_ast_list]); [kind] and [attr] are common to both. *)
#[local] Unset Elimination Schemes.
Inductive zend_ast : Type :=
| ast_zval (kind : zend_ast_kind) (attr : Z) (val : zval)
| ast_node (kind : zend_ast_kind) (attr : Z) (child : list zend_ast).
#[local] Set Elimination Schemes.

Definition ast_kind (ast : zend_ast) : zend_ast_kind :=
  match ast with ast_zval k _ _ | ast_node k _ _ => k end.
Definition ast_attr (ast : zend_ast) : Z :=
  match ast with ast_zval _ a _ | ast_node _ a _ => a end.

(** How a compilation ends other than with a type: one of the two
    [E_COMPILE_ERROR]s, or a failed [ZEND_ASSERT] on the tree. *)
Inductive compile_error : Type :=
| Shape_key_must_be_a_string_or_integer
| Invalid_type_AST_node_kind (kind : zend_ast_kind)
| Assertion_failed.

Inductive compile_result (A : Type) : Type :=
| Compiled (a : A)
| zend_error_noreturn (e : compile_error).
Arguments Compiled {A} a.
Arguments zend_error_noreturn {A} e.

Definition bind_compile {A B : Type} (r : compile_result A)
  (k : A -> compile_result B) : compile_result B :=
  match r with
  | Compiled a => k a
  | zend_error_noreturn e => zend_error_noreturn e
  end.

Notation "x <- r ;; k" := (bind_compile r (fun x => k))
  (at level 61, r at next level, right associativity).

Definition uint8_t (z : Z) : Z := z mod 2 ^ 8.
Definition uint32_t (z : Z) : Z := z mod 2 ^ 32.
Definition zend_ulong (z : Z) : Z := z mod 2 ^ 64.
(** the signed reading of a 64-bit word *)
Definition zend_long (z : Z) : Z :=
  let u := z mod 2 ^ 64 in if u <? 2 ^ 63 then u else u - 2 ^ 64.

(** [ZEND_TYPE_INIT_NONE]: no pointer, empty mask. *)
Definition ZEND_TYPE_INIT_NONE : zend_type := Build_zend_type PTR_NULL 0.

Section Engine.
Context {E : zend_engine}.

Definition ZEND_TYPE_SET_ARRAY_OF_PTR (t : zend_type) (p : zend_array_of)
  : zend_type :=
  Build_zend_type (PTR_ARRAY_OF p)
    (Z.lor (type_mask t) (Z.lor ZEND_TYPE_ARRAY_OF_BIT MAY_BE_ARRAY)).

Definition ZEND_TYPE_SET_ARRAY_SHAPE_PTR (t : zend_type) (p : zend_array_shape)
  : zend_type :=
  Build_zend_type (PTR_ARRAY_SHAPE p)
    (Z.lor (type_mask t) (Z.lor ZEND_TYPE_ARRAY_SHAPE_BIT MAY_BE_ARRAY)).

(** [ZEND_TYPE_SET_LIST]: store the list and set the list bit. *)
Definition ZEND_TYPE_SET_LIST (t : zend_type) (l : list zend_type)
  : zend_type :=
  Build_zend_type (PTR_LIST l) (Z.lor (type_mask t) _ZEND_TYPE_LIST_BIT).

(** [ZEND_TYPE_INIT_CODE(type, code, 0, 0)] *)
Definition ZEND_TYPE_INIT_CODE (code : Z) : zend_type :=
  Build_zend_type PTR_NULL (zend_type_code_mask code).

(** [ZEND_TYPE_INIT_CLASS(type, class_name, 0, 0)] *)
Definition ZEND_TYPE_INIT_CLASS (class_name : string) : zend_type :=
  Build_zend_type (PTR_NAME class_name) _ZEND_TYPE_NAME_BIT.

(** ** The shape hash (zend_compile_array_shapes.c) *)

(** [((hash << 5) + hash) ^ x], stored back into a [uint32_t]. *)
Definition hash_mix (hash x : Z) : Z :=
  uint32_t (Z.lxor (uint32_t (Z.shiftl hash 5 + hash)) x).

Definition zend_compute_shape_hash (shape : zend_array_shape) : Z :=
  let hash := 5381 in
  let hash := hash_mix hash (num_elements shape) in
  fold_left
    (fun hash elem =>
       let hash :=
         match is_string_key elem, key elem with
         | true, Some k => hash_mix hash (ZSTR_H k)
         | _, _ => hash_mix hash (uint32_t (key_num elem))
         end in
       let hash := hash_mix hash (type_mask (type elem)) in
       hash_mix hash (Z.b2z (is_optional elem)))
    (elements shape) hash.

(** ** The compiler (zend_compile_array_shapes.c) *)

(** [zend_compile_type_internal] dispatches to the two specialised compilers
    on the same node, and they call it back on the children; the two are
    therefore written over the function they call back. *)
Section Compilers.
Variable compile_type_internal : zend_ast -> bool -> compile_result zend_type.

Definition compile_array_of_type (ast : zend_ast) : compile_result zend_type :=
  match ast with
  | ast_node ZEND_AST_TYPE_ARRAY_OF _ (element_type_ast :: _) =>
      (* array_of = zend_array_of_alloc(true): refcount 1, depth 1 *)
      element_type <- compile_type_internal element_type_ast true ;;
      new_depth <-
        (if ZEND_TYPE_IS_ARRAY_OF element_type then
           match ptr element_type with
           | PTR_ARRAY_OF inner => Compiled (uint8_t (depth inner + 1))
           | _ => zend_error_noreturn Assertion_failed
           end
         else Compiled 1) ;;
      let array_of := Build_zend_array_of element_type 1 new_depth in
      let result_type := ZEND_TYPE_INIT_NONE in
      Compiled (ZEND_TYPE_SET_ARRAY_OF_PTR result_type array_of)
  | _ => zend_error_noreturn Assertion_failed
  end.

Definition compile_array_shape_type (ast : zend_ast) : compile_result zend_type :=
  match ast with
  | ast_node ZEND_AST_TYPE_ARRAY_SHAPE _
      (ast_node ZEND_AST_SHAPE_ELEMENT_LIST _ element_list :: _) =>
      (* shape = zend_array_shape_alloc(num_elements, true):
         refcount 1, shape_hash 0 *)
      elements <-
        (fix compile_elements (children : list zend_ast)
           : compile_result (list zend_shape_element) :=
           match children with
           | [] => Compiled []
           | element_ast :: rest =>
               match element_ast with
               | ast_node ZEND_AST_SHAPE_ELEMENT attr
                   (key_ast :: type_ast :: _) =>
                   match key_ast with
                   | ast_zval ZEND_AST_ZVAL _ key_zval =>
                       key_fields <-
                         match key_zval with
                         | zv_string str => Compiled (Some str, true, 0)
                         | zv_long lval =>
                             Compiled (None, false, zend_ulong lval)
                         | _ =>
                             zend_error_noreturn
                               Shape_key_must_be_a_string_or_integer
                         end ;;
                       let '(key, is_string_key, key_num) := key_fields in
                       let is_optional := negb (Z.land attr 1 =? 0) in
                       type <- compile_type_internal type_ast true ;;
                       rest' <- compile_elements rest ;;
                       Compiled
                         (Build_zend_shape_element key key_num is_string_key
                            is_optional type :: rest')
                   | _ => zend_error_noreturn Assertion_failed
                   end
               | _ => zend_error_noreturn Assertion_failed
               end
           end) element_list ;;
      let shape := Build_zend_array_shape 1 0 elements in
      let shape :=
        Build_zend_array_shape 1 (zend_compute_shape_hash shape) elements in
      let result_type := ZEND_TYPE_INIT_NONE in
      Compiled (ZEND_TYPE_SET_ARRAY_SHAPE_PTR result_type shape)
  | _ => zend_error_noreturn Assertion_failed
  end.

End Compilers.

Fixpoint zend_compile_type_internal (ast : zend_ast) (persistent : bool)
  {struct ast} : compile_result zend_type :=
  match ast_kind ast with
  | ZEND_AST_TYPE_ARRAY_OF =>
      compile_array_of_type zend_compile_type_internal ast
  | ZEND_AST_TYPE_ARRAY_SHAPE =>
      compile_array_shape_type zend_compile_type_internal ast
  | ZEND_AST_TYPE =>
      Compiled (ZEND_TYPE_INIT_CODE (ast_attr ast))
  | ZEND_AST_CLASS_TYPE | ZEND_AST_NAME =>
      match ast with
      | ast_zval _ _ (zv_string class_name) =>
          (* interning does not change the characters of the name *)
          Compiled (ZEND_TYPE_INIT_CLASS class_name)
      | _ => zend_error_noreturn Assertion_failed
      end
  | ZEND_AST_NULLABLE_TYPE =>
      match ast with
      | ast_node _ _ (child0 :: _) =>
          type <- zend_compile_type_internal child0 persistent ;;
          Compiled
            (Build_zend_type (ptr type) (Z.lor (type_mask type) MAY_BE_NULL))
      | _ => zend_error_noreturn Assertion_failed
      end
  | ZEND_AST_TYPE_UNION =>
      match ast with
      | ast_node _ _ children =>
          type_list <-
            (fix compile_members (l : list zend_ast)
               : compile_result (list zend_type) :=
               match l with
               | [] => Compiled []
               | member :: rest =>
                   t <- zend_compile_type_internal member persistent ;;
                   rest' <- compile_members rest ;;
                   Compiled (t :: rest')
               end) children ;;
          let type := ZEND_TYPE_SET_LIST ZEND_TYPE_INIT_NONE type_list in
          Compiled
            (Build_zend_type (ptr type)
               (Z.lor (type_mask type) _ZEND_TYPE_UNION_BIT))
      | _ => zend_error_noreturn Assertion_failed
      end
  | ZEND_AST_TYPE_INTERSECTION =>
      match ast with
      | ast_node _ _ children =>
          type_list <-
            (fix compile_members (l : list zend_ast)
               : compile_result (list zend_type) :=
               match l with
               | [] => Compiled []
               | member :: rest =>
                   t <- zend_compile_type_internal member persistent ;;
                   rest' <- compile_members rest ;;
                   Compiled (t :: rest')
               end) children ;;
          let type := ZEND_TYPE_SET_LIST ZEND_TYPE_INIT_NONE type_list in
          Compiled
            (Build_zend_type (ptr type)
               (Z.lor (type_mask type) _ZEND_TYPE_INTERSECTION_BIT))
      | _ => zend_error_noreturn Assertion_failed
      end
  | kind => zend_error_noreturn (Invalid_type_AST_node_kind kind)
  end.

Definition zend_compile_array_of_type : zend_ast -> compile_result zend_type :=
  compile_array_of_type zend_compile_type_internal.

Definition zend_compile_array_shape_type
  : zend_ast -> compile_result zend_type :=
  compile_array_shape_type zend_compile_type_internal.

(** ** Type to string (zend_compile_array_shapes.c) *)

(** [smart_str_append_long]: signed decimal digits. *)
Definition smart_str_append_long (buf : string) (n : Z) : string :=
  (buf ++ NilZero.string_of_int (Z.to_int n))%string.

(** One of the [if (mask & MAY_BE_X)] blocks of the built-in branch: the
    state is the buffer and the [first] flag. *)
Definition append_type_name (cond : bool) (name : string)
  (st : string * bool) : string * bool :=
  if cond then
    let '(buf, first) := st in
    let buf := if negb first then (buf ++ "|")%string else buf in
    ((buf ++ name)%string, false)
  else st.

(** The built-in branch of [zend_type_to_string_extended]. *)
Definition builtin_type_to_string (ty : zend_type) (buf : string) : string :=
  let mask := ZEND_TYPE_PURE_MASK ty in
  let first := true in
  let '(buf, mask) :=
    if mask_has mask MAY_BE_NULL then
      let non_null := Z.land mask (Z.lnot MAY_BE_NULL) in
      if negb (non_null =? 0) && (Z.land non_null (non_null - 1) =? 0)
      then ((buf ++ "?")%string, non_null)
      else (buf, mask)
    else (buf, mask) in
  let st := (buf, first) in
  let st := append_type_name (mask_has mask MAY_BE_BOOL) "bool" st in
  let st := append_type_name (mask_has mask MAY_BE_LONG) "int" st in
  let st := append_type_name (mask_has mask MAY_BE_DOUBLE) "float" st in
  let st := append_type_name (mask_has mask MAY_BE_STRING) "string" st in
  let st :=
    if mask_has mask MAY_BE_ARRAY then
      append_type_name (negb (ZEND_TYPE_HAS_EXTENDED_ARRAY ty)) "array" st
    else st in
  let st := append_type_name (mask_has mask MAY_BE_OBJECT) "object" st in
  let st := append_type_name (mask_has mask MAY_BE_CALLABLE) "callable" st in
  let st := append_type_name (mask_has mask MAY_BE_ITERABLE) "iterable" st in
  let st := append_type_name (mask_has mask MAY_BE_VOID) "void" st in
  let st := append_type_name (mask_has mask MAY_BE_NEVER) "never" st in
  let st := append_type_name (mask_has mask MAY_BE_NULL) "null" st in
  let st := append_type_name (mask_has mask MAY_BE_FALSE) "false" st in
  let st := append_type_name (mask_has mask MAY_BE_TRUE) "true" st in
  let st := append_type_name (mask_has mask MAY_BE_MIXED) "mixed" st in
  let '(buf, first) := st in
  if first then (buf ++ "unknown")%string else buf.

(** Where the tag bit and the reading of the pointer disagree the model
    leaves the buffer empty. *)
Fixpoint zend_type_to_string_extended (ty : zend_type) : string :=
  let buf := EmptyString in
  if ZEND_TYPE_IS_ARRAY_OF ty then
    match ptr ty with
    | PTR_ARRAY_OF array_of =>
        let buf := (buf ++ "array<")%string in
        let element_str := zend_type_to_string_extended (element_type array_of) in
        let buf := (buf ++ element_str)%string in
        (buf ++ ">")%string
    | _ => buf
    end
  else if ZEND_TYPE_IS_ARRAY_SHAPE ty then
    match ptr ty with
    | PTR_ARRAY_SHAPE shape =>
        let buf := (buf ++ "array{")%string in
        let buf :=
          (fix loop (i : Z) (elems : list zend_shape_element) (buf : string)
             : string :=
             match elems with
             | [] => buf
             | elem :: rest =>
                 let buf := if 0 <? i then (buf ++ ", ")%string else buf in
                 let buf :=
                   match is_string_key elem, key elem with
                   | true, Some k => (buf ++ k)%string
                   | _, _ =>
                       smart_str_append_long buf (zend_long (key_num elem))
                   end in
                 let buf := if is_optional elem then (buf ++ "?")%string
                            else buf in
                 let buf := (buf ++ ": ")%string in
                 let type_str := zend_type_to_string_extended (type elem) in
                 loop (i + 1) rest (buf ++ type_str)%string
             end) 0 (elements shape) buf in
        (buf ++ "}")%string
    | _ => buf
    end
  else if ZEND_TYPE_HAS_LIST ty then
    match ptr ty with
    | PTR_LIST type_list =>
        let separator :=
          if mask_has (type_mask ty) _ZEND_TYPE_INTERSECTION_BIT
          then "&"%string else "|"%string in
        (fix loop (i : Z) (l : list zend_type) (buf : string) : string :=
           match l with
           | [] => buf
           | t :: rest =>
               let buf := if 0 <? i then (buf ++ separator)%string else buf in
               let member_str := zend_type_to_string_extended t in
               loop (i + 1) rest (buf ++ member_str)%string
           end) 0 type_list buf
    | _ => buf
    end
  else if ZEND_TYPE_HAS_NAME ty then
    match ptr ty with
    | PTR_NAME name => (buf ++ name)%string
    | _ => buf
    end
  else builtin_type_to_string ty buf.

(** ** Type comparison (zend_compile_array_shapes.c) *)

(** [zend_string_equals]; a NULL operand, which the C code never passes,
    compares unequal. *)
Definition zend_string_equals (a b : option string) : bool :=
  match a, b with
  | Some x, Some y => String.eqb x y
  | _, _ => false
  end.

Definition zend_tolower_ascii (c : ascii) : ascii :=
  let n := nat_of_ascii c in
  if ((65 <=? n) && (n <=? 90))%nat then ascii_of_nat (n + 32) else c.

(** Modelled from the spec: [zend_string_equals_ci] belongs to the engine's
    string library; class names "match case-insensitively", that is, they
    have the same length and the same characters up to ASCII letter case. *)
Fixpoint zend_string_equals_ci (a b : string) : bool :=
  match a, b with
  | EmptyString, EmptyString => true
  | String x a', String y b' =>
      Ascii.eqb (zend_tolower_ascii x) (zend_tolower_ascii y)
      && zend_string_equals_ci a' b'
  | _, _ => false
  end.

Fixpoint zend_types_are_equivalent (a b : zend_type) {struct a} : bool :=
  if negb (Z.land (type_mask a) ZEND_TYPE_EXTENDED_ARRAY_MASK
           =? Z.land (type_mask b) ZEND_TYPE_EXTENDED_ARRAY_MASK)
  then false
  else if ZEND_TYPE_IS_ARRAY_OF a then
    match ptr a with
    | PTR_ARRAY_OF ao_a =>
        if negb (ZEND_TYPE_IS_ARRAY_OF b) then false
        else
          match ptr b with
          | PTR_ARRAY_OF ao_b =>
              zend_types_are_equivalent (element_type ao_a) (element_type ao_b)
          | _ => false
          end
    | _ => false
    end
  else if ZEND_TYPE_IS_ARRAY_SHAPE a then
    match ptr a with
    | PTR_ARRAY_SHAPE shape_a =>
        if negb (ZEND_TYPE_IS_ARRAY_SHAPE b) then false
        else
          match ptr b with
          | PTR_ARRAY_SHAPE shape_b =>
              if negb (shape_hash shape_a =? shape_hash shape_b) then false
              else if negb (num_elements shape_a =? num_elements shape_b)
              then false
              else
                (fix loop (elems_a elems_b : list zend_shape_element) : bool :=
                   match elems_a, elems_b with
                   | [], _ => true
                   | elem_a :: rest_a, elem_b :: rest_b =>
                       if negb (Bool.eqb (is_string_key elem_a)
                                         (is_string_key elem_b))
                       then false
                       else if
                         (if is_string_key elem_a
                          then negb (zend_string_equals (key elem_a) (key elem_b))
                          else negb (key_num elem_a =? key_num elem_b))
                       then false
                       else if negb (Bool.eqb (is_optional elem_a)
                                              (is_optional elem_b))
                       then false
                       else if negb (zend_types_are_equivalent
                                       (type elem_a) (type elem_b))
                       then false
                       else loop rest_a rest_b
                   | _ :: _, [] => false
                   end) (elements shape_a) (elements shape_b)
          | _ => false
          end
    | _ => false
    end
  else if negb (ZEND_TYPE_PURE_MASK a =? ZEND_TYPE_PURE_MASK b) then false
  else if ZEND_TYPE_HAS_NAME a && ZEND_TYPE_HAS_NAME b then
    match ptr a, ptr b with
    | PTR_NAME name_a, PTR_NAME name_b => zend_string_equals_ci name_a name_b
    | _, _ => false
    end
  else negb (ZEND_TYPE_HAS_NAME a) && negb (ZEND_TYPE_HAS_NAME b).

(** ** Argument and return verification (zend_execute_array_shapes.c) *)

(** A call of [zend_type_error]: the format string and its arguments. *)
Inductive format_arg : Type :=
| arg_s (s : string)
| arg_d (n : Z)
| arg_lu (n : Z).

Inductive type_error : Type :=
| zend_type_error (format : string) (args : list format_arg).

Record zend_arg_info : Type := Build_zend_arg_info {
  arg_name : string;
  arg_type : zend_type
}.

(** The fields of [zend_function] that verification reads: the name of the
    scope class (if any), the function name, [num_args], the
    [ZEND_ACC_VARIADIC] flag, [arg_info[0..]] and [arg_info[-1]]. *)
Record zend_function : Type := Build_zend_function {
  scope : option string;
  function_name : string;
  num_args : Z;
  fn_variadic : bool;
  arg_info : list zend_arg_info;
  return_info : zend_arg_info
}.

(** The three leading [%s%s%s] arguments of every message. *)
Definition func_prefix (func : zend_function) : list format_arg :=
  [ arg_s (match scope func with Some n => n | None => "" end);
    arg_s (match scope func with Some _ => "::" | None => "" end);
    arg_s (function_name func) ].

Definition bad_type_name (bad : option zval) : string :=
  match bad with
  | Some b => zend_zval_type_name b
  | None => "invalid value"
  end.

Definition zend_verify_return_type_extended (func : zend_function)
  (retval : zval) : bool * list type_error :=
  let return_type := arg_type (return_info func) in
  if negb (ZEND_TYPE_IS_SET return_type) then (true, [])
  else if ZEND_TYPE_CONTAINS_CODE return_type IS_VOID then
    if negb (zval_type_eqb (Z_TYPE_P retval) IS_NULL) then
      (false,
       [zend_type_error
          "%s%s%s(): Return value must be of type void, %s returned"
          (func_prefix func ++ [arg_s (zend_zval_type_name retval)])])
    else (true, [])
  else if ZEND_TYPE_CONTAINS_CODE return_type IS_NEVER then
    (false,
     [zend_type_error
        "%s%s%s(): never-returning function must not return"
        (func_prefix func)])
  else if ZEND_TYPE_IS_ARRAY_OF return_type then
    match ptr return_type with
    | PTR_ARRAY_OF array_of =>
        if negb (zval_type_eqb (Z_TYPE_P retval) IS_ARRAY) then
          let expected_str := zend_type_to_string_extended return_type in
          (false,
           [zend_type_error
              "%s%s%s(): Return value must be of type %s, %s returned"
              (func_prefix func
               ++ [arg_s expected_str; arg_s (zend_zval_type_name retval)])])
        else
          let '(ok, bad_element) :=
            zend_validate_array_of array_of (Z_ARRVAL_P retval) in
          if negb ok then
            let element_type_str :=
              zend_type_to_string_extended (element_type array_of) in
            (false,
             [zend_type_error
                "%s%s%s(): Return value must be of type array<%s>, array containing %s given"
                (func_prefix func
                 ++ [arg_s element_type_str;
                     arg_s (bad_type_name bad_element)])])
          else (true, [])
    | _ => (false, [])
    end
  else if ZEND_TYPE_IS_ARRAY_SHAPE return_type then
    match ptr return_type with
    | PTR_ARRAY_SHAPE shape =>
        if negb (zval_type_eqb (Z_TYPE_P retval) IS_ARRAY) then
          let expected_str := zend_type_to_string_extended return_type in
          (false,
           [zend_type_error
              "%s%s%s(): Return value must be of type %s, %s returned"
              (func_prefix func
               ++ [arg_s expected_str; arg_s (zend_zval_type_name retval)])])
        else
          let '(ok, out) :=
            zend_validate_array_shape shape (Z_ARRVAL_P retval) in
          if negb ok then
            match failed_element out, bad_value out with
            | Some _, None =>
                (* is_missing_key_error *)
                if missing_is_string_key out then
                  (false,
                   [zend_type_error
                      "%s%s%s(): Return value missing required key '%s'"
                      (func_prefix func
                       ++ [arg_s (match missing_key out with
                                  | Some k => k
                                  | None => ""
                                  end)])])
                else
                  (false,
                   [zend_type_error
                      "%s%s%s(): Return value missing required key %lu"
                      (func_prefix func ++ [arg_lu (missing_key_num out)])])
            | Some failed, Some bad =>
                let expected_type_str :=
                  zend_type_to_string_extended (type failed) in
                match is_string_key failed, key failed with
                | true, Some k =>
                    (false,
                     [zend_type_error
                        "%s%s%s(): Return value key '%s' must be of type %s, %s given"
                        (func_prefix func
                         ++ [arg_s k; arg_s expected_type_str;
                             arg_s (zend_zval_type_name bad)])])
                | _, _ =>
                    (false,
                     [zend_type_error
                        "%s%s%s(): Return value key %lu must be of type %s, %s given"
                        (func_prefix func
                         ++ [arg_lu (key_num failed); arg_s expected_type_str;
                             arg_s (zend_zval_type_name bad)])])
                end
            | None, _ =>
                let expected_str := zend_type_to_string_extended return_type in
                (false,
                 [zend_type_error
                    "%s%s%s(): Return value does not match type %s"
                    (func_prefix func ++ [arg_s expected_str])])
            end
          else (true, [])
    | _ => (false, [])
    end
  else if negb (zend_check_type_extended return_type retval) then
    let expected_str := zend_type_to_string_extended return_type in
    (false,
     [zend_type_error
        "%s%s%s(): Return value must be of type %s, %s returned"
        (func_prefix func
         ++ [arg_s expected_str; arg_s (zend_zval_type_name retval)])])
  else (true, []).

(** The argument descriptor that [zend_verify_arg_type_extended] selects;
    [None] is "no type info for this argument". *)
Definition select_arg_info (func : zend_function) (arg_num : Z)
  : option zend_arg_info :=
  if arg_num <=? num_args func then
    nth_error (arg_info func) (Z.to_nat (arg_num - 1))
  else if fn_variadic func then
    nth_error (arg_info func) (Z.to_nat (num_args func))
  else None.

Definition zend_verify_arg_type_extended (func : zend_function)
  (arg_num : Z) (arg : zval) : bool * list type_error :=
  match select_arg_info func arg_num with
  | None => (true, [])
  | Some arg_info =>
  let arg_type := arg_type arg_info in
  let prefix :=
    func_prefix func ++ [arg_d arg_num; arg_s (arg_name arg_info)] in
  if negb (ZEND_TYPE_IS_SET arg_type) then (true, [])
  else if ZEND_TYPE_IS_ARRAY_OF arg_type then
    match ptr arg_type with
    | PTR_ARRAY_OF array_of =>
        if negb (zval_type_eqb (Z_TYPE_P arg) IS_ARRAY) then
          let expected_str := zend_type_to_string_extended arg_type in
          (false,
           [zend_type_error
              "%s%s%s(): Argument #%d ($%s) must be of type %s, %s given"
              (prefix ++ [arg_s expected_str;
                          arg_s (zend_zval_type_name arg)])])
        else
          let '(ok, bad_element) :=
            zend_validate_array_of array_of (Z_ARRVAL_P arg) in
          if negb ok then
            let element_type_str :=
              zend_type_to_string_extended (element_type array_of) in
            (false,
             [zend_type_error
                "%s%s%s(): Argument #%d ($%s) must be of type array<%s>, array containing %s given"
                (prefix ++ [arg_s element_type_str;
                            arg_s (bad_type_name bad_element)])])
          else (true, [])
    | _ => (false, [])
    end
  else if ZEND_TYPE_IS_ARRAY_SHAPE arg_type then
    match ptr arg_type with
    | PTR_ARRAY_SHAPE shape =>
        if negb (zval_type_eqb (Z_TYPE_P arg) IS_ARRAY) then
          let expected_str := zend_type_to_string_extended arg_type in
          (false,
           [zend_type_error
              "%s%s%s(): Argument #%d ($%s) must be of type %s, %s given"
              (prefix ++ [arg_s expected_str;
                          arg_s (zend_zval_type_name arg)])])
        else
          let '(ok, out) :=
            zend_validate_array_shape shape (Z_ARRVAL_P arg) in
          if negb ok then
            match failed_element out, bad_value out with
            | Some _, None =>
                (* is_missing_key_error *)
                if missing_is_string_key out then
                  (false,
                   [zend_type_error
                      "%s%s%s(): Argument #%d ($%s) missing required key '%s'"
                      (prefix ++ [arg_s (match missing_key out with
                                         | Some k => k
                                         | None => ""
                                         end)])])
                else
                  (false,
                   [zend_type_error
                      "%s%s%s(): Argument #%d ($%s) missing required key %lu"
                      (prefix ++ [arg_lu (missing_key_num out)])])
            | Some failed, Some bad =>
                let expected_type_str :=
                  zend_type_to_string_extended (type failed) in
                match is_string_key failed, key failed with
                | true, Some k =>
                    (false,
                     [zend_type_error
                        "%s%s%s(): Argument #%d ($%s) key '%s' must be of type %s, %s given"
                        (prefix ++ [arg_s k; arg_s expected_type_str;
                                    arg_s (zend_zval_type_name bad)])])
                | _, _ =>
                    (false,
                     [zend_type_error
                        "%s%s%s(): Argument #%d ($%s) key %lu must be of type %s, %s given"
                        (prefix ++ [arg_lu (key_num failed);
                                    arg_s expected_type_str;
                                    arg_s (zend_zval_type_name bad)])])
                end
            | None, _ =>
                let expected_str := zend_type_to_string_extended arg_type in
                (false,
                 [zend_type_error
                    "%s%s%s(): Argument #%d ($%s) does not match type %s"
                    (prefix ++ [arg_s expected_str])])
            end
          else (true, [])
    | _ => (false, [])
    end
  else if negb (zend_check_type_extended arg_type arg) then
    let expected_str := zend_type_to_string_extended arg_type in
    (false,
     [zend_type_error
        "%s%s%s(): Argument #%d ($%s) must be of type %s, %s given"
        (prefix ++ [arg_s expected_str; arg_s (zend_zval_type_name arg)])])
  else (true, [])
  end.

(** ** Reflection (php_reflection_array_shapes.c) *)

(** [ReflectionArrayOfType::getDepth]: [intern->array_of] may be NULL. *)
Definition ReflectionArrayOfType_getDepth (array_of : option zend_array_of)
  : Z :=
  match array_of with
  | None => 0
  | Some ao => depth ao
  end.

End Engine.

(** ** Descriptor lifecycle (zend_compile_array_shapes.h, .c)

    Reference counts only matter when a descriptor has several owners, so
    release is modelled over a store: a [zend_type] holds the address of its
    descriptor, and two type values may hold the same address. *)
Module Lifecycle.

Definition addr := nat.

#[local] Unset Elimination Schemes.
Inductive zend_type : Type :=
| Build_zend_type (ptr : zend_type_ptr) (type_mask : Z)
with zend_type_ptr : Type :=
| PTR_NULL
| PTR_NAME (name : string)
| PTR_LIST (types : list zend_type)
| PTR_ARRAY_OF (array_of : addr)
| PTR_ARRAY_SHAPE (shape : addr).
#[local] Set Elimination Schemes.

Definition ptr (t : zend_type) : zend_type_ptr :=
  match t with Build_zend_type p _ => p end.
Definition type_mask (t : zend_type) : Z :=
  match t with Build_zend_type _ m => m end.

Record zend_shape_element : Type := Build_zend_shape_element {
  key : option string;
  key_num : Z;
  is_string_key : bool;
  is_optional : bool;
  type : zend_type
}.

(** What is allocated at an address. *)
Inductive descriptor : Type :=
| array_of_at (element_type : zend_type) (refcount : Z) (depth : Z)
| shape_at (refcount : Z) (shape_hash : Z) (elements : list zend_shape_element).

(** What release gives back to the allocator or to the string table. *)
Inductive release_event : Type :=
| pefree (a : addr)
| pefree_list
| zend_string_release (s : string).

Record memory : Type := Build_memory {
  cells : addr -> option descriptor;
  released : list release_event
}.

Definition store (a : addr) (d : option descriptor) (m : memory) : memory :=
  Build_memory (fun a' => if Nat.eqb a' a then d else cells m a') (released m).

Definition emit (e : release_event) (m : memory) : memory :=
  Build_memory (cells m) (released m ++ [e]).

Definition ZEND_TYPE_INIT_NONE : zend_type := Build_zend_type PTR_NULL 0.

Definition ZEND_TYPE_IS_ARRAY_OF (t : zend_type) : bool :=
  negb (Z.land (type_mask t) ZEND_TYPE_ARRAY_OF_BIT =? 0).
Definition ZEND_TYPE_IS_ARRAY_SHAPE (t : zend_type) : bool :=
  negb (Z.land (type_mask t) ZEND_TYPE_ARRAY_SHAPE_BIT =? 0).

Section Engine.
Context {E : zend_engine}.

Definition ZEND_TYPE_HAS_LIST (t : zend_type) : bool :=
  negb (Z.land (type_mask t) _ZEND_TYPE_LIST_BIT =? 0).
Definition ZEND_TYPE_HAS_NAME (t : zend_type) : bool :=
  negb (Z.land (type_mask t) _ZEND_TYPE_NAME_BIT =? 0).

(** [zend_array_of_addref] *)
Definition zend_array_of_addref (array_of : addr) (m : memory) : memory :=
  match cells m array_of with
  | Some (array_of_at et rc d) =>
      store array_of (Some (array_of_at et (uint32_t (rc + 1)) d)) m
  | _ => m
  end.

(** [zend_array_shape_addref] *)
Definition zend_array_shape_addref (shape : addr) (m : memory) : memory :=
  match cells m shape with
  | Some (shape_at rc h els) =>
      store shape (Some (shape_at (uint32_t (rc + 1)) h els)) m
  | _ => m
  end.

(** [zend_array_of_release]: [None] is a read through a dangling or
    mistyped pointer. *)
Definition zend_array_of_release (array_of : addr) (m : memory)
  : option memory :=
  match cells m array_of with
  | Some (array_of_at et rc d) =>
      let rc := uint32_t (rc - 1) in
      if rc =? 0 then Some (emit (pefree array_of) (store array_of None m))
      else Some (store array_of (Some (array_of_at et rc d)) m)
  | _ => None
  end.

(** [zend_array_shape_release] *)
Definition zend_array_shape_release (shape : addr) (m : memory)
  : option memory :=
  match cells m shape with
  | Some (shape_at rc h els) =>
      let rc := uint32_t (rc - 1) in
      if rc =? 0 then
        let m :=
          fold_left
            (fun m elem =>
               match key elem with
               | Some k => emit (zend_string_release k) m
               | None => m
               end) els m in
        Some (emit (pefree shape) (store shape None m))
      else Some (store shape (Some (shape_at rc h els)) m)
  | _ => None
  end.

(** [zend_type_release_extended(&t, persistent)] for a [t] that holds [ty]:
    the memory after the call ([t] itself is [ZEND_TYPE_INIT_NONE] then).
    The recursion follows addresses, so it is bounded by [fuel]; [None] is
    "out of fuel" or a read through a dangling or mistyped pointer. *)
Fixpoint zend_type_release_extended (fuel : nat) (ty : zend_type) (m : memory)
  {struct fuel} : option memory :=
  match fuel with
  | O => None
  | S fuel =>
      if ZEND_TYPE_IS_ARRAY_OF ty then
        match ptr ty with
        | PTR_NULL => Some m
        | PTR_ARRAY_OF array_of =>
            match cells m array_of with
            | Some (array_of_at element_type _ _) =>
                match zend_type_release_extended fuel element_type m with
                | Some m =>
                    (* the callee has reset array_of->element_type *)
                    match cells m array_of with
                    | Some (array_of_at _ rc d) =>
                        zend_array_of_release array_of
                          (store array_of
                             (Some (array_of_at ZEND_TYPE_INIT_NONE rc d)) m)
                    | _ => None
                    end
                | None => None
                end
            | _ => None
            end
        | _ => None
        end
      else if ZEND_TYPE_IS_ARRAY_SHAPE ty then
        match ptr ty with
        | PTR_NULL => Some m
        | PTR_ARRAY_SHAPE shape =>
            match cells m shape with
            | Some (shape_at _ _ elements) =>
                (* for (i = 0; i < shape->num_elements; i++): each
                   iteration reads shape->elements[i] from the store *)
                let release_elements :=
                  (fix loop (remaining : nat) (i : nat) (m : memory)
                     : option memory :=
                     match remaining with
                     | O => Some m
                     | S remaining =>
                         match cells m shape with
                         | Some (shape_at _ _ els) =>
                             match nth_error els i with
                             | Some elem =>
                                 match
                                   zend_type_release_extended fuel (type elem) m
                                 with
                                 | Some m =>
                                     (* the callee has reset
                                        shape->elements[i].type *)
                                     match cells m shape with
                                     | Some (shape_at rc h els) =>
                                         let els :=
                                           match nth_error els i with
                                           | Some e =>
                                               firstn i els
                                               ++ Build_zend_shape_element
                                                    (key e) (key_num e)
                                                    (is_string_key e)
                                                    (is_optional e)
                                                    ZEND_TYPE_INIT_NONE
                                                  :: skipn (S i) els
                                           | None => els
                                           end in
                                         loop remaining (S i)
                                           (store shape
                                              (Some (shape_at rc h els)) m)
                                     | _ => None
                                     end
                                 | None => None
                                 end
                             | None => None
                             end
                         | _ => None
                         end
                     end) in
                match release_elements (List.length elements) O m with
                | Some m => zend_array_shape_release shape m
                | None => None
                end
            | _ => None
            end
        | _ => None
        end
      else if ZEND_TYPE_HAS_LIST ty then
        match ptr ty with
        | PTR_LIST type_list =>
            match
              fold_left
                (fun om t =>
                   match om with
                   | Some m => zend_type_release_extended fuel t m
                   | None => None
                   end) type_list (Some m)
            with
            | Some m => Some (emit pefree_list m)
            | None => None
            end
        | _ => None
        end
      else if ZEND_TYPE_HAS_NAME ty then
        match ptr ty with
        | PTR_NAME name => Some (emit (zend_string_release name) m)
        | _ => None
        end
      else Some m
  end.

End Engine.
End Lifecycle.

(** ** An engine configuration for the worked examples

    The [MAY_BE_*] bits are [1 << IS_*] as in [zend_type_info.h], a type
    code [c] has mask [1 << c] within the built-in bits, and the kind bits
    lie between the built-in bits and the two tag bits of the extension, so
    that no two of them overlap.  Classes are looked up by name and [instanceof] is name
    equality. *)
Definition example_string_hash (s : string) : Z :=
  Z.lor
    (fold_left (fun h c => (h * 33 + Z.of_nat (nat_of_ascii c)) mod 2 ^ 64)
       (list_ascii_of_string s) 5381)
    (2 ^ 63).

Definition example_type_name (val : zval) : string :=
  match (if Z_ISREF_P val then Z_REFVAL_P val else val) with
  | zv_null => "null"
  | zv_false | zv_true => "bool"
  | zv_long _ => "int"
  | zv_double _ => "float"
  | zv_string _ => "string"
  | zv_array _ => "array"
  | zv_object _ => "object"
  | zv_resource _ => "resource"
  | zv_reference _ => "reference"
  end.

Definition example_engine : zend_engine := {|
  MAY_BE_NULL := Z.shiftl 1 1;
  MAY_BE_FALSE := Z.shiftl 1 2;
  MAY_BE_TRUE := Z.shiftl 1 3;
  MAY_BE_BOOL := Z.lor (Z.shiftl 1 2) (Z.shiftl 1 3);
  MAY_BE_LONG := Z.shiftl 1 4;
  MAY_BE_DOUBLE := Z.shiftl 1 5;
  MAY_BE_STRING := Z.shiftl 1 6;
  MAY_BE_ARRAY := Z.shiftl 1 7;
  MAY_BE_OBJECT := Z.shiftl 1 8;
  MAY_BE_RESOURCE := Z.shiftl 1 9;
  MAY_BE_CALLABLE := Z.shiftl 1 12;
  MAY_BE_ITERABLE := Z.shiftl 1 13;
  MAY_BE_VOID := Z.shiftl 1 14;
  MAY_BE_NEVER := Z.shiftl 1 17;
  MAY_BE_MIXED := Z.shiftl 1 16;
  _ZEND_TYPE_NAME_BIT := Z.shiftl 1 23;
  _ZEND_TYPE_LIST_BIT := Z.shiftl 1 22;
  _ZEND_TYPE_INTERSECTION_BIT := Z.shiftl 1 19;
  _ZEND_TYPE_UNION_BIT := Z.shiftl 1 18;
  _ZEND_TYPE_MAY_BE_MASK := Z.shiftl 1 18 - 1;
  _ZEND_TYPE_MASK := Z.shiftl 1 24 - 1;
  IS_VOID := 14;
  IS_NEVER := 17;
  zend_type_code_mask := fun code => Z.land (Z.shiftl 1 code) (Z.shiftl 1 18 - 1);
  ZSTR_H := example_string_hash;
  zend_lookup_class := fun name => Some name;
  instanceof_function := String.eqb;
  zend_ce_traversable := "Traversable";
  zend_zval_type_name := example_type_name
|}.

(** ** The loops of the validators, one iteration at a time

    The two loops are local to the validators above; here each loop body is
    a function of its own, so that statements can speak of one iteration. *)
Section Loops.
Context {E : zend_engine}.

(** The body of the [ZEND_HASH_FOREACH_VAL] loop for one bucket:
    [Some r] returns [r] from the function, [None] goes on to the next. *)
Definition array_of_visit (et : zend_type) (val : zval)
  : option (bool * option zval) :=
  if ZEND_TYPE_IS_ARRAY_OF et then
    if negb (zval_type_eqb (Z_TYPE_P val) IS_ARRAY) then Some (false, Some val)
    else
      match ptr et with
      | PTR_ARRAY_OF inner =>
          let '(ok, bad_element) := zend_validate_array_of inner (Z_ARRVAL_P val) in
          if negb ok then Some (false, bad_element) else None
      | _ => Some (false, None)
      end
  else if ZEND_TYPE_IS_ARRAY_SHAPE et then
    if negb (zval_type_eqb (Z_TYPE_P val) IS_ARRAY) then Some (false, Some val)
    else
      match ptr et with
      | PTR_ARRAY_SHAPE inner_shape =>
          let '(ok, out) := zend_validate_array_shape inner_shape (Z_ARRVAL_P val) in
          if negb ok then Some (false, Some (or_val (bad_value out) val))
          else None
      | _ => Some (false, None)
      end
  else
    if negb (zend_check_type_extended et val) then Some (false, Some val)
    else None.

Fixpoint array_of_foreach (et : zend_type) (buckets : HashTable)
  : bool * option zval :=
  match buckets with
  | [] => (true, None)
  | (_, val) :: rest =>
      match array_of_visit et val with
      | Some r => r
      | None => array_of_foreach et rest
      end
  end.

(** One iteration of the [for] loop over the declared elements:
    [Some r] returns [r], [None] is [continue] / fall off the end of the body. *)
Definition shape_visit (ht : HashTable) (elem : zend_shape_element)
  : option (bool * shape_out) :=
  match shape_lookup ht elem with
  | None =>
      if is_optional elem then None
      else
        Some (false,
              Build_shape_out
                (if is_string_key elem then key elem else None)
                (if negb (is_string_key elem) then key_num elem else 0)
                (is_string_key elem)
                None
                (Some elem))
  | Some val =>
      if ZEND_TYPE_IS_ARRAY_OF (type elem) then
        if negb (zval_type_eqb (Z_TYPE_P val) IS_ARRAY) then
          Some (false, Build_shape_out None 0 false (Some val) (Some elem))
        else
          match ptr (type elem) with
          | PTR_ARRAY_OF inner_array_of =>
              let '(ok, inner_bad) :=
                zend_validate_array_of inner_array_of (Z_ARRVAL_P val) in
              if negb ok then
                Some (false,
                      Build_shape_out None 0 false
                        (Some (or_val inner_bad val)) (Some elem))
              else None
          | _ => Some (false, shape_out_init)
          end
      else if ZEND_TYPE_IS_ARRAY_SHAPE (type elem) then
        if negb (zval_type_eqb (Z_TYPE_P val) IS_ARRAY) then
          Some (false, Build_shape_out None 0 false (Some val) (Some elem))
        else
          match ptr (type elem) with
          | PTR_ARRAY_SHAPE inner_shape =>
              let '(ok, inner) :=
                zend_validate_array_shape inner_shape (Z_ARRVAL_P val) in
              if negb ok then
                Some (false,
                      Build_shape_out
                        (missing_key inner)
                        (missing_key_num inner)
                        (missing_is_string_key inner)
                        (Some (or_val (bad_value inner) val))
                        (Some (match failed_element inner with
                               | Some inner_failed => inner_failed
                               | None => elem
                               end)))
              else None
          | _ => Some (false, shape_out_init)
          end
      else
        if negb (zend_check_type_extended (type elem) val) then
          Some (false, Build_shape_out None 0 false (Some val) (Some elem))
        else None
  end.

Fixpoint shape_loop (ht : HashTable) (elems : list zend_shape_element)
  : bool * shape_out :=
  match elems with
  | [] => (true, shape_out_init)
  | elem :: rest =>
      match shape_visit ht elem with
      | Some r => r
      | None => shape_loop ht rest
      end
  end.

(** The matcher the two loops apply to a value and the type declared for
    it: the specialised validator when the type is an array-of or a shape,
    [zend_check_type_extended] otherwise. *)
Definition element_matches (et : zend_type) (val : zval) : bool :=
  if ZEND_TYPE_IS_ARRAY_OF et then
    zval_type_eqb (Z_TYPE_P val) IS_ARRAY
    && match ptr et with
       | PTR_ARRAY_OF inner => fst (zend_validate_array_of inner (Z_ARRVAL_P val))
       | _ => false
       end
  else if ZEND_TYPE_IS_ARRAY_SHAPE et then
    zval_type_eqb (Z_TYPE_P val) IS_ARRAY
    && match ptr et with
       | PTR_ARRAY_SHAPE inner_shape =>
           fst (zend_validate_array_shape inner_shape (Z_ARRVAL_P val))
       | _ => false
       end
  else zend_check_type_extended et val.

(** A declared element is satisfied by an array: absent and optional, or
    present with a matching value. *)
Definition shape_element_ok (ht : HashTable) (elem : zend_shape_element) : bool :=
  match shape_lookup ht elem with
  | None => is_optional elem
  | Some val => element_matches (type elem) val
  end.

(** The key a declared element is looked up under. *)
Definition declared_key (elem : zend_shape_element) : option hash_key :=
  if is_string_key elem then option_map key_str (key elem)
  else Some (key_idx (key_num elem)).

End Loops.

Definition ex_int : zend_type := Build_zend_type PTR_NULL (Z.shiftl 1 4).
Definition ex_string : zend_type := Build_zend_type PTR_NULL (Z.shiftl 1 6).
(** [array{id: int, name?: string}] *)
Definition ex_shape_id_name_opt : zend_array_shape :=
  Build_zend_array_shape 1 0
    [ Build_zend_shape_element (Some "id") 0 true false ex_int;
      Build_zend_shape_element (Some "name") 0 true true ex_string ].
(** [array<int>] *)
Definition ex_array_of_int : zend_array_of := Build_zend_array_of ex_int 1 1.

(** The tree of [array{...}] with the given element nodes. *)
Definition shape_ast (element_list : list zend_ast) : zend_ast :=
  ast_node ZEND_AST_TYPE_ARRAY_SHAPE 0
    [ast_node ZEND_AST_SHAPE_ELEMENT_LIST 0 element_list].

(** The tree of [array<T>]. *)
Definition array_of_ast (element_type_ast : zend_ast) : zend_ast :=
  ast_node ZEND_AST_TYPE_ARRAY_OF 0 [element_type_ast].

(** The element node [key: T] or [key?: T] with a string key. *)
Definition element_ast (k : string) (optional : bool) (type_ast : zend_ast)
  : zend_ast :=
  ast_node ZEND_AST_SHAPE_ELEMENT (if optional then 1 else 0)
    [ast_zval ZEND_AST_ZVAL 0 (zv_string k); type_ast].

(** Built-in type names, by type code. *)
Definition int_ast : zend_ast := ast_node ZEND_AST_TYPE 4 [].
Definition string_ast : zend_ast := ast_node ZEND_AST_TYPE 6 [].

(** [array<T>] and [array{...}] as the compiler builds them. *)
Definition array_of_type {E : zend_engine} (element_type : zend_type)
  (depth : Z) : zend_type :=
  ZEND_TYPE_SET_ARRAY_OF_PTR ZEND_TYPE_INIT_NONE
    (Build_zend_array_of element_type 1 depth).

Definition array_shape_type {E : zend_engine}
  (elements : list zend_shape_element) : zend_type :=
  ZEND_TYPE_SET_ARRAY_SHAPE_PTR ZEND_TYPE_INIT_NONE
    (Build_zend_array_shape 1
       (zend_compute_shape_hash (Build_zend_array_shape 1 0 elements))
       elements).

Section CompilerViews.
Context {E : zend_engine}.

(** One iteration of the loop of [zend_compile_array_shape_type]: the shape
    element a [ZEND_AST_SHAPE_ELEMENT] node compiles to. *)
Definition compile_shape_element (element_ast : zend_ast)
  : compile_result zend_shape_element :=
  match element_ast with
  | ast_node ZEND_AST_SHAPE_ELEMENT attr (key_ast :: type_ast :: _) =>
      match key_ast with
      | ast_zval ZEND_AST_ZVAL _ key_zval =>
          key_fields <-
            match key_zval with
            | zv_string str => Compiled (Some str, true, 0)
            | zv_long lval => Compiled (None, false, zend_ulong lval)
            | _ => zend_error_noreturn Shape_key_must_be_a_string_or_integer
            end ;;
          let '(key, is_string_key, key_num) := key_fields in
          let is_optional := negb (Z.land attr 1 =? 0) in
          type <- zend_compile_type_internal type_ast true ;;
          Compiled
            (Build_zend_shape_element key key_num is_string_key is_optional type)
      | _ => zend_error_noreturn Assertion_failed
      end
  | _ => zend_error_noreturn Assertion_failed
  end.

Fixpoint compile_shape_elements (children : list zend_ast)
  : compile_result (list zend_shape_element) :=
  match children with
  | [] => Compiled []
  | element_ast :: rest =>
      elem <- compile_shape_element element_ast ;;
      rest' <- compile_shape_elements rest ;;
      Compiled (elem :: rest')
  end.

(** The depth stored in a compiled array-of type, and the depth stored in
    its element type when that is an array-of too. *)
Definition compiled_depth (r : compile_result zend_type) : option Z :=
  match r with
  | Compiled (Build_zend_type (PTR_ARRAY_OF ao) _) => Some (depth ao)
  | _ => None
  end.

Definition compiled_element_depth (r : compile_result zend_type) : option Z :=
  match r with
  | Compiled (Build_zend_type (PTR_ARRAY_OF ao) _) =>
      if ZEND_TYPE_IS_ARRAY_OF (element_type ao) then
        match ptr (element_type ao) with
        | PTR_ARRAY_OF inner => Some (depth inner)
        | _ => None
        end
      else None
  | _ => None
  end.

End CompilerViews.

Section EquivalenceViews.
Context {E : zend_engine}.

(** The extended-array tag bits of a type. *)
Definition tag_bits (t : zend_type) : Z :=
  Z.land (type_mask t) ZEND_TYPE_EXTENDED_ARRAY_MASK.

(** The element loop of [zend_types_are_equivalent]. *)
Fixpoint elements_equivalent (elems_a elems_b : list zend_shape_element)
  : bool :=
  match elems_a, elems_b with
  | [], _ => true
  | elem_a :: rest_a, elem_b :: rest_b =>
      if negb (Bool.eqb (is_string_key elem_a) (is_string_key elem_b))
      then false
      else if
        (if is_string_key elem_a
         then negb (zend_string_equals (key elem_a) (key elem_b))
         else negb (key_num elem_a =? key_num elem_b))
      then false
      else if negb (Bool.eqb (is_optional elem_a) (is_optional elem_b))
      then false
      else if negb (zend_types_are_equivalent (type elem_a) (type elem_b))
      then false
      else elements_equivalent rest_a rest_b
  | _ :: _, [] => false
  end.

(** Two shape elements at the same position agree: same kind of key, same
    key, same optional flag, equivalent types. *)
Definition elements_agree (elem_a elem_b : zend_shape_element) : Prop :=
  is_string_key elem_a = is_string_key elem_b
  /\ (if is_string_key elem_a
      then zend_string_equals (key elem_a) (key elem_b) = true
      else key_num elem_a = key_num elem_b)
  /\ is_optional elem_a = is_optional elem_b
  /\ zend_types_are_equivalent (type elem_a) (type elem_b) = true.

(** The tag bits of a type agree with the reading of its pointer, at every
    level: what the compiler produces, and what the other functions rely on
    when they cast the pointer. *)
Fixpoint well_tagged (t : zend_type) : bool :=
  match ptr t with
  | PTR_ARRAY_OF ao =>
      ZEND_TYPE_IS_ARRAY_OF t && well_tagged (element_type ao)
  | PTR_ARRAY_SHAPE shape =>
      negb (ZEND_TYPE_IS_ARRAY_OF t) && ZEND_TYPE_IS_ARRAY_SHAPE t
      && (fix all (elems : list zend_shape_element) : bool :=
            match elems with
            | [] => true
            | elem :: rest =>
                (if is_string_key elem
                 then match key elem with Some _ => true | None => false end
                 else true)
                && well_tagged (type elem) && all rest
            end) (elements shape)
  | PTR_LIST type_list =>
      negb (ZEND_TYPE_HAS_EXTENDED_ARRAY t) && negb (ZEND_TYPE_HAS_NAME t)
      && (fix all (l : list zend_type) : bool :=
            match l with
            | [] => true
            | m :: rest => well_tagged m && all rest
            end) type_list
  | PTR_NAME _ => negb (ZEND_TYPE_HAS_EXTENDED_ARRAY t)
  | PTR_NULL =>
      negb (ZEND_TYPE_HAS_EXTENDED_ARRAY t) && negb (ZEND_TYPE_HAS_NAME t)
  end.

Definition well_tagged_element (elem : zend_shape_element) : bool :=
  (if is_string_key elem
   then match key elem with Some _ => true | None => false end
   else true)
  && well_tagged (type elem).

(** The bits the engine uses do not overlap the two tag bits of the
    extension, and only a class type carries the name bit: the layout the
    header of the extension assumes ("we use high bits to avoid collision
    with existing type masks"). *)
Record engine_layout : Prop := Build_engine_layout {
  layout_null : Z.land MAY_BE_NULL ZEND_TYPE_EXTENDED_ARRAY_MASK = 0;
  layout_array : Z.land MAY_BE_ARRAY ZEND_TYPE_EXTENDED_ARRAY_MASK = 0;
  layout_name : Z.land _ZEND_TYPE_NAME_BIT ZEND_TYPE_EXTENDED_ARRAY_MASK = 0;
  layout_list : Z.land _ZEND_TYPE_LIST_BIT ZEND_TYPE_EXTENDED_ARRAY_MASK = 0;
  layout_union : Z.land _ZEND_TYPE_UNION_BIT ZEND_TYPE_EXTENDED_ARRAY_MASK = 0;
  layout_intersection :
    Z.land _ZEND_TYPE_INTERSECTION_BIT ZEND_TYPE_EXTENDED_ARRAY_MASK = 0;
  layout_code :
    forall code,
      Z.land (zend_type_code_mask code) ZEND_TYPE_EXTENDED_ARRAY_MASK = 0;
  layout_null_name : Z.land MAY_BE_NULL _ZEND_TYPE_NAME_BIT = 0;
  layout_list_name : Z.land _ZEND_TYPE_LIST_BIT _ZEND_TYPE_NAME_BIT = 0;
  layout_union_name : Z.land _ZEND_TYPE_UNION_BIT _ZEND_TYPE_NAME_BIT = 0;
  layout_intersection_name :
    Z.land _ZEND_TYPE_INTERSECTION_BIT _ZEND_TYPE_NAME_BIT = 0;
  layout_code_name :
    forall code, Z.land (zend_type_code_mask code) _ZEND_TYPE_NAME_BIT = 0
}.

End EquivalenceViews.
(** Elements of the worked examples: [id: int], [name?: string],
    [email?: string]. *)
Definition ex_elem_id : zend_shape_element :=
  Build_zend_shape_element (Some "id") 0 true false ex_int.
Definition ex_elem_name_opt : zend_shape_element :=
  Build_zend_shape_element (Some "name") 0 true true ex_string.
Definition ex_elem_email_opt : zend_shape_element :=
  Build_zend_shape_element (Some "email") 0 true true ex_string.

Section StringifyViews.
Context {E : zend_engine}.

(** How a shape element is displayed: the key, [?] when optional, [: ],
    the type. *)
Definition element_key_string (elem : zend_shape_element) : string :=
  match is_string_key elem, key elem with
  | true, Some k => k
  | _, _ => NilZero.string_of_int (Z.to_int (zend_long (key_num elem)))
  end.

Definition render_element (elem : zend_shape_element) : string :=
  (element_key_string elem
   ++ (if is_optional elem then "?" else "")
   ++ ": " ++ zend_type_to_string_extended (type elem))%string.




(** The element loop and the member loop of [zend_type_to_string_extended]. *)
Fixpoint shape_elements_to_string (i : Z) (elems : list zend_shape_element)
  (buf : string) : string :=
  match elems with
  | [] => buf
  | elem :: rest =>
      let buf := if 0 <? i then (buf ++ ", ")%string else buf in
      let buf :=
        match is_string_key elem, key elem with
        | true, Some k => (buf ++ k)%string
        | _, _ => smart_str_append_long buf (zend_long (key_num elem))
        end in
      let buf := if is_optional elem then (buf ++ "?")%string else buf in
      let buf := (buf ++ ": ")%string in
      let type_str := zend_type_to_string_extended (type elem) in
      shape_elements_to_string (i + 1) rest (buf ++ type_str)%string
  end.

Section TypeList.
Variable separator : string.

Fixpoint type_list_to_string (i : Z) (l : list zend_type) (buf : string)
  : string :=
  match l with
  | [] => buf
  | t :: rest =>
      let buf := if 0 <? i then (buf ++ separator)%string else buf in
      let member_str := zend_type_to_string_extended t in
      type_list_to_string (i + 1) rest (buf ++ member_str)%string
  end.

End TypeList.

End StringifyViews.

(** A store for the lifecycle example: [array<array<int>>] as compiled, the
    outer descriptor at address 1 and the inner one at address 2, each with
    reference count 1; and [array{tags: array<int>}] with the shape at
    address 3 and its [array<int>] at address 4. *)
Definition ex_array_bits : Z :=
  Z.lor ZEND_TYPE_ARRAY_OF_BIT (Z.shiftl 1 7).
Definition ex_shape_bits : Z :=
  Z.lor ZEND_TYPE_ARRAY_SHAPE_BIT (Z.shiftl 1 7).

Definition ex_store : Lifecycle.memory :=
  Lifecycle.Build_memory
    (fun a =>
       match a with
       | 1%nat =>
           Some (Lifecycle.array_of_at
                   (Lifecycle.Build_zend_type (Lifecycle.PTR_ARRAY_OF 2%nat)
                      ex_array_bits) 1 2)
       | 2%nat =>
           Some (Lifecycle.array_of_at
                   (Lifecycle.Build_zend_type Lifecycle.PTR_NULL
                      (Z.shiftl 1 4)) 1 1)
       | 3%nat =>
           Some (Lifecycle.shape_at 1 0
                   [Lifecycle.Build_zend_shape_element (Some "tags") 0 true
                      false
                      (Lifecycle.Build_zend_type (Lifecycle.PTR_ARRAY_OF 4%nat)
                         ex_array_bits)])
       | 4%nat =>
           Some (Lifecycle.array_of_at
                   (Lifecycle.Build_zend_type Lifecycle.PTR_NULL
                      (Z.shiftl 1 4)) 1 1)
       | _ => None
       end)
    [].

(** The declared types that own the descriptors at addresses 1 and 3. *)
Definition ex_owner_of_1 : Lifecycle.zend_type :=
  Lifecycle.Build_zend_type (Lifecycle.PTR_ARRAY_OF 1%nat) ex_array_bits.
Definition ex_owner_of_3 : Lifecycle.zend_type :=
  Lifecycle.Build_zend_type (Lifecycle.PTR_ARRAY_SHAPE 3%nat) ex_shape_bits.

Section VerificationViews.
Context {E : zend_engine}.




End VerificationViews.



(** ** Reflection objects (php_reflection_array_shapes.c) *)

(** [Z_STR_P] and [Z_LVAL_P]: only read after the test of the type tag. *)
Definition Z_STR_P (val : zval) : string :=
  match val with
  | zv_string s => s
  | _ => ""
  end.

Definition Z_LVAL_P (val : zval) : Z :=
  match val with
  | zv_long n => n
  | _ => 0
  end.

(** [ZEND_TYPE_ARRAY_OF_PTR] and [ZEND_TYPE_ARRAY_SHAPE_PTR]: the pointer of
    a type read as a descriptor.  The callers test the tag bit first; where
    the pointer holds something else the model reads NULL. *)
Definition ZEND_TYPE_ARRAY_OF_PTR (t : zend_type) : option zend_array_of :=
  match ptr t with
  | PTR_ARRAY_OF array_of => Some array_of
  | _ => None
  end.

Definition ZEND_TYPE_ARRAY_SHAPE_PTR (t : zend_type) : option zend_array_shape :=
  match ptr t with
  | PTR_ARRAY_SHAPE shape => Some shape
  | _ => None
  end.

(** The three internal object structures; the constructor is the class of
    the object and its arguments are the fields before [std]. *)
Inductive zend_object : Type :=
| ReflectionArrayOfType (array_of : option zend_array_of) (type : zend_type)
| ReflectionArrayShapeType (shape : option zend_array_shape) (type : zend_type)
| ReflectionArrayShapeElement (element : option zend_shape_element).

(** [reflection_type_from_zend_type]: NULL for standard types. *)
Definition reflection_type_from_zend_type (type : zend_type)
  : option zend_object :=
  if ZEND_TYPE_IS_ARRAY_OF type then
    Some (ReflectionArrayOfType (ZEND_TYPE_ARRAY_OF_PTR type) type)
  else if ZEND_TYPE_IS_ARRAY_SHAPE type then
    Some (ReflectionArrayShapeType (ZEND_TYPE_ARRAY_SHAPE_PTR type) type)
  else None.

Section Reflection.
Context {E : zend_engine}.

(** [ReflectionArrayOfType::allowsNull] and
    [ReflectionArrayShapeType::allowsNull] have the same body. *)
Definition ReflectionArrayOfType_allowsNull (type : zend_type) : bool :=
  negb (Z.land (type_mask type) MAY_BE_NULL =? 0).

Definition ReflectionArrayShapeType_allowsNull (type : zend_type) : bool :=
  negb (Z.land (type_mask type) MAY_BE_NULL =? 0).

(** [ReflectionArrayOfType::getElementType]: NULL without a descriptor and
    for simple element types. *)
Definition ReflectionArrayOfType_getElementType
  (array_of : option zend_array_of) : option zend_object :=
  match array_of with
  | None => None
  | Some array_of => reflection_type_from_zend_type (element_type array_of)
  end.

(** The test both [hasElement] and [getElement] apply to one declared
    element and the key they are given. *)
Definition ReflectionArrayShapeType_key_found (elem : zend_shape_element)
  (key_zval : zval) : bool :=
  if zval_type_eqb (Z_TYPE_P key_zval) IS_STRING then
    is_string_key elem
    && match key elem with Some _ => true | None => false end
    && zend_string_equals (key elem) (Some (Z_STR_P key_zval))
  else if zval_type_eqb (Z_TYPE_P key_zval) IS_LONG then
    negb (is_string_key elem)
    && (key_num elem =? zend_ulong (Z_LVAL_P key_zval))
  else false.

(** [ReflectionArrayShapeType::hasElement] *)
Definition ReflectionArrayShapeType_hasElement
  (shape : option zend_array_shape) (key_zval : zval) : bool :=
  match shape with
  | None => false
  | Some shape =>
      (fix loop (elems : list zend_shape_element) : bool :=
         match elems with
         | [] => false
         | elem :: rest =>
             if ReflectionArrayShapeType_key_found elem key_zval then true
             else loop rest
         end) (elements shape)
  end.

(** [ReflectionArrayShapeType::getElement]: NULL when no element is found. *)
Definition ReflectionArrayShapeType_getElement
  (shape : option zend_array_shape) (key_zval : zval) : option zend_object :=
  match shape with
  | None => None
  | Some shape =>
      (fix loop (elems : list zend_shape_element) : option zend_object :=
         match elems with
         | [] => None
         | elem :: rest =>
             let found := ReflectionArrayShapeType_key_found elem key_zval in
             if found then Some (ReflectionArrayShapeElement (Some elem))
             else loop rest
         end) (elements shape)
  end.

(** [ReflectionArrayShapeType::getElements]: the objects in the order in
    which they are appended to the result array. *)
Definition ReflectionArrayShapeType_getElements
  (shape : option zend_array_shape) : list zend_object :=
  match shape with
  | None => []
  | Some shape =>
      map (fun elem => ReflectionArrayShapeElement (Some elem)) (elements shape)
  end.

(** [ReflectionArrayShapeType::getElementCount] *)
Definition ReflectionArrayShapeType_getElementCount
  (shape : option zend_array_shape) : Z :=
  match shape with
  | None => 0
  | Some shape => num_elements shape
  end.

(** [ReflectionArrayShapeElement::getName] (and its alias [getKey]):
    [RETURN_LONG] reads the unsigned [key_num] as a [zend_long].  A
    string-keyed element always has its key; the model returns null where
    the C code would copy a NULL string. *)
Definition ReflectionArrayShapeElement_getName
  (element : option zend_shape_element) : zval :=
  match element with
  | None => zv_null
  | Some element =>
      if is_string_key element then
        match key element with
        | Some k => zv_string k
        | None => zv_null
        end
      else zv_long (zend_long (key_num element))
  end.

Definition ReflectionArrayShapeElement_isStringKey
  (element : option zend_shape_element) : bool :=
  match element with
  | None => false
  | Some element => is_string_key element
  end.

Definition ReflectionArrayShapeElement_isOptional
  (element : option zend_shape_element) : bool :=
  match element with
  | None => false
  | Some element => is_optional element
  end.

(** [ReflectionArrayShapeElement::getType]: NULL for simple types. *)
Definition ReflectionArrayShapeElement_getType
  (element : option zend_shape_element) : option zend_object :=
  match element with
  | None => None
  | Some element => reflection_type_from_zend_type (type element)
  end.

(** [ReflectionArrayShapeElement::__toString]: unlike the stringifier of
    the whole shape, the key of a string-keyed element is appended without
    a NULL test; the model appends nothing for a NULL key. *)
Definition ReflectionArrayShapeElement___toString
  (element : option zend_shape_element) : string :=
  match element with
  | None => ""
  | Some element =>
      let buf := "" in
      let buf :=
        if is_string_key element then
          (buf ++ match key element with Some k => k | None => "" end)%string
        else smart_str_append_long buf (zend_long (key_num element)) in
      let buf := if is_optional element then (buf ++ "?")%string else buf in
      let buf := (buf ++ ": ")%string in
      let type_str := zend_type_to_string_extended (type element) in
      (buf ++ type_str)%string
  end.

(** [ReflectionArrayShapeType::__toString] and [getName] *)
Definition ReflectionArrayShapeType___toString (type : zend_type) : string :=
  zend_type_to_string_extended type.

(** [ReflectionArrayOfType::__toString] and [getName] *)
Definition ReflectionArrayOfType___toString (type : zend_type) : string :=
  zend_type_to_string_extended type.

End Reflection.

(** ** Predicates used by the statements below *)

(** The format string of a raised error. *)
Definition error_format (e : type_error) : string :=
  match e with zend_type_error format _ => format end.

Section Predicates.
Context {E : zend_engine}.

(** What the loop of [zend_validate_array_of] leaves in its result and
    [*bad_element]: nothing on success, a value on failure. *)
Definition array_of_reports (et : zend_type) : Prop :=
  forall ht,
    (fst (array_of_foreach et ht) = true /\ snd (array_of_foreach et ht) = None)
    \/ (fst (array_of_foreach et ht) = false
        /\ exists v, snd (array_of_foreach et ht) = Some v).

(** What the loop of [zend_validate_array_shape] leaves in its
    out-parameters: untouched on success; on failure the failed element,
    and no bad value only for a required element of this list that the
    array lacks. *)
Definition shape_reports (els : list zend_shape_element) : Prop :=
  forall ht,
    (fst (shape_loop ht els) = true /\ snd (shape_loop ht els) = shape_out_init)
    \/ (fst (shape_loop ht els) = false
        /\ exists e,
             failed_element (snd (shape_loop ht els)) = Some e
             /\ (bad_value (snd (shape_loop ht els)) = None ->
                 In e els /\ is_optional e = false /\ shape_lookup ht e = None)).

(** Types built from built-in types, array-of and shapes only, with tag
    bits that agree with the pointer: no class name and no type list at any
    level. *)
Fixpoint array_structured (t : zend_type) : bool :=
  match ptr t with
  | PTR_ARRAY_OF ao =>
      ZEND_TYPE_IS_ARRAY_OF t && array_structured (element_type ao)
  | PTR_ARRAY_SHAPE shape =>
      negb (ZEND_TYPE_IS_ARRAY_OF t) && ZEND_TYPE_IS_ARRAY_SHAPE t
      && (fix all (elems : list zend_shape_element) : bool :=
            match elems with
            | [] => true
            | elem :: rest => array_structured (type elem) && all rest
            end) (elements shape)
  | PTR_NULL =>
      negb (ZEND_TYPE_HAS_EXTENDED_ARRAY t) && negb (ZEND_TYPE_HAS_LIST t)
      && negb (ZEND_TYPE_HAS_NAME t)
  | PTR_NAME _ | PTR_LIST _ => false
  end.

(** The key fields of a shape element as the compiler fills them: a string
    key with [key_num] 0, or no string and a [zend_ulong]. *)
Definition compiled_key (elem : zend_shape_element) : bool :=
  if is_string_key elem then
    match key elem with Some _ => key_num elem =? 0 | None => false end
  else
    match key elem with
    | Some _ => false
    | None => (0 <=? key_num elem) && (key_num elem <? 2 ^ 64)
    end.

(** The state of the descriptors of a type right after compilation:
    reference count 1 everywhere, a depth that fits [uint8_t], the stored
    hash of a shape equal to the hash of its elements, the array bit set
    beside the tag bit, and compiled key fields. *)
Fixpoint freshly_compiled (t : zend_type) : bool :=
  match ptr t with
  | PTR_ARRAY_OF ao =>
      (array_of_refcount ao =? 1)
      && (0 <=? depth ao) && (depth ao <? 256)
      && (Z.land (type_mask t) MAY_BE_ARRAY =? MAY_BE_ARRAY)
      && freshly_compiled (element_type ao)
  | PTR_ARRAY_SHAPE shape =>
      (shape_refcount shape =? 1)
      && (shape_hash shape =? zend_compute_shape_hash shape)
      && (Z.land (type_mask t) MAY_BE_ARRAY =? MAY_BE_ARRAY)
      && (fix all (elems : list zend_shape_element) : bool :=
            match elems with
            | [] => true
            | elem :: rest =>
                compiled_key elem && freshly_compiled (type elem) && all rest
            end) (elements shape)
  | PTR_LIST type_list =>
      (fix all (l : list zend_type) : bool :=
         match l with
         | [] => true
         | m :: rest => freshly_compiled m && all rest
         end) type_list
  | PTR_NAME _ | PTR_NULL => true
  end.

(** The trees [zend_compile_type_internal] accepts: the node kinds of its
    [switch], with the children and literals its assertions and the key
    test of the shape compiler ask for. *)
Section ValidAst.
Variable valid : zend_ast -> bool.

Definition valid_shape_element_ast (element_ast : zend_ast) : bool :=
  match element_ast with
  | ast_node ZEND_AST_SHAPE_ELEMENT _
      (ast_zval ZEND_AST_ZVAL _ key_zval :: type_ast :: _) =>
      match key_zval with
      | zv_string _ | zv_long _ => true
      | _ => false
      end
      && valid type_ast
  | _ => false
  end.

End ValidAst.

Fixpoint valid_type_ast (ast : zend_ast) : bool :=
  match ast with
  | ast_node ZEND_AST_TYPE_ARRAY_OF _ (element_type_ast :: _) =>
      valid_type_ast element_type_ast
  | ast_node ZEND_AST_TYPE_ARRAY_SHAPE _
      (ast_node ZEND_AST_SHAPE_ELEMENT_LIST _ element_list :: _) =>
      forallb (valid_shape_element_ast valid_type_ast) element_list
  | ast_node ZEND_AST_TYPE _ _ | ast_zval ZEND_AST_TYPE _ _ => true
  | ast_zval ZEND_AST_CLASS_TYPE _ (zv_string _)
  | ast_zval ZEND_AST_NAME _ (zv_string _) => true
  | ast_node ZEND_AST_NULLABLE_TYPE _ (child0 :: _) => valid_type_ast child0
  | ast_node ZEND_AST_TYPE_UNION _ children
  | ast_node ZEND_AST_TYPE_INTERSECTION _ children =>
      forallb valid_type_ast children
  | _ => false
  end.

End Predicates.

(** ** Uniquely owned chains of array-of descriptors in a store *)
Section OwnedChains.
Context {E : zend_engine}.

(** [ty] owns the array-of descriptors at [addrs], outermost first, each
    with reference count 1, down to an element type that holds no
    descriptor, list or name. *)
Fixpoint owns_chain (m : Lifecycle.memory) (addrs : list Lifecycle.addr)
  (ty : Lifecycle.zend_type) : Prop :=
  match addrs with
  | [] =>
      Lifecycle.ZEND_TYPE_IS_ARRAY_OF ty = false
      /\ Lifecycle.ZEND_TYPE_IS_ARRAY_SHAPE ty = false
      /\ Lifecycle.ZEND_TYPE_HAS_LIST ty = false
      /\ Lifecycle.ZEND_TYPE_HAS_NAME ty = false
  | a :: rest =>
      Lifecycle.ZEND_TYPE_IS_ARRAY_OF ty = true
      /\ Lifecycle.ptr ty = Lifecycle.PTR_ARRAY_OF a
      /\ exists element_type depth,
           Lifecycle.cells m a
           = Some (Lifecycle.array_of_at element_type 1 depth)
           /\ owns_chain m rest element_type
  end.

(** The string keys of the elements of a shape, in declaration order, as
    the releases they cause. *)
Definition key_releases (els : list Lifecycle.zend_shape_element)
  : list Lifecycle.release_event :=
  flat_map
    (fun elem =>
       match Lifecycle.key elem with
       | Some k => [Lifecycle.zend_string_release k]
       | None => []
       end) els.

End OwnedChains.

(** ** More worked examples *)

(** [int|string] and [Foo|Bar] as trees, [int|string] as a type value of
    the example engine, [?array<int>] as compiled there, and the one-element
    shape [array{id: int}]. *)
Definition int_or_string_ast : zend_ast :=
  ast_node ZEND_AST_TYPE_UNION 0 [int_ast; string_ast].
Definition foo_or_bar_ast : zend_ast :=
  ast_node ZEND_AST_TYPE_UNION 0
    [ast_zval ZEND_AST_CLASS_TYPE 0 (zv_string "Foo");
     ast_zval ZEND_AST_CLASS_TYPE 0 (zv_string "Bar")].
Definition ex_int_or_string : zend_type :=
  Build_zend_type (PTR_LIST [ex_int; ex_string])
    (Z.lor (Z.shiftl 1 22) (Z.shiftl 1 18)).
Definition ex_nullable_array_of_int : zend_type :=
  Build_zend_type (PTR_ARRAY_OF ex_array_of_int)
    (Z.lor (Z.lor ZEND_TYPE_ARRAY_OF_BIT (Z.shiftl 1 7)) (Z.shiftl 1 1)).
Definition ex_shape_id : zend_array_shape :=
  Build_zend_array_shape 1 0 [ex_elem_id].

(** [n] copies of a string. *)
Fixpoint string_repeat (s : string) (n : nat) : string :=
  match n with
  | O => ""
  | S n => (s ++ string_repeat s n)%string
  end.

(** ** What the specification asks of the validators

    The requirements below are written against the array as a map from
    keys to values and against the matcher [zend_check_type_extended]
    alone.  None of the functions of the extension uses them; the
    validators are compared with them. *)

Definition hash_key_eqb (a b : hash_key) : bool :=
  match a, b with
  | key_str s, key_str t => String.eqb s t
  | key_idx i, key_idx j => Z.eqb i j
  | _, _ => false
  end.

(** The value of an array under a key, if it has one: the first bucket
    that carries the key. *)
Fixpoint array_entry (ht : HashTable) (k : hash_key) : option zval :=
  match ht with
  | [] => None
  | (k', v) :: rest => if hash_key_eqb k' k then Some v else array_entry rest k
  end.

Section ValidatorSpecification.
Context {E : zend_engine}.

(** The value of an array under the key that a shape element declares. *)
Definition declared_entry (ht : HashTable) (elem : zend_shape_element)
  : option zval :=
  match declared_key elem with
  | Some k => array_entry ht k
  | None => None
  end.

(** A value matches a declared type when the matcher accepts it; where the
    type is an array-of or a shape, the value itself has to be the array. *)
Definition value_matches (et : zend_type) (val : zval) : bool :=
  zend_check_type_extended et val
  && (negb (ZEND_TYPE_IS_ARRAY_OF et || ZEND_TYPE_IS_ARRAY_SHAPE et)
      || zval_type_eqb (Z_TYPE_P val) IS_ARRAY).

(** An array satisfies a declared element: the key is absent and the
    element optional, or the key is present and its value matches the
    declared type. *)
Definition element_satisfied (ht : HashTable) (elem : zend_shape_element)
  : bool :=
  match declared_entry ht elem with
  | None => is_optional elem
  | Some val => value_matches (type elem) val
  end.

End ValidatorSpecification.

(** ** Declarations of shape elements

    One declaration [key: T] or [key?: T] as the parser hands it to the
    compiler: the key literal, the attributes (bit 0 is the optional marker)
    and the tree of [T]. *)
Record element_declaration : Type := Build_element_declaration {
  declared_literal : zval;
  declared_attr : Z;
  declared_type_ast : zend_ast
}.

(** The [ZEND_AST_SHAPE_ELEMENT] node of a declaration. *)
Definition declaration_node (d : element_declaration) : zend_ast :=
  ast_node ZEND_AST_SHAPE_ELEMENT (declared_attr d)
    [ast_zval ZEND_AST_ZVAL 0 (declared_literal d); declared_type_ast d].

(** The shape element a declaration stands for, once its type [t] is
    compiled; there is none for a key literal that is neither a string nor
    an integer. *)
Definition declaration_element (d : element_declaration) (t : zend_type)
  : option zend_shape_element :=
  match declared_literal d with
  | zv_string s =>
      Some (Build_zend_shape_element (Some s) 0 true (Z.odd (declared_attr d)) t)
  | zv_long n =>
      Some (Build_zend_shape_element None (n mod 2 ^ 64) false
              (Z.odd (declared_attr d)) t)
  | _ => None
  end.

(** ** What the specification asks of the diagnostics *)
Section DiagnosticsSpecification.
Context {E : zend_engine}.






End DiagnosticsSpecification.

(** ** Type values up to their reference counts

    The reference-counting helpers of the header ([zend_array_of_addref],
    [zend_array_shape_addref] and the two release helpers on a descriptor
    that stays alive) change a descriptor in its reference count only.
    [erase_refcounts] sets every reference count to zero, so that two
    readings of one type value between such calls have the same image. *)
Fixpoint erase_refcounts (t : zend_type) : zend_type :=
  match t with
  | Build_zend_type p m =>
      Build_zend_type
        (match p with
         | PTR_NULL => PTR_NULL
         | PTR_NAME n => PTR_NAME n
         | PTR_LIST l => PTR_LIST (map erase_refcounts l)
         | PTR_ARRAY_OF (Build_zend_array_of et _ d) =>
             PTR_ARRAY_OF (Build_zend_array_of (erase_refcounts et) 0 d)
         | PTR_ARRAY_SHAPE (Build_zend_array_shape _ h els) =>
             PTR_ARRAY_SHAPE
               (Build_zend_array_shape 0 h
                  (map (fun e =>
                          match e with
                          | Build_zend_shape_element k n s o ty =>
                              Build_zend_shape_element k n s o
                                (erase_refcounts ty)
                          end) els))
         end) m
  end.

(** ** Worked examples for the validators, the compiler and the display *)

(** [array<int>], [array<array<int>>], [array<array{id: int}>] and [?int]
    as trees. *)
Definition array_of_int_ast : zend_ast := array_of_ast int_ast.
Definition array_of_array_of_int_ast : zend_ast :=
  array_of_ast (array_of_ast int_ast).
Definition array_of_shape_id_ast : zend_ast :=
  array_of_ast (shape_ast [element_ast "id" false int_ast]).
Definition nullable_int_ast : zend_ast :=
  ast_node ZEND_AST_NULLABLE_TYPE 0 [int_ast].

(** [array{user: array{name: string}, tags?: array<int>}] as a tree. *)
Definition user_tags_shape_ast : zend_ast :=
  shape_ast [element_ast "user" false
               (shape_ast [element_ast "name" false string_ast]);
             element_ast "tags" true (array_of_ast int_ast)].

(** [array{a: int, a: string}] and [array{a: int, a: ?int}]: the key [a]
    declared twice. *)
Definition ex_a_int_a_string : list element_declaration :=
  [ Build_element_declaration (zv_string "a") 0 int_ast;
    Build_element_declaration (zv_string "a") 0 string_ast ].
Definition ex_a_int_a_nullable_int : list element_declaration :=
  [ Build_element_declaration (zv_string "a") 0 int_ast;
    Build_element_declaration (zv_string "a") 0 nullable_int_ast ].

(** A function [h(array{user: array{name: string}, tags?: array<int>} $p)]. *)
Definition ex_elem_name : zend_shape_element :=
  Build_zend_shape_element (Some "name") 0 true false ex_string.
Definition ex_elem_user : zend_shape_element :=
  Build_zend_shape_element (Some "user") 0 true false
    (array_shape_type (E := example_engine) [ex_elem_name]).
Definition ex_elem_tags_opt : zend_shape_element :=
  Build_zend_shape_element (Some "tags") 0 true true
    (array_of_type (E := example_engine) ex_int 1).



(** * Properties *)

(** ** The validators and their loops *)
Section ValidatorFacts.
Context {E : zend_engine}.

Lemma zend_validate_array_of_unfold ao ht :
  zend_validate_array_of ao ht = array_of_foreach (element_type ao) ht.
Proof.
  destruct ao as [et rc d].
  destruct ht as [|b rest]; [reflexivity|].
  assert (Hnz : (zend_hash_num_elements (b :: rest) =? 0) = false)
    by (apply Z.eqb_neq; unfold zend_hash_num_elements; cbn [List.length]; lia).
  revert Hnz; generalize (b :: rest); intros l Hnz.
  cbn [zend_validate_array_of element_type]. rewrite Hnz. clear Hnz.
  induction l as [|[k v] l IH]; [reflexivity|].
  cbn [array_of_foreach]. rewrite <- IH. unfold array_of_visit. cbn beta iota.
  destruct (ZEND_TYPE_IS_ARRAY_OF et).
  - destruct (negb (zval_type_eqb (Z_TYPE_P v) IS_ARRAY)); [reflexivity|].
    destruct (ptr et); try reflexivity.
    destruct (zend_validate_array_of array_of (Z_ARRVAL_P v)) as [ok bad].
    destruct (negb ok); reflexivity.
  - destruct (ZEND_TYPE_IS_ARRAY_SHAPE et).
    + destruct (negb (zval_type_eqb (Z_TYPE_P v) IS_ARRAY)); [reflexivity|].
      destruct (ptr et); try reflexivity.
      destruct (zend_validate_array_shape shape (Z_ARRVAL_P v)) as [ok bad].
      destruct (negb ok); reflexivity.
    + destruct (negb (zend_check_type_extended et v)); reflexivity.
Qed.


Lemma zend_validate_array_shape_unfold shape ht :
  zend_validate_array_shape shape ht = shape_loop ht (elements shape).
Proof.
  destruct shape as [rc h els].
  cbn [zend_validate_array_shape elements].
  induction els as [|e els IH]; [reflexivity|].
  cbn [shape_loop]. rewrite <- IH. unfold shape_visit. cbn beta iota.
  destruct (shape_lookup ht e) as [val|].
  2:{ destruct (is_optional e); reflexivity. }
  destruct (ZEND_TYPE_IS_ARRAY_OF (type e)).
  - destruct (negb (zval_type_eqb (Z_TYPE_P val) IS_ARRAY)); [reflexivity|].
    destruct (ptr (type e)); try reflexivity.
    destruct (zend_validate_array_of array_of (Z_ARRVAL_P val)) as [ok bad].
    destruct (negb ok); reflexivity.
  - destruct (ZEND_TYPE_IS_ARRAY_SHAPE (type e)).
    + destruct (negb (zval_type_eqb (Z_TYPE_P val) IS_ARRAY)); [reflexivity|].
      destruct (ptr (type e)); try reflexivity.
      destruct (zend_validate_array_shape shape (Z_ARRVAL_P val)) as [ok bad].
      destruct (negb ok); reflexivity.
    + destruct (negb (zend_check_type_extended (type e) val)); reflexivity.
Qed.

Ltac case_bool :=
  repeat match goal with
    | |- context [if ?c then _ else _] => destruct c eqn:?
    | |- context [match ptr ?t with _ => _ end] => destruct (ptr t) eqn:?
    | |- context [let '(_, _) := ?p in _] => destruct p eqn:?
    end.

Lemma array_of_visit_matches et val :
  array_of_visit et val = None <-> element_matches et val = true.
Proof.
  unfold array_of_visit, element_matches.
  destruct (ZEND_TYPE_IS_ARRAY_OF et); [|destruct (ZEND_TYPE_IS_ARRAY_SHAPE et)].
  - destruct (zval_type_eqb (Z_TYPE_P val) IS_ARRAY); cbn [negb andb];
      [|split; discriminate].
    destruct (ptr et); try (split; discriminate).
    destruct (zend_validate_array_of array_of (Z_ARRVAL_P val)) as [[] bad];
      cbn; split; congruence.
  - destruct (zval_type_eqb (Z_TYPE_P val) IS_ARRAY); cbn [negb andb];
      [|split; discriminate].
    destruct (ptr et); try (split; discriminate).
    destruct (zend_validate_array_shape shape (Z_ARRVAL_P val)) as [[] bad];
      cbn; split; congruence.
  - destruct (zend_check_type_extended et val); cbn; split; congruence.
Qed.

Lemma array_of_visit_fails et val r :
  array_of_visit et val = Some r -> fst r = false.
Proof.
  unfold array_of_visit. case_bool; intros H; inversion H; reflexivity.
Qed.

Lemma shape_visit_ok ht elem :
  shape_visit ht elem = None <-> shape_element_ok ht elem = true.
Proof.
  unfold shape_visit, shape_element_ok, element_matches.
  destruct (shape_lookup ht elem) as [val|].
  2:{ destruct (is_optional elem); split; congruence. }
  destruct (ZEND_TYPE_IS_ARRAY_OF (type elem));
    [|destruct (ZEND_TYPE_IS_ARRAY_SHAPE (type elem))].
  - destruct (zval_type_eqb (Z_TYPE_P val) IS_ARRAY); cbn [negb andb];
      [|split; discriminate].
    destruct (ptr (type elem)); try (split; discriminate).
    destruct (zend_validate_array_of array_of (Z_ARRVAL_P val)) as [[] bad];
      cbn; split; congruence.
  - destruct (zval_type_eqb (Z_TYPE_P val) IS_ARRAY); cbn [negb andb];
      [|split; discriminate].
    destruct (ptr (type elem)); try (split; discriminate).
    destruct (zend_validate_array_shape shape (Z_ARRVAL_P val)) as [[] bad];
      cbn; split; congruence.
  - destruct (zend_check_type_extended (type elem) val); cbn; split; congruence.
Qed.

Lemma shape_visit_fails ht elem r :
  shape_visit ht elem = Some r -> fst r = false.
Proof.
  unfold shape_visit. destruct (shape_lookup ht elem);
    case_bool; intros H; inversion H; reflexivity.
Qed.

Lemma array_of_foreach_pass et ht :
  fst (array_of_foreach et ht) = forallb (fun b => element_matches et (snd b)) ht.
Proof.
  induction ht as [|[k v] ht IH]; [reflexivity|].
  cbn [array_of_foreach forallb snd].
  destruct (array_of_visit et v) as [r|] eqn:Hv.
  - rewrite (array_of_visit_fails _ _ _ Hv).
    destruct (element_matches et v) eqn:Hm; [|reflexivity].
    apply array_of_visit_matches in Hm. congruence.
  - apply array_of_visit_matches in Hv. rewrite Hv. exact IH.
Qed.

Lemma array_of_foreach_first_failure et pre k v post :
  forallb (fun b => element_matches et (snd b)) pre = true ->
  element_matches et v = false ->
  array_of_foreach et (pre ++ (k, v) :: post) = array_of_foreach et [(k, v)].
Proof.
  intros Hpre Hv.
  induction pre as [|[k' v'] pre IH].
  - cbn [app array_of_foreach].
    destruct (array_of_visit et v) eqn:Hvis; [reflexivity|].
    apply array_of_visit_matches in Hvis. congruence.
  - cbn [forallb snd] in Hpre. apply andb_true_iff in Hpre as [H1 H2].
    cbn [app array_of_foreach].
    apply array_of_visit_matches in H1. rewrite H1. auto.
Qed.

Lemma shape_loop_pass ht elems :
  fst (shape_loop ht elems) = forallb (shape_element_ok ht) elems.
Proof.
  induction elems as [|e elems IH]; [reflexivity|].
  cbn [shape_loop forallb].
  destruct (shape_visit ht e) as [r|] eqn:Hv.
  - rewrite (shape_visit_fails _ _ _ Hv).
    destruct (shape_element_ok ht e) eqn:Hm; [|reflexivity].
    apply shape_visit_ok in Hm. congruence.
  - apply shape_visit_ok in Hv. rewrite Hv. exact IH.
Qed.

Lemma shape_loop_first_failure ht pre e post :
  forallb (shape_element_ok ht) pre = true ->
  shape_element_ok ht e = false ->
  shape_loop ht (pre ++ e :: post) = shape_loop ht [e].
Proof.
  intros Hpre He.
  induction pre as [|e' pre IH].
  - cbn [app shape_loop].
    destruct (shape_visit ht e) eqn:Hvis; [reflexivity|].
    apply shape_visit_ok in Hvis. congruence.
  - cbn [forallb] in Hpre. apply andb_true_iff in Hpre as [H1 H2].
    cbn [app shape_loop].
    apply shape_visit_ok in H1. rewrite H1. auto.
Qed.

Lemma zend_hash_find_skip l1 k v l2 s :
  k <> key_str s ->
  zend_hash_find (l1 ++ (k, v) :: l2) s = zend_hash_find (l1 ++ l2) s.
Proof.
  intros Hk. induction l1 as [|[k1 v1] l1 IH]; cbn [app zend_hash_find].
  - destruct k as [s'|i]; [|reflexivity].
    destruct (String.eqb s' s) eqn:Heq; [|reflexivity].
    apply String.eqb_eq in Heq. congruence.
  - destruct k1; [destruct (String.eqb s0 s)|]; auto.
Qed.

Lemma zend_hash_index_find_skip l1 k v l2 h :
  k <> key_idx h ->
  zend_hash_index_find (l1 ++ (k, v) :: l2) h = zend_hash_index_find (l1 ++ l2) h.
Proof.
  intros Hk. induction l1 as [|[k1 v1] l1 IH]; cbn [app zend_hash_index_find].
  - destruct k as [s'|i]; [reflexivity|].
    destruct (Z.eqb i h) eqn:Heq; [|reflexivity].
    apply Z.eqb_eq in Heq. congruence.
  - destruct k1; [|destruct (Z.eqb h0 h)]; auto.
Qed.

Lemma shape_lookup_skip l1 k v l2 elem :
  declared_key elem <> Some k ->
  shape_lookup (l1 ++ (k, v) :: l2) elem = shape_lookup (l1 ++ l2) elem.
Proof.
  unfold declared_key, shape_lookup. intros Hk.
  destruct (is_string_key elem).
  - destruct (key elem) as [s|]; [|reflexivity].
    apply zend_hash_find_skip. cbn in Hk. congruence.
  - apply zend_hash_index_find_skip. congruence.
Qed.

Lemma shape_loop_lookup_ext ht ht' elems :
  (forall e, In e elems -> shape_lookup ht' e = shape_lookup ht e) ->
  shape_loop ht' elems = shape_loop ht elems.
Proof.
  induction elems as [|e elems IH]; intros H; [reflexivity|].
  cbn [shape_loop].
  assert (Hv : shape_visit ht' e = shape_visit ht e).
  { unfold shape_visit. rewrite (H e (or_introl eq_refl)). reflexivity. }
  rewrite Hv, IH; [reflexivity|]. intros e' He'. apply H. right. exact He'.
Qed.

End ValidatorFacts.

Section Claims.
Context {E : zend_engine}.

(** The requirements of the specification and the loop bodies agree. *)
Lemma array_entry_string ht s : array_entry ht (key_str s) = zend_hash_find ht s.
Proof.
  induction ht as [|[[t|i] v] ht IH]; cbn [array_entry zend_hash_find hash_key_eqb].
  - reflexivity.
  - destruct (String.eqb t s); [reflexivity|exact IH].
  - exact IH.
Qed.

Lemma array_entry_index ht h :
  array_entry ht (key_idx h) = zend_hash_index_find ht h.
Proof.
  induction ht as [|[[t|i] v] ht IH];
    cbn [array_entry zend_hash_index_find hash_key_eqb].
  - reflexivity.
  - exact IH.
  - destruct (Z.eqb i h); [reflexivity|exact IH].
Qed.

Lemma declared_entry_lookup ht elem :
  declared_entry ht elem = shape_lookup ht elem.
Proof.
  unfold declared_entry, declared_key, shape_lookup.
  destruct (is_string_key elem).
  - destruct (key elem) as [k|]; cbn [option_map]; [apply array_entry_string|reflexivity].
  - apply array_entry_index.
Qed.

Lemma is_array_not_reference val :
  zval_type_eqb (Z_TYPE_P val) IS_ARRAY = true -> Z_ISREF_P val = false.
Proof. destruct val; cbn; congruence. Qed.

Lemma value_matches_element_matches et val :
  value_matches et val = element_matches et val.
Proof.
  unfold value_matches, element_matches.
  destruct (ZEND_TYPE_IS_ARRAY_OF et) eqn:Hof.
  - cbn [orb negb].
    destruct (zval_type_eqb (Z_TYPE_P val) IS_ARRAY) eqn:Harr;
      [|rewrite andb_false_r; reflexivity].
    rewrite andb_true_r. cbn [andb].
    destruct et as [p m]. cbn [zend_check_type_extended ptr].
    rewrite (is_array_not_reference _ Harr), Hof, Harr.
    destruct p; reflexivity.
  - destruct (ZEND_TYPE_IS_ARRAY_SHAPE et) eqn:Hsh.
    + cbn [orb negb].
      destruct (zval_type_eqb (Z_TYPE_P val) IS_ARRAY) eqn:Harr;
        [|rewrite andb_false_r; reflexivity].
      rewrite andb_true_r. cbn [andb].
      destruct et as [p m]. cbn [zend_check_type_extended ptr].
      rewrite (is_array_not_reference _ Harr), Hof, Hsh, Harr.
      destruct p; reflexivity.
    + cbn [orb negb]. apply andb_true_r.
Qed.

Lemma element_satisfied_ok ht elem :
  element_satisfied ht elem = shape_element_ok ht elem.
Proof.
  unfold element_satisfied, shape_element_ok.
  rewrite declared_entry_lookup.
  destruct (shape_lookup ht elem); [apply value_matches_element_matches|reflexivity].
Qed.

Lemma forallb_satisfied_ok ht elems :
  forallb (element_satisfied ht) elems = forallb (shape_element_ok ht) elems.
Proof.
  induction elems as [|e elems IH]; [reflexivity|].
  cbn [forallb]. rewrite element_satisfied_ok, IH. reflexivity.
Qed.

Lemma forallb_matches_values et (ht : HashTable) :
  forallb (fun b => value_matches et (snd b)) ht
  = forallb (fun b => element_matches et (snd b)) ht.
Proof.
  induction ht as [|b ht IH]; [reflexivity|].
  cbn [forallb]. rewrite value_matches_element_matches, IH. reflexivity.
Qed.

Lemma shape_loop_all_satisfied ht elems :
  forallb (element_satisfied ht) elems = true ->
  shape_loop ht elems = (true, shape_out_init).
Proof.
  induction elems as [|e elems IH]; intros Hall; [reflexivity|].
  cbn [forallb] in Hall. apply andb_true_iff in Hall as [He Hall].
  rewrite element_satisfied_ok in He. apply shape_visit_ok in He.
  cbn [shape_loop]. rewrite He. exact (IH Hall).
Qed.

Lemma shape_loop_first_unsatisfied ht pre e post :
  forallb (element_satisfied ht) pre = true ->
  element_satisfied ht e = false ->
  shape_loop ht (pre ++ e :: post) = shape_loop ht [e].
Proof.
  intros Hpre He. apply shape_loop_first_failure.
  - rewrite <- forallb_satisfied_ok. exact Hpre.
  - rewrite <- element_satisfied_ok. exact He.
Qed.

Lemma is_array_eqb val :
  Z_TYPE_P val = IS_ARRAY -> zval_type_eqb (Z_TYPE_P val) IS_ARRAY = true.
Proof. intros ->. reflexivity. Qed.

Lemma not_array_eqb val :
  Z_TYPE_P val <> IS_ARRAY -> zval_type_eqb (Z_TYPE_P val) IS_ARRAY = false.
Proof. destruct val; cbn; congruence. Qed.

(** What one unsatisfied element whose key is present makes the loop
    report, by the kind of its declared type. *)
Lemma shape_loop_wrong_value ht e val :
  declared_entry ht e = Some val ->
  element_satisfied ht e = false ->
  ((ZEND_TYPE_IS_ARRAY_OF (type e) = false
    /\ ZEND_TYPE_IS_ARRAY_SHAPE (type e) = false)
   \/ Z_TYPE_P val <> IS_ARRAY ->
   shape_loop ht [e]
   = (false, Build_shape_out None 0 false (Some val) (Some e)))
  /\
  (forall inner,
      Z_TYPE_P val = IS_ARRAY ->
      ZEND_TYPE_IS_ARRAY_OF (type e) = true ->
      ptr (type e) = PTR_ARRAY_OF inner ->
      shape_loop ht [e]
      = (false,
         Build_shape_out None 0 false
           (Some (match snd (zend_validate_array_of inner (Z_ARRVAL_P val)) with
                  | Some b => b
                  | None => val
                  end))
           (Some e)))
  /\
  (forall inner,
      Z_TYPE_P val = IS_ARRAY ->
      ZEND_TYPE_IS_ARRAY_OF (type e) = false ->
      ZEND_TYPE_IS_ARRAY_SHAPE (type e) = true ->
      ptr (type e) = PTR_ARRAY_SHAPE inner ->
      shape_loop ht [e]
      = (false,
         Build_shape_out
           (missing_key (snd (zend_validate_array_shape inner (Z_ARRVAL_P val))))
           (missing_key_num
              (snd (zend_validate_array_shape inner (Z_ARRVAL_P val))))
           (missing_is_string_key
              (snd (zend_validate_array_shape inner (Z_ARRVAL_P val))))
           (Some (match bad_value
                          (snd (zend_validate_array_shape inner (Z_ARRVAL_P val)))
                  with
                  | Some b => b
                  | None => val
                  end))
           (Some (match failed_element
                          (snd (zend_validate_array_shape inner (Z_ARRVAL_P val)))
                  with
                  | Some f => f
                  | None => e
                  end)))).
Proof.
  intros Hentry Hsat.
  rewrite element_satisfied_ok in Hsat.
  rewrite declared_entry_lookup in Hentry.
  unfold shape_element_ok in Hsat. rewrite Hentry in Hsat.
  unfold element_matches in Hsat.
  cbn [shape_loop]. unfold shape_visit. rewrite Hentry.
  split; [|split].
  - intros [[Hof Hsh]|Hna].
    + rewrite Hof, Hsh in *. rewrite Hsat. reflexivity.
    + rewrite (not_array_eqb _ Hna) in *. cbn [negb andb] in *.
      destruct (ZEND_TYPE_IS_ARRAY_OF (type e)); [reflexivity|].
      destruct (ZEND_TYPE_IS_ARRAY_SHAPE (type e)); [reflexivity|].
      rewrite Hsat. reflexivity.
  - intros inner Harr Hof Hp.
    rewrite Hof, Hp, (is_array_eqb _ Harr) in *. cbn [negb andb] in *.
    destruct (zend_validate_array_of inner (Z_ARRVAL_P val)) as [ok bad].
    cbn [fst snd] in *. subst ok. cbn [negb]. unfold or_val. reflexivity.
  - intros inner Harr Hof Hsh Hp.
    rewrite Hof, Hsh, Hp, (is_array_eqb _ Harr) in *. cbn [negb andb] in *.
    destruct (zend_validate_array_shape inner (Z_ARRVAL_P val)) as [ok out].
    cbn [fst snd] in *. subst ok. cbn [negb]. unfold or_val. reflexivity.
Qed.

(** Claim C1.  [zend_validate_array_shape] passes exactly when the array
    satisfies every declared element: the key the element declares is absent
    from the array and the element is optional, or the key is present and the
    value under it matches the declared type.  A passing validation reports
    nothing.  Otherwise the first declared element [e] that is not satisfied
    decides, whatever is declared after it: the validation fails; when the
    key of [e] is absent the out-parameters carry the identity of that key
    and [e] itself and no bad value; when the key is present with a value
    that does not match, they carry [e] and that value, or, below a nested
    array-of or shape, what the nested validator reports.  An entry of the
    array under a key that no element declares can be inserted anywhere
    without changing the result. *)
Theorem C1_shape_validation (shape : zend_array_shape) (ht : HashTable) :
  (fst (zend_validate_array_shape shape ht) = true <->
   forallb (element_satisfied ht) (elements shape) = true)
  /\
  (fst (zend_validate_array_shape shape ht) = true ->
   snd (zend_validate_array_shape shape ht) = shape_out_init)
  /\
  (forall pre e post,
      elements shape = pre ++ e :: post ->
      forallb (element_satisfied ht) pre = true ->
      element_satisfied ht e = false ->
      fst (zend_validate_array_shape shape ht) = false
      /\ (forall post',
             zend_validate_array_shape
               (Build_zend_array_shape (shape_refcount shape) (shape_hash shape)
                  (pre ++ e :: post')) ht
             = zend_validate_array_shape shape ht)
      /\ (declared_entry ht e = None ->
          snd (zend_validate_array_shape shape ht)
          = Build_shape_out
              (if is_string_key e then key e else None)
              (if is_string_key e then 0 else key_num e)
              (is_string_key e) None (Some e))
      /\ (forall val,
             declared_entry ht e = Some val ->
             ((ZEND_TYPE_IS_ARRAY_OF (type e) = false
               /\ ZEND_TYPE_IS_ARRAY_SHAPE (type e) = false)
              \/ Z_TYPE_P val <> IS_ARRAY ->
              snd (zend_validate_array_shape shape ht)
              = Build_shape_out None 0 false (Some val) (Some e))
             /\
             (forall inner,
                 Z_TYPE_P val = IS_ARRAY ->
                 ZEND_TYPE_IS_ARRAY_OF (type e) = true ->
                 ptr (type e) = PTR_ARRAY_OF inner ->
                 snd (zend_validate_array_shape shape ht)
                 = Build_shape_out None 0 false
                     (Some (match snd (zend_validate_array_of inner
                                         (Z_ARRVAL_P val)) with
                            | Some b => b
                            | None => val
                            end))
                     (Some e))
             /\
             (forall inner,
                 Z_TYPE_P val = IS_ARRAY ->
                 ZEND_TYPE_IS_ARRAY_OF (type e) = false ->
                 ZEND_TYPE_IS_ARRAY_SHAPE (type e) = true ->
                 ptr (type e) = PTR_ARRAY_SHAPE inner ->
                 snd (zend_validate_array_shape shape ht)
                 = Build_shape_out
                     (missing_key
                        (snd (zend_validate_array_shape inner (Z_ARRVAL_P val))))
                     (missing_key_num
                        (snd (zend_validate_array_shape inner (Z_ARRVAL_P val))))
                     (missing_is_string_key
                        (snd (zend_validate_array_shape inner (Z_ARRVAL_P val))))
                     (Some (match bad_value
                                    (snd (zend_validate_array_shape inner
                                            (Z_ARRVAL_P val)))
                            with
                            | Some b => b
                            | None => val
                            end))
                     (Some (match failed_element
                                    (snd (zend_validate_array_shape inner
                                            (Z_ARRVAL_P val)))
                            with
                            | Some f => f
                            | None => e
                            end)))))
  /\
  (forall l1 k v l2,
      ht = l1 ++ l2 ->
      (forall e, In e (elements shape) -> declared_key e <> Some k) ->
      zend_validate_array_shape shape (l1 ++ (k, v) :: l2)
      = zend_validate_array_shape shape ht).
Proof.
  split; [|split; [|split]].
  - rewrite zend_validate_array_shape_unfold, shape_loop_pass,
      forallb_satisfied_ok. reflexivity.
  - rewrite zend_validate_array_shape_unfold, shape_loop_pass,
      <- forallb_satisfied_ok.
    intros Hall. rewrite (shape_loop_all_satisfied _ _ Hall). reflexivity.
  - intros pre e post Hels Hpre He.
    assert (Hloop : zend_validate_array_shape shape ht = shape_loop ht [e]).
    { rewrite zend_validate_array_shape_unfold, Hels.
      apply shape_loop_first_unsatisfied; assumption. }
    split; [|split; [|split]].
    + rewrite Hloop, shape_loop_pass. cbn [forallb].
      rewrite <- element_satisfied_ok, He. reflexivity.
    + intros post'. rewrite Hloop, zend_validate_array_shape_unfold.
      cbn [elements].
      apply shape_loop_first_unsatisfied; assumption.
    + intros Habs. rewrite Hloop.
      cbn [shape_loop]. unfold shape_visit.
      rewrite declared_entry_lookup in Habs. rewrite Habs.
      unfold element_satisfied in He.
      rewrite declared_entry_lookup, Habs in He. rewrite He.
      destruct (is_string_key e); reflexivity.
    + intros val Hentry. rewrite Hloop.
      destruct (shape_loop_wrong_value ht e val Hentry He) as [H1 [H2 H3]].
      split; [|split].
      * intros Hkind. rewrite (H1 Hkind). reflexivity.
      * intros inner Harr Hof Hp. rewrite (H2 inner Harr Hof Hp). reflexivity.
      * intros inner Harr Hof Hsh Hp.
        rewrite (H3 inner Harr Hof Hsh Hp). reflexivity.
  - intros l1 k v l2 Hht Hundeclared.
    rewrite !zend_validate_array_shape_unfold. subst ht.
    apply shape_loop_lookup_ext. intros e He.
    apply shape_lookup_skip. apply Hundeclared. exact He.
Qed.

Lemma array_of_foreach_all_match et ht :
  forallb (fun b => value_matches et (snd b)) ht = true ->
  array_of_foreach et ht = (true, None).
Proof.
  induction ht as [|[k v] ht IH]; intros Hall; [reflexivity|].
  cbn [forallb snd] in Hall. apply andb_true_iff in Hall as [Hv Hall].
  rewrite value_matches_element_matches in Hv.
  apply array_of_visit_matches in Hv.
  cbn [array_of_foreach]. rewrite Hv. exact (IH Hall).
Qed.

Lemma array_of_foreach_first_mismatch et pre k v post :
  forallb (fun b => value_matches et (snd b)) pre = true ->
  value_matches et v = false ->
  array_of_foreach et (pre ++ (k, v) :: post) = array_of_foreach et [(k, v)].
Proof.
  intros Hpre Hv. apply array_of_foreach_first_failure.
  - rewrite <- forallb_matches_values. exact Hpre.
  - rewrite <- value_matches_element_matches. exact Hv.
Qed.

(** What one value that does not match makes the loop report, by the kind
    of the element type. *)
Lemma array_of_foreach_wrong_value et k v :
  value_matches et v = false ->
  ((ZEND_TYPE_IS_ARRAY_OF et = false /\ ZEND_TYPE_IS_ARRAY_SHAPE et = false)
   \/ Z_TYPE_P v <> IS_ARRAY ->
   array_of_foreach et [(k, v)] = (false, Some v))
  /\
  (forall inner,
      Z_TYPE_P v = IS_ARRAY ->
      ZEND_TYPE_IS_ARRAY_OF et = true ->
      ptr et = PTR_ARRAY_OF inner ->
      array_of_foreach et [(k, v)]
      = (false, snd (zend_validate_array_of inner (Z_ARRVAL_P v))))
  /\
  (forall inner,
      Z_TYPE_P v = IS_ARRAY ->
      ZEND_TYPE_IS_ARRAY_OF et = false ->
      ZEND_TYPE_IS_ARRAY_SHAPE et = true ->
      ptr et = PTR_ARRAY_SHAPE inner ->
      array_of_foreach et [(k, v)]
      = (false,
         Some (match bad_value
                       (snd (zend_validate_array_shape inner (Z_ARRVAL_P v)))
               with
               | Some b => b
               | None => v
               end))).
Proof.
  intros Hv. rewrite value_matches_element_matches in Hv.
  unfold element_matches in Hv.
  cbn [array_of_foreach]. unfold array_of_visit.
  split; [|split].
  - intros [[Hof Hsh]|Hna].
    + rewrite Hof, Hsh in *. rewrite Hv. reflexivity.
    + rewrite (not_array_eqb _ Hna) in *. cbn [negb andb] in *.
      destruct (ZEND_TYPE_IS_ARRAY_OF et); [reflexivity|].
      destruct (ZEND_TYPE_IS_ARRAY_SHAPE et); [reflexivity|].
      rewrite Hv. reflexivity.
  - intros inner Harr Hof Hp.
    rewrite Hof, Hp, (is_array_eqb _ Harr) in *. cbn [negb andb] in *.
    destruct (zend_validate_array_of inner (Z_ARRVAL_P v)) as [ok bad].
    cbn [fst snd] in *. subst ok. reflexivity.
  - intros inner Harr Hof Hsh Hp.
    rewrite Hof, Hsh, Hp, (is_array_eqb _ Harr) in *. cbn [negb andb] in *.
    destruct (zend_validate_array_shape inner (Z_ARRVAL_P v)) as [ok out].
    cbn [fst snd] in *. subst ok. cbn [negb]. unfold or_val. reflexivity.
Qed.

(** The match of one value against an array-of or a shape is the run of the
    specialised validator on the value's table. *)
Lemma value_matches_nested et val :
  (forall inner,
      ZEND_TYPE_IS_ARRAY_OF et = true -> ptr et = PTR_ARRAY_OF inner ->
      value_matches et val
      = zval_type_eqb (Z_TYPE_P val) IS_ARRAY
        && fst (zend_validate_array_of inner (Z_ARRVAL_P val)))
  /\
  (forall inner,
      ZEND_TYPE_IS_ARRAY_OF et = false -> ZEND_TYPE_IS_ARRAY_SHAPE et = true ->
      ptr et = PTR_ARRAY_SHAPE inner ->
      value_matches et val
      = zval_type_eqb (Z_TYPE_P val) IS_ARRAY
        && fst (zend_validate_array_shape inner (Z_ARRVAL_P val)))
  /\
  (ZEND_TYPE_IS_ARRAY_OF et = false -> ZEND_TYPE_IS_ARRAY_SHAPE et = false ->
   value_matches et val = zend_check_type_extended et val).
Proof.
  rewrite value_matches_element_matches. unfold element_matches.
  split; [|split].
  - intros inner -> ->. reflexivity.
  - intros inner -> -> ->. reflexivity.
  - intros -> ->. reflexivity.
Qed.

(** Claim C2, as amended.  [zend_validate_array_of] passes on the empty
    array; it passes, and reports nothing, exactly when every value of the
    array matches the element type, where a value matches an array-of or a
    shape when it is an array that the specialised validator accepts, and
    any other type when [zend_check_type_extended] accepts it.  When
    [(k, v)] is the first bucket whose value does not match, validation
    fails whatever key [v] has and whatever follows it, and it reports: [v]
    itself when the element type is neither an array-of nor a shape or [v]
    is not an array; what the validation of [v] against the inner array-of
    reports when the element type is an array-of; the bad value of the
    validation of [v] against the inner shape, or [v] when there is none,
    when the element type is a shape. *)
Theorem C2_array_of_validation (array_of : zend_array_of) (ht : HashTable) :
  zend_validate_array_of array_of [] = (true, None)
  /\
  (fst (zend_validate_array_of array_of ht) = true <->
   forallb (fun b => value_matches (element_type array_of) (snd b)) ht = true)
  /\
  (fst (zend_validate_array_of array_of ht) = true ->
   snd (zend_validate_array_of array_of ht) = None)
  /\
  (forall val,
      (forall inner,
          ZEND_TYPE_IS_ARRAY_OF (element_type array_of) = true ->
          ptr (element_type array_of) = PTR_ARRAY_OF inner ->
          value_matches (element_type array_of) val
          = zval_type_eqb (Z_TYPE_P val) IS_ARRAY
            && fst (zend_validate_array_of inner (Z_ARRVAL_P val)))
      /\
      (forall inner,
          ZEND_TYPE_IS_ARRAY_OF (element_type array_of) = false ->
          ZEND_TYPE_IS_ARRAY_SHAPE (element_type array_of) = true ->
          ptr (element_type array_of) = PTR_ARRAY_SHAPE inner ->
          value_matches (element_type array_of) val
          = zval_type_eqb (Z_TYPE_P val) IS_ARRAY
            && fst (zend_validate_array_shape inner (Z_ARRVAL_P val)))
      /\
      (ZEND_TYPE_IS_ARRAY_OF (element_type array_of) = false ->
       ZEND_TYPE_IS_ARRAY_SHAPE (element_type array_of) = false ->
       value_matches (element_type array_of) val
       = zend_check_type_extended (element_type array_of) val))
  /\
  (forall pre k v post,
      ht = pre ++ (k, v) :: post ->
      forallb (fun b => value_matches (element_type array_of) (snd b)) pre
      = true ->
      value_matches (element_type array_of) v = false ->
      fst (zend_validate_array_of array_of ht) = false
      /\ (forall k' post',
             zend_validate_array_of array_of (pre ++ (k', v) :: post')
             = zend_validate_array_of array_of ht)
      /\ ((ZEND_TYPE_IS_ARRAY_OF (element_type array_of) = false
           /\ ZEND_TYPE_IS_ARRAY_SHAPE (element_type array_of) = false)
          \/ Z_TYPE_P v <> IS_ARRAY ->
          snd (zend_validate_array_of array_of ht) = Some v)
      /\ (forall inner,
             Z_TYPE_P v = IS_ARRAY ->
             ZEND_TYPE_IS_ARRAY_OF (element_type array_of) = true ->
             ptr (element_type array_of) = PTR_ARRAY_OF inner ->
             snd (zend_validate_array_of array_of ht)
             = snd (zend_validate_array_of inner (Z_ARRVAL_P v)))
      /\ (forall inner,
             Z_TYPE_P v = IS_ARRAY ->
             ZEND_TYPE_IS_ARRAY_OF (element_type array_of) = false ->
             ZEND_TYPE_IS_ARRAY_SHAPE (element_type array_of) = true ->
             ptr (element_type array_of) = PTR_ARRAY_SHAPE inner ->
             snd (zend_validate_array_of array_of ht)
             = Some (match bad_value
                             (snd (zend_validate_array_shape inner
                                     (Z_ARRVAL_P v)))
                     with
                     | Some b => b
                     | None => v
                     end))).
Proof.
  split; [|split; [|split; [|split]]].
  - rewrite zend_validate_array_of_unfold. reflexivity.
  - rewrite zend_validate_array_of_unfold, array_of_foreach_pass,
      forallb_matches_values. reflexivity.
  - rewrite zend_validate_array_of_unfold, array_of_foreach_pass,
      <- forallb_matches_values.
    intros Hall. rewrite (array_of_foreach_all_match _ _ Hall). reflexivity.
  - intros val. apply value_matches_nested.
  - intros pre k v post Hht Hpre Hv. subst ht.
    assert (Hloop : forall k' post',
              zend_validate_array_of array_of (pre ++ (k', v) :: post')
              = array_of_foreach (element_type array_of) [(k', v)]).
    { intros k' post'. rewrite zend_validate_array_of_unfold.
      apply array_of_foreach_first_mismatch; assumption. }
    destruct (array_of_foreach_wrong_value (element_type array_of) k v Hv)
      as [H1 [H2 H3]].
    split; [|split; [|split; [|split]]].
    + rewrite zend_validate_array_of_unfold, array_of_foreach_pass.
      rewrite <- forallb_matches_values, forallb_app. cbn [forallb snd].
      rewrite Hv, andb_false_r. reflexivity.
    + intros k' post'. rewrite !Hloop. reflexivity.
    + intros Hkind. rewrite Hloop, (H1 Hkind). reflexivity.
    + intros inner Harr Hof Hp. rewrite Hloop, (H2 inner Harr Hof Hp).
      reflexivity.
    + intros inner Harr Hof Hsh Hp.
      rewrite Hloop, (H3 inner Harr Hof Hsh Hp). reflexivity.
Qed.

End Claims.

#[local] Existing Instance example_engine.

(** Claim C1 at concrete inputs: the shape [array{id: int, name?: string}]
    as compiled, on the rows of the specification's table, and
    [array{user: array{name: string}, tags?: array<int>}] as compiled, for a
    nested array-of and a nested shape. *)
Lemma C1_shape_validation_witness :
  (exists shape,
      zend_compile_type_internal
        (shape_ast [element_ast "id" false int_ast;
                    element_ast "name" true string_ast]) true
      = Compiled (Build_zend_type (PTR_ARRAY_SHAPE shape) ex_shape_bits)
      /\ zend_validate_array_shape shape
           [(key_str "id", zv_long 1); (key_str "name", zv_string "Bob")]
         = (true, shape_out_init)
      /\ zend_validate_array_shape shape
           [(key_str "id", zv_long 1); (key_str "name", zv_string "Bob");
            (key_str "extra", zv_true)]
         = (true, shape_out_init)
      /\ zend_validate_array_shape shape [(key_str "id", zv_string "1")]
         = (false,
            Build_shape_out None 0 false (Some (zv_string "1")) (Some ex_elem_id))
      /\ zend_validate_array_shape
           (Build_zend_array_shape (shape_refcount shape) (shape_hash shape)
              [ex_elem_id;
               Build_zend_shape_element (Some "name") 0 true false
                 (array_of_type ex_int 1)])
           [(key_str "id", zv_string "1")]
         = zend_validate_array_shape shape [(key_str "id", zv_string "1")]
      /\ zend_validate_array_shape shape [(key_str "name", zv_string "Bob")]
         = (false, Build_shape_out (Some "id") 0 true None (Some ex_elem_id)))
  /\
  (exists shape,
      zend_compile_type_internal user_tags_shape_ast true
      = Compiled (Build_zend_type (PTR_ARRAY_SHAPE shape) ex_shape_bits)
      /\ zend_validate_array_shape shape
           [(key_str "user", zv_array [(key_str "name", zv_string "n")]);
            (key_str "tags",
             zv_array [(key_idx 0, zv_long 1); (key_idx 1, zv_long 2)])]
         = (true, shape_out_init)
      /\ zend_validate_array_shape shape
           [(key_str "user", zv_array [(key_str "name", zv_string "n")]);
            (key_str "tags",
             zv_array [(key_idx 0, zv_long 1); (key_idx 1, zv_string "x")])]
         = (false,
            Build_shape_out None 0 false (Some (zv_string "x"))
              (Some ex_elem_tags_opt))
      /\ zend_validate_array_shape shape
           [(key_str "user", zv_array [(key_str "name", zv_long 5)])]
         = (false,
            Build_shape_out None 0 false (Some (zv_long 5)) (Some ex_elem_name))).
Proof.
  split.
  { exists (Build_zend_array_shape 1
              (zend_compute_shape_hash
                 (Build_zend_array_shape 1 0 [ex_elem_id; ex_elem_name_opt]))
              [ex_elem_id; ex_elem_name_opt]).
    set (shape := Build_zend_array_shape 1
              (zend_compute_shape_hash
                 (Build_zend_array_shape 1 0 [ex_elem_id; ex_elem_name_opt]))
              [ex_elem_id; ex_elem_name_opt]).
    split; [vm_compute; reflexivity|].
    assert (Hpass : forall ht,
              forallb (element_satisfied ht) (elements shape) = true ->
              zend_validate_array_shape shape ht = (true, shape_out_init)).
    { intros ht Hall.
      destruct (C1_shape_validation shape ht) as [Hiff [Hout _]].
      apply injective_projections; cbn [fst snd].
      - apply Hiff. exact Hall.
      - apply Hout. apply Hiff. exact Hall. }
    split; [apply Hpass; vm_compute; reflexivity|].
    split.
    { destruct (C1_shape_validation shape
                  [(key_str "id", zv_long 1); (key_str "name", zv_string "Bob")])
        as [_ [_ [_ Hextra]]].
      assert (Hund : forall e, In e (elements shape) ->
                               declared_key e <> Some (key_str "extra"))
        by (intros e [He|[He|[]]]; subst e; vm_compute; discriminate).
      pose proof (Hextra [(key_str "id", zv_long 1); (key_str "name", zv_string "Bob")]
                    (key_str "extra") zv_true [] eq_refl Hund) as Hx.
      cbn [app] in Hx. rewrite Hx. apply Hpass. vm_compute. reflexivity. }
    assert (Hsat : element_satisfied [(key_str "id", zv_string "1")] ex_elem_id
                   = false) by (vm_compute; reflexivity).
    destruct (C1_shape_validation shape [(key_str "id", zv_string "1")])
      as [_ [_ [Hfirst _]]].
    destruct (Hfirst [] ex_elem_id [ex_elem_name_opt] eq_refl eq_refl Hsat)
      as [Hfail [Hrest [_ Hwrong]]].
    split.
    { apply injective_projections; cbn [fst snd]; [exact Hfail|].
      destruct (Hwrong (zv_string "1") eq_refl) as [Hplain _].
      apply Hplain. right. cbn. discriminate. }
    split; [exact (Hrest _)|].
    assert (Hsat' : element_satisfied [(key_str "name", zv_string "Bob")] ex_elem_id
                    = false) by (vm_compute; reflexivity).
    destruct (C1_shape_validation shape [(key_str "name", zv_string "Bob")])
      as [_ [_ [Hfirst' _]]].
    destruct (Hfirst' [] ex_elem_id [ex_elem_name_opt] eq_refl eq_refl Hsat')
      as [Hfail' [_ [Hmissing _]]].
    apply injective_projections; cbn [fst snd]; [exact Hfail'|].
    exact (Hmissing eq_refl). }
  exists (Build_zend_array_shape 1
            (zend_compute_shape_hash
               (Build_zend_array_shape 1 0 [ex_elem_user; ex_elem_tags_opt]))
            [ex_elem_user; ex_elem_tags_opt]).
  set (shape := Build_zend_array_shape 1
            (zend_compute_shape_hash
               (Build_zend_array_shape 1 0 [ex_elem_user; ex_elem_tags_opt]))
            [ex_elem_user; ex_elem_tags_opt]).
  split; [vm_compute; reflexivity|].
  split.
  { destruct (C1_shape_validation shape
                [(key_str "user", zv_array [(key_str "name", zv_string "n")]);
                 (key_str "tags",
                  zv_array [(key_idx 0, zv_long 1); (key_idx 1, zv_long 2)])])
      as [Hiff [Hout _]].
    assert (Hall : forallb
                     (element_satisfied
                        [(key_str "user",
                          zv_array [(key_str "name", zv_string "n")]);
                         (key_str "tags",
                          zv_array [(key_idx 0, zv_long 1);
                                    (key_idx 1, zv_long 2)])])
                     (elements shape) = true) by (vm_compute; reflexivity).
    apply injective_projections; cbn [fst snd].
    - apply Hiff. exact Hall.
    - apply Hout. apply Hiff. exact Hall. }
  split.
  { set (ht := [(key_str "user", zv_array [(key_str "name", zv_string "n")]);
                (key_str "tags",
                 zv_array [(key_idx 0, zv_long 1); (key_idx 1, zv_string "x")])]).
    destruct (C1_shape_validation shape ht) as [_ [_ [Hfirst _]]].
    assert (Hpre : forallb (element_satisfied ht) [ex_elem_user] = true)
      by (vm_compute; reflexivity).
    assert (Hsat : element_satisfied ht ex_elem_tags_opt = false)
      by (vm_compute; reflexivity).
    destruct (Hfirst [ex_elem_user] ex_elem_tags_opt [] eq_refl Hpre Hsat)
      as [Hfail [_ [_ Hwrong]]].
    assert (Hentry : declared_entry ht ex_elem_tags_opt
                     = Some (zv_array [(key_idx 0, zv_long 1);
                                       (key_idx 1, zv_string "x")]))
      by (vm_compute; reflexivity).
    destruct (Hwrong _ Hentry) as [_ [Hof _]].
    assert (Htag : ZEND_TYPE_IS_ARRAY_OF (type ex_elem_tags_opt) = true)
      by (vm_compute; reflexivity).
    apply injective_projections; cbn [fst snd]; [exact Hfail|].
    rewrite (Hof (Build_zend_array_of ex_int 1 1) eq_refl Htag eq_refl).
    vm_compute. reflexivity. }
  set (ht := [(key_str "user", zv_array [(key_str "name", zv_long 5)])]).
  destruct (C1_shape_validation shape ht) as [_ [_ [Hfirst _]]].
  assert (Hsat : element_satisfied ht ex_elem_user = false)
    by (vm_compute; reflexivity).
  destruct (Hfirst [] ex_elem_user [ex_elem_tags_opt] eq_refl eq_refl Hsat)
    as [Hfail [_ [_ Hwrong]]].
  assert (Hentry : declared_entry ht ex_elem_user
                   = Some (zv_array [(key_str "name", zv_long 5)]))
    by (vm_compute; reflexivity).
  destruct (Hwrong _ Hentry) as [_ [_ Hsh]].
  assert (Hof : ZEND_TYPE_IS_ARRAY_OF (type ex_elem_user) = false)
    by (vm_compute; reflexivity).
  assert (Htag : ZEND_TYPE_IS_ARRAY_SHAPE (type ex_elem_user) = true)
    by (vm_compute; reflexivity).
  apply injective_projections; cbn [fst snd]; [exact Hfail|].
  rewrite (Hsh (Build_zend_array_shape 1
                  (zend_compute_shape_hash
                     (Build_zend_array_shape 1 0 [ex_elem_name]))
                  [ex_elem_name]) eq_refl Hof Htag eq_refl).
  vm_compute. reflexivity.
Defined.

(** Claim C2 at concrete inputs: [array<int>], [array<array<int>>] and
    [array<array{id: int}>] as compiled. *)
Lemma C2_array_of_validation_witness :
  (exists array_of,
      zend_compile_type_internal array_of_int_ast true
      = Compiled (Build_zend_type (PTR_ARRAY_OF array_of) ex_array_bits)
      /\ zend_validate_array_of array_of [] = (true, None)
      /\ zend_validate_array_of array_of
           [(key_idx 0, zv_long 1); (key_idx 1, zv_long 2);
            (key_idx 2, zv_long 3)]
         = (true, None)
      /\ zend_validate_array_of array_of
           [(key_idx 0, zv_long 1); (key_idx 1, zv_string "x");
            (key_idx 2, zv_long 3)]
         = (false, Some (zv_string "x")))
  /\
  (exists array_of,
      zend_compile_type_internal array_of_array_of_int_ast true
      = Compiled (Build_zend_type (PTR_ARRAY_OF array_of) ex_array_bits)
      /\ zend_validate_array_of array_of
           [(key_idx 0, zv_array [(key_idx 0, zv_long 1)]);
            (key_idx 1, zv_array [(key_idx 0, zv_string "y")])]
         = (false, Some (zv_string "y")))
  /\
  (exists array_of,
      zend_compile_type_internal array_of_shape_id_ast true
      = Compiled (Build_zend_type (PTR_ARRAY_OF array_of) ex_array_bits)
      /\ snd (zend_validate_array_of array_of
                [(key_idx 0, zv_array [(key_str "id", zv_string "x")])])
         = Some (zv_string "x")
      /\ snd (zend_validate_array_of array_of [(key_idx 0, zv_array [])])
         = Some (zv_array [])).
Proof.
  split; [|split].
  - exists (Build_zend_array_of ex_int 1 1).
    split; [vm_compute; reflexivity|].
    split; [exact (proj1 (C2_array_of_validation _ []))|].
    split.
    + destruct (C2_array_of_validation (Build_zend_array_of ex_int 1 1)
                  [(key_idx 0, zv_long 1); (key_idx 1, zv_long 2);
                   (key_idx 2, zv_long 3)]) as [_ [Hiff [Hout _]]].
      assert (Hall : forallb (fun b => value_matches ex_int (snd b))
                       [(key_idx 0, zv_long 1); (key_idx 1, zv_long 2);
                        (key_idx 2, zv_long 3)] = true)
        by (vm_compute; reflexivity).
      apply injective_projections; cbn [fst snd].
      * apply Hiff. exact Hall.
      * apply Hout. apply Hiff. exact Hall.
    + destruct (C2_array_of_validation (Build_zend_array_of ex_int 1 1)
                  [(key_idx 0, zv_long 1); (key_idx 1, zv_string "x");
                   (key_idx 2, zv_long 3)]) as [_ [_ [_ [_ Hfirst]]]].
      assert (Hpre : forallb (fun b => value_matches ex_int (snd b))
                       [(key_idx 0, zv_long 1)] = true)
        by (vm_compute; reflexivity).
      assert (Hv : value_matches ex_int (zv_string "x") = false)
        by (vm_compute; reflexivity).
      destruct (Hfirst [(key_idx 0, zv_long 1)] (key_idx 1) (zv_string "x")
                  [(key_idx 2, zv_long 3)] eq_refl Hpre Hv)
        as [Hfail [_ [Hplain _]]].
      apply injective_projections; cbn [fst snd]; [exact Hfail|].
      apply Hplain. right. cbn. discriminate.
  - exists (Build_zend_array_of (array_of_type ex_int 1) 1 2).
    split; [vm_compute; reflexivity|].
    destruct (C2_array_of_validation
                (Build_zend_array_of (array_of_type ex_int 1) 1 2)
                [(key_idx 0, zv_array [(key_idx 0, zv_long 1)]);
                 (key_idx 1, zv_array [(key_idx 0, zv_string "y")])])
      as [_ [_ [_ [_ Hfirst]]]].
    assert (Hpre : forallb
                     (fun b => value_matches (array_of_type ex_int 1) (snd b))
                     [(key_idx 0, zv_array [(key_idx 0, zv_long 1)])] = true)
      by (vm_compute; reflexivity).
    assert (Hv : value_matches (array_of_type ex_int 1)
                   (zv_array [(key_idx 0, zv_string "y")]) = false)
      by (vm_compute; reflexivity).
    destruct (Hfirst [(key_idx 0, zv_array [(key_idx 0, zv_long 1)])]
                (key_idx 1) (zv_array [(key_idx 0, zv_string "y")]) []
                eq_refl Hpre Hv) as [Hfail [_ [_ [Hnested _]]]].
    assert (Hof : ZEND_TYPE_IS_ARRAY_OF (array_of_type ex_int 1) = true)
      by (vm_compute; reflexivity).
    apply injective_projections; cbn [fst snd]; [exact Hfail|].
    rewrite (Hnested (Build_zend_array_of ex_int 1 1) eq_refl Hof eq_refl).
    destruct (C2_array_of_validation (Build_zend_array_of ex_int 1 1)
                [(key_idx 0, zv_string "y")]) as [_ [_ [_ [_ Hinner]]]].
    assert (Hy : value_matches ex_int (zv_string "y") = false)
      by (vm_compute; reflexivity).
    destruct (Hinner [] (key_idx 0) (zv_string "y") [] eq_refl eq_refl Hy)
      as [_ [_ [Hplain _]]].
    apply Hplain. right. cbn. discriminate.
  - exists (Build_zend_array_of
              (array_shape_type [ex_elem_id]) 1 1).
    split; [vm_compute; reflexivity|].
    assert (Hof : ZEND_TYPE_IS_ARRAY_OF (array_shape_type [ex_elem_id]) = false)
      by (vm_compute; reflexivity).
    assert (Hsh : ZEND_TYPE_IS_ARRAY_SHAPE (array_shape_type [ex_elem_id]) = true)
      by (vm_compute; reflexivity).
    split.
    + destruct (C2_array_of_validation
                  (Build_zend_array_of (array_shape_type [ex_elem_id]) 1 1)
                  [(key_idx 0, zv_array [(key_str "id", zv_string "x")])])
        as [_ [_ [_ [_ Hfirst]]]].
      assert (Hv : value_matches (array_shape_type [ex_elem_id])
                     (zv_array [(key_str "id", zv_string "x")]) = false)
        by (vm_compute; reflexivity).
      destruct (Hfirst [] (key_idx 0)
                  (zv_array [(key_str "id", zv_string "x")]) []
                  eq_refl eq_refl Hv) as [_ [_ [_ [_ Hshape]]]].
      rewrite (Hshape _ eq_refl Hof Hsh eq_refl). vm_compute. reflexivity.
    + destruct (C2_array_of_validation
                  (Build_zend_array_of (array_shape_type [ex_elem_id]) 1 1)
                  [(key_idx 0, zv_array [])])
        as [_ [_ [_ [_ Hfirst]]]].
      assert (Hv : value_matches (array_shape_type [ex_elem_id])
                     (zv_array []) = false)
        by (vm_compute; reflexivity).
      destruct (Hfirst [] (key_idx 0) (zv_array []) []
                  eq_refl eq_refl Hv) as [_ [_ [_ [_ Hshape]]]].
      rewrite (Hshape _ eq_refl Hof Hsh eq_refl). vm_compute. reflexivity.
Defined.

(** For [array<array<int>>] and [[[1], ["y"]]] the first element that does
    not match is the array [["y"]]; what the validator reports is the string
    in it. *)
Lemma C2_counterexample :
  exists array_of,
    zend_compile_type_internal array_of_array_of_int_ast true
    = Compiled (Build_zend_type (PTR_ARRAY_OF array_of) ex_array_bits)
    /\ value_matches (element_type array_of)
         (zv_array [(key_idx 0, zv_long 1)]) = true
    /\ value_matches (element_type array_of)
         (zv_array [(key_idx 0, zv_string "y")]) = false
    /\ zend_validate_array_of array_of
         [(key_idx 0, zv_array [(key_idx 0, zv_long 1)]);
          (key_idx 1, zv_array [(key_idx 0, zv_string "y")])]
       = (false, Some (zv_string "y"))
    /\ zv_string "y" <> zv_array [(key_idx 0, zv_string "y")]
    /\ ~ In (zv_string "y")
           (map snd
              [(key_idx 0, zv_array [(key_idx 0, zv_long 1)]);
               (key_idx 1, zv_array [(key_idx 0, zv_string "y")])]).
Proof.
  exists (Build_zend_array_of (array_of_type ex_int 1) 1 2).
  split; [vm_compute; reflexivity|].
  split; [vm_compute; reflexivity|].
  split; [vm_compute; reflexivity|].
  split; [vm_compute; reflexivity|].
  split; [discriminate|].
  cbn [map snd In]. intros [H|[H|[]]]; discriminate.
Qed.

Section MaskFacts.
Context {E : zend_engine}.

Lemma land_lor_bit x m b :
  0 <= b -> Z.land (Z.lor x (Z.lor (Z.shiftl 1 b) m)) (Z.shiftl 1 b) <> 0.
Proof.
  intros Hb H.
  apply (f_equal (fun z => Z.testbit z b)) in H.
  rewrite Z.land_spec, !Z.lor_spec, Z.bits_0 in H.
  rewrite Z.shiftl_spec, Z.sub_diag in H by exact Hb.
  cbn in H. rewrite orb_true_r in H. discriminate.
Qed.

Lemma array_of_type_is_array_of et d :
  ZEND_TYPE_IS_ARRAY_OF (array_of_type et d) = true.
Proof.
  unfold ZEND_TYPE_IS_ARRAY_OF, array_of_type, ZEND_TYPE_SET_ARRAY_OF_PTR.
  cbn [type_mask]. apply negb_true_iff, Z.eqb_neq.
  apply land_lor_bit. lia.
Qed.

Lemma array_shape_type_is_array_shape els :
  ZEND_TYPE_IS_ARRAY_SHAPE (array_shape_type els) = true.
Proof.
  unfold ZEND_TYPE_IS_ARRAY_SHAPE, array_shape_type, ZEND_TYPE_SET_ARRAY_SHAPE_PTR.
  cbn [type_mask]. apply negb_true_iff, Z.eqb_neq.
  apply land_lor_bit. lia.
Qed.

Lemma zend_check_type_extended_deref ty v :
  Z_ISREF_P v = false ->
  zend_check_type_extended ty (zv_reference v) = zend_check_type_extended ty v.
Proof.
  intros Hv. destruct ty as [p m].
  cbn [zend_check_type_extended].
  change (Z_ISREF_P (zv_reference v)) with true. cbn [Z_REFVAL_P].
  rewrite Hv. reflexivity.
Qed.

End MaskFacts.

Section C6.
Context {E : zend_engine}.

(** Claim C6, which the code does not meet.  [zend_check_type_extended]
    dereferences its argument, so a reference to an array is accepted at
    the top level.  Inside an array the loops test the kind of the bucket
    without dereferencing: for [array<array<T>>] the array [[ [] ]] passes
    and [[ &[] ]] fails, and for [array{a: array<T>}] the array
    [['a' => []]] passes and [['a' => &[]]] fails, whatever [T] and the
    engine. *)
Theorem C6_reference_inside_array_rejected (T : zend_type) (k : hash_key) :
  zend_check_type_extended (array_of_type T 1) (zv_reference (zv_array [])) = true
  /\ zend_check_type_extended (array_of_type (array_of_type T 1) 2)
       (zv_array [(k, zv_array [])]) = true
  /\ zend_check_type_extended (array_of_type (array_of_type T 1) 2)
       (zv_array [(k, zv_reference (zv_array []))]) = false
  /\ fst (zend_validate_array_shape
            (Build_zend_array_shape 1 0
               [Build_zend_shape_element (Some "a") 0 true false
                  (array_of_type T 1)])
            [(key_str "a", zv_array [])]) = true
  /\ fst (zend_validate_array_shape
            (Build_zend_array_shape 1 0
               [Build_zend_shape_element (Some "a") 0 true false
                  (array_of_type T 1)])
            [(key_str "a", zv_reference (zv_array []))]) = false.
Proof.
  assert (Hao : forall et d v,
    zend_check_type_extended (array_of_type et d) (zv_array v)
    = fst (zend_validate_array_of (Build_zend_array_of et 1 d) v)).
  { intros et d v.
    pose proof (array_of_type_is_array_of et d) as Hbit.
    unfold array_of_type, ZEND_TYPE_SET_ARRAY_OF_PTR in *.
    cbn [zend_check_type_extended]. rewrite Hbit. reflexivity. }
  assert (Hnil : forall et d',
    element_matches (array_of_type et d') (zv_array []) = true).
  { intros et d'. unfold element_matches.
    rewrite array_of_type_is_array_of. cbn. reflexivity. }
  assert (Href : forall et d',
    element_matches (array_of_type et d') (zv_reference (zv_array [])) = false).
  { intros et d'. unfold element_matches.
    rewrite array_of_type_is_array_of. reflexivity. }
  repeat split.
  - rewrite zend_check_type_extended_deref by reflexivity.
    rewrite Hao, zend_validate_array_of_unfold. reflexivity.
  - rewrite Hao, zend_validate_array_of_unfold, array_of_foreach_pass.
    cbn [forallb snd element_type]. rewrite Hnil. reflexivity.
  - rewrite Hao, zend_validate_array_of_unfold, array_of_foreach_pass.
    cbn [forallb snd element_type]. rewrite Href. reflexivity.
  - rewrite zend_validate_array_shape_unfold, shape_loop_pass.
    cbn [forallb elements]. unfold shape_element_ok. cbn [shape_lookup is_string_key key zend_hash_find String.eqb Ascii.eqb Bool.eqb type].
    rewrite Hnil. reflexivity.
  - rewrite zend_validate_array_shape_unfold, shape_loop_pass.
    cbn [forallb elements]. unfold shape_element_ok. cbn [shape_lookup is_string_key key zend_hash_find String.eqb Ascii.eqb Bool.eqb type].
    rewrite Href. reflexivity.
Qed.

End C6.

(** ** The compiler *)
Section CompilerFacts.
Context {E : zend_engine}.

(** Induction over the type-expression tree. *)
Lemma zend_ast_ind (P : zend_ast -> Prop) :
  (forall kind attr val, P (ast_zval kind attr val)) ->
  (forall kind attr child, Forall P child -> P (ast_node kind attr child)) ->
  forall ast, P ast.
Proof.
  intros Hz Hn.
  fix IH 1. intros [kind attr val | kind attr child].
  - apply Hz.
  - apply Hn. induction child as [|c child IHc]; constructor.
    + apply IH.
    + exact IHc.
Qed.

Lemma zend_compile_array_of_ast element_type_ast persistent :
  zend_compile_type_internal (array_of_ast element_type_ast) persistent =
  zend_compile_array_of_type (array_of_ast element_type_ast).
Proof. reflexivity. Qed.

Lemma zend_compile_array_of_type_unfold attr element_type_ast more :
  zend_compile_array_of_type
    (ast_node ZEND_AST_TYPE_ARRAY_OF attr (element_type_ast :: more)) =
  (element_type <- zend_compile_type_internal element_type_ast true ;;
   if ZEND_TYPE_IS_ARRAY_OF element_type then
     match ptr element_type with
     | PTR_ARRAY_OF inner =>
         Compiled (array_of_type element_type (uint8_t (depth inner + 1)))
     | _ => zend_error_noreturn Assertion_failed
     end
   else Compiled (array_of_type element_type 1)).
Proof.
  unfold zend_compile_array_of_type, compile_array_of_type.
  destruct (zend_compile_type_internal element_type_ast true) as [et|e];
    [|reflexivity].
  cbn [bind_compile].
  destruct (ZEND_TYPE_IS_ARRAY_OF et); [|reflexivity].
  destruct (ptr et); reflexivity.
Qed.

Lemma zend_compile_array_of_type_inv ast t :
  zend_compile_array_of_type ast = Compiled t ->
  exists attr element_type_ast more element_type,
    ast = ast_node ZEND_AST_TYPE_ARRAY_OF attr (element_type_ast :: more)
    /\ zend_compile_type_internal element_type_ast true = Compiled element_type
    /\ ((ZEND_TYPE_IS_ARRAY_OF element_type = false
         /\ t = array_of_type element_type 1)
        \/ (exists inner,
              ZEND_TYPE_IS_ARRAY_OF element_type = true
              /\ ptr element_type = PTR_ARRAY_OF inner
              /\ t = array_of_type element_type (uint8_t (depth inner + 1)))).
Proof.
  intros H.
  destruct ast as [kind attr val | kind attr [|c more]];
    try (unfold zend_compile_array_of_type, compile_array_of_type in H;
         destruct kind; discriminate).
  destruct kind;
    try (unfold zend_compile_array_of_type, compile_array_of_type in H;
         discriminate).
  rewrite zend_compile_array_of_type_unfold in H.
  destruct (zend_compile_type_internal c true) as [et|e] eqn:Hc;
    [|discriminate].
  cbn [bind_compile] in H.
  exists attr, c, more, et. split; [reflexivity|]. split; [exact Hc|].
  destruct (ZEND_TYPE_IS_ARRAY_OF et) eqn:Hof.
  - right. destruct (ptr et) eqn:Hp; try discriminate.
    exists array_of. inversion H. auto.
  - left. inversion H. auto.
Qed.

Lemma uint8_t_range z : 0 <= uint8_t z < 256.
Proof. unfold uint8_t. apply Z.mod_pos_bound. lia. Qed.

Lemma zend_compile_shape_elements_unfold attr attr' children more :
  zend_compile_array_shape_type
    (ast_node ZEND_AST_TYPE_ARRAY_SHAPE attr
       (ast_node ZEND_AST_SHAPE_ELEMENT_LIST attr' children :: more)) =
  (elements <- compile_shape_elements children ;;
   Compiled (array_shape_type elements)).
Proof.
  unfold zend_compile_array_shape_type, compile_array_shape_type.
  match goal with
  | |- bind_compile ?loop _ = _ =>
      assert (Hloop : loop = compile_shape_elements children)
  end.
  { induction children as [|c children IH]; [reflexivity|].
    cbn [compile_shape_elements]. rewrite <- IH.
    unfold compile_shape_element.
    destruct c as [k a v | k a [|key_ast [|type_ast rest]]]; try reflexivity;
      destruct k; try reflexivity.
    destruct key_ast as [kk ka kv | kk ka kc]; try reflexivity.
    destruct kk; try reflexivity.
    destruct kv; try reflexivity;
      cbn [bind_compile];
      destruct (zend_compile_type_internal type_ast true); reflexivity. }
  rewrite Hloop.
  destruct (compile_shape_elements children); reflexivity.
Qed.

Lemma shape_lookup_declared_key ht e1 e2 :
  declared_key e1 = declared_key e2 ->
  shape_lookup ht e1 = shape_lookup ht e2.
Proof.
  unfold declared_key, shape_lookup.
  destruct (is_string_key e1), (is_string_key e2);
    destruct (key e1), (key e2); cbn; intros H; inversion H; reflexivity.
Qed.

Lemma zend_compile_array_shape_type_inv ast t :
  zend_compile_array_shape_type ast = Compiled t ->
  exists attr attr' children more elems,
    ast = ast_node ZEND_AST_TYPE_ARRAY_SHAPE attr
            (ast_node ZEND_AST_SHAPE_ELEMENT_LIST attr' children :: more)
    /\ compile_shape_elements children = Compiled elems
    /\ t = array_shape_type elems.
Proof.
  intros H.
  destruct ast as [kind attr val | kind attr [|c more]];
    try (unfold zend_compile_array_shape_type, compile_array_shape_type in H;
         destruct kind; discriminate).
  destruct kind;
    try (unfold zend_compile_array_shape_type, compile_array_shape_type in H;
         discriminate).
  destruct c as [k a v | k a children];
    try (unfold zend_compile_array_shape_type, compile_array_shape_type in H;
         discriminate).
  destruct k;
    try (unfold zend_compile_array_shape_type, compile_array_shape_type in H;
         discriminate).
  rewrite zend_compile_shape_elements_unfold in H.
  destruct (compile_shape_elements children) as [elems|e] eqn:Hc;
    [|discriminate].
  cbn [bind_compile] in H. inversion H.
  exists attr, a, children, more, elems. auto.
Qed.

Lemma compiled_array_of_depth_range ast :
  forall persistent t ao,
    zend_compile_type_internal ast persistent = Compiled t ->
    ptr t = PTR_ARRAY_OF ao ->
    0 <= depth ao < 256.
Proof.
  induction ast as [kind attr val | kind attr child IH] using zend_ast_ind;
    intros persistent t ao Hc Hp.
  - destruct kind; cbn in Hc; try discriminate.
    + inversion Hc; subst t; discriminate.
    + destruct val; try discriminate. inversion Hc; subst t; discriminate.
    + destruct val; try discriminate. inversion Hc; subst t; discriminate.
  - destruct kind; try (cbn in Hc; discriminate).
    + cbn in Hc. inversion Hc; subst t; discriminate.
    + destruct child as [|child0 rest]; [cbn in Hc; discriminate|].
      cbn [zend_compile_type_internal ast_kind] in Hc.
      destruct (zend_compile_type_internal child0 persistent) as [ty|e] eqn:H0;
        [|discriminate].
      cbn [bind_compile] in Hc. inversion Hc; subst t. cbn [ptr] in Hp.
      inversion IH as [|? ? IH0 _]; subst.
      exact (IH0 persistent ty ao H0 Hp).
    + cbn [zend_compile_type_internal ast_kind] in Hc.
      match type of Hc with
      | bind_compile ?l _ = _ => destruct l; [|discriminate]
      end.
      cbn [bind_compile] in Hc. inversion Hc; subst t. discriminate.
    + cbn [zend_compile_type_internal ast_kind] in Hc.
      match type of Hc with
      | bind_compile ?l _ = _ => destruct l; [|discriminate]
      end.
      cbn [bind_compile] in Hc. inversion Hc; subst t. discriminate.
    + change (zend_compile_array_of_type (ast_node ZEND_AST_TYPE_ARRAY_OF attr child)
              = Compiled t) in Hc.
      apply zend_compile_array_of_type_inv in Hc
        as (a & c & more & et & _ & _ & [[_ Ht]|[inner [_ [_ Ht]]]]);
        subst t; inversion Hp; subst ao; cbn [depth].
      * lia.
      * apply uint8_t_range.
    + change (zend_compile_array_shape_type
                (ast_node ZEND_AST_TYPE_ARRAY_SHAPE attr child) = Compiled t) in Hc.
      apply zend_compile_array_shape_type_inv in Hc
        as (a & a' & cs & more & els & _ & _ & Ht).
      subst t. discriminate.
Qed.

(** Claim C7, as amended.  The descriptor of a compiled array-of type
    stores depth 1 when its element type is not an array-of, and one plus
    the depth of the element's descriptor modulo 256 when it is, which is
    one plus that depth as long as it is below 255. *)
Theorem C7_array_of_depth (ast : zend_ast) (t : zend_type) :
  zend_compile_array_of_type ast = Compiled t ->
  exists ao,
    ptr t = PTR_ARRAY_OF ao
    /\ (ZEND_TYPE_IS_ARRAY_OF (element_type ao) = false -> depth ao = 1)
    /\ (forall inner,
           ZEND_TYPE_IS_ARRAY_OF (element_type ao) = true ->
           ptr (element_type ao) = PTR_ARRAY_OF inner ->
           depth ao = (depth inner + 1) mod 256
           /\ (depth inner < 255 -> depth ao = depth inner + 1)).
Proof.
  intros H.
  apply zend_compile_array_of_type_inv in H
    as (a & c & more & et & _ & Hc & [[Hof Ht]|[inner [Hof [Hp Ht]]]]); subst t.
  - eexists. split; [reflexivity|]. cbn [element_type depth]. split.
    + reflexivity.
    + intros inner H. congruence.
  - eexists. split; [reflexivity|]. cbn [element_type depth]. split.
    + congruence.
    + intros inner' _ Hp'. rewrite Hp in Hp'. inversion Hp'; subst inner'.
      split; [reflexivity|].
      intros Hlt. unfold uint8_t.
      pose proof (compiled_array_of_depth_range c true et inner Hc Hp).
      apply Z.mod_small. lia.
Qed.

(** Claim C10.  [n >= 1] array-of wrappers around a type that compiles to
    something other than an array-of compile to a descriptor whose stored
    depth is [n mod 256], and that is what
    [ReflectionArrayOfType::getDepth] returns for it. *)
Theorem C10_depth_wraps_at_256 (n : nat) (base : zend_ast) (tb : zend_type)
  (persistent : bool) :
  zend_compile_type_internal base true = Compiled tb ->
  ZEND_TYPE_IS_ARRAY_OF tb = false ->
  (1 <= n)%nat ->
  exists t ao,
    zend_compile_type_internal (Nat.iter n array_of_ast base) persistent
    = Compiled t
    /\ ptr t = PTR_ARRAY_OF ao
    /\ depth ao = Z.of_nat n mod 256
    /\ ReflectionArrayOfType_getDepth (Some ao) = Z.of_nat n mod 256.
Proof.
  intros Hb Hnot Hn.
  assert (Hstrong : forall m p,
    exists et,
      zend_compile_type_internal (Nat.iter (S m) array_of_ast base) p
      = Compiled (array_of_type et (Z.of_nat (S m) mod 256))).
  { induction m as [|m IH]; intros p.
    - exists tb. cbn [Nat.iter].
      rewrite zend_compile_array_of_ast. unfold array_of_ast.
      rewrite zend_compile_array_of_type_unfold, Hb. cbn [bind_compile].
      rewrite Hnot. reflexivity.
    - destruct (IH true) as [et Het].
      exists (array_of_type et (Z.of_nat (S m) mod 256)).
      change (Nat.iter (S (S m)) array_of_ast base)
        with (array_of_ast (Nat.iter (S m) array_of_ast base)).
      rewrite zend_compile_array_of_ast. unfold array_of_ast at 1.
      rewrite zend_compile_array_of_type_unfold, Het. cbn [bind_compile].
      rewrite array_of_type_is_array_of. cbn [ptr array_of_type
        ZEND_TYPE_SET_ARRAY_OF_PTR depth]. unfold uint8_t.
      replace (2 ^ 8) with 256 by reflexivity.
      rewrite Z.add_mod_idemp_l by lia.
      do 2 f_equal. lia. }
  destruct n as [|m]; [lia|].
  destruct (Hstrong m persistent) as [et Het].
  eexists. eexists. split; [exact Het|].
  split; [reflexivity|]. split; reflexivity.
Qed.

Lemma optional_marker attr : negb (Z.land attr 1 =? 0) = Z.odd attr.
Proof.
  change 1 with (Z.ones 1). rewrite Z.land_ones by lia.
  change (2 ^ 1) with 2. rewrite Zmod_odd.
  destruct (Z.odd attr); reflexivity.
Qed.

Lemma compile_declaration d t e :
  zend_compile_type_internal (declared_type_ast d) true = Compiled t ->
  declaration_element d t = Some e ->
  compile_shape_element (declaration_node d) = Compiled e.
Proof.
  intros Ht He. unfold declaration_element in He.
  unfold compile_shape_element, declaration_node.
  destruct (declared_literal d); try discriminate;
    cbn [bind_compile]; rewrite Ht; cbn [bind_compile];
    rewrite optional_marker; inversion He; reflexivity.
Qed.

Lemma compile_declarations decls elems :
  Forall2
    (fun d e =>
       exists t,
         zend_compile_type_internal (declared_type_ast d) true = Compiled t
         /\ declaration_element d t = Some e) decls elems ->
  compile_shape_elements (map declaration_node decls) = Compiled elems.
Proof.
  induction 1 as [|d e decls elems [t [Ht He]] _ IH]; [reflexivity|].
  cbn [map compile_shape_elements].
  rewrite (compile_declaration d t e Ht He), IH. reflexivity.
Qed.

Lemma forallb_In_false {A : Type} (f : A -> bool) l x :
  In x l -> f x = false -> forallb f l = false.
Proof.
  intros Hin Hx. destruct (forallb f l) eqn:Hall; [|reflexivity].
  rewrite forallb_forall in Hall. rewrite (Hall x Hin) in Hx. discriminate.
Qed.

(** Claim C9.  The compiler has no check across the elements of a shape:
    when the type of each declaration compiles and its key literal is a
    string or an integer, the shape compiles, and its descriptor holds one
    element per declaration, in order, with the key, the optional flag and
    the compiled type of that declaration, whether or not a key is declared
    more than once.  The descriptor accepts an array exactly when the array
    satisfies each of these elements.  So every occurrence of a key is
    looked up under that key and finds the same entry: when validation
    passes, the value of the entry matches the type of every occurrence (or
    the entry is absent and every occurrence optional), and a value that
    does not match the type of any one occurrence, not only the last, fails
    the validation. *)
Theorem C9_duplicate_keys (decls : list element_declaration)
  (elems : list zend_shape_element) :
  Forall2
    (fun d e =>
       exists t,
         zend_compile_type_internal (declared_type_ast d) true = Compiled t
         /\ declaration_element d t = Some e) decls elems ->
  exists shape,
    zend_compile_array_shape_type (shape_ast (map declaration_node decls))
    = Compiled (ZEND_TYPE_SET_ARRAY_SHAPE_PTR ZEND_TYPE_INIT_NONE shape)
    /\ (forall persistent,
           zend_compile_type_internal
             (shape_ast (map declaration_node decls)) persistent
           = zend_compile_array_shape_type
               (shape_ast (map declaration_node decls)))
    /\ elements shape = elems
    /\ forall ht,
         (fst (zend_validate_array_shape shape ht) = true <->
          forallb (element_satisfied ht) elems = true)
         /\ (forall e k v,
                In e elems ->
                declared_key e = Some k ->
                array_entry ht k = Some v ->
                value_matches (type e) v = false ->
                fst (zend_validate_array_shape shape ht) = false)
         /\ (forall e1 e2 k,
                In e1 elems -> In e2 elems ->
                declared_key e1 = Some k -> declared_key e2 = Some k ->
                fst (zend_validate_array_shape shape ht) = true ->
                match array_entry ht k with
                | Some v =>
                    value_matches (type e1) v = true
                    /\ value_matches (type e2) v = true
                | None => is_optional e1 = true /\ is_optional e2 = true
                end).
Proof.
  intros Hdecls.
  exists (Build_zend_array_shape 1
            (zend_compute_shape_hash (Build_zend_array_shape 1 0 elems)) elems).
  split; [|split; [|split]].
  - unfold shape_ast. rewrite zend_compile_shape_elements_unfold.
    rewrite (compile_declarations decls elems Hdecls). reflexivity.
  - intros persistent. reflexivity.
  - reflexivity.
  - intros ht.
    assert (Hiff : fst (zend_validate_array_shape
                          (Build_zend_array_shape 1
                             (zend_compute_shape_hash
                                (Build_zend_array_shape 1 0 elems)) elems) ht)
                   = forallb (element_satisfied ht) elems).
    { rewrite zend_validate_array_shape_unfold, shape_loop_pass,
        forallb_satisfied_ok. reflexivity. }
    rewrite Hiff. split; [reflexivity|]. split.
    + intros e k v Hin Hk Hentry Hv.
      apply (forallb_In_false _ _ e Hin).
      unfold element_satisfied, declared_entry. rewrite Hk, Hentry. exact Hv.
    + intros e1 e2 k H1 H2 Hk1 Hk2 Hpass.
      rewrite forallb_forall in Hpass.
      pose proof (Hpass e1 H1) as Hs1. pose proof (Hpass e2 H2) as Hs2.
      unfold element_satisfied, declared_entry in Hs1, Hs2.
      rewrite Hk1 in Hs1. rewrite Hk2 in Hs2.
      destruct (array_entry ht k); auto.
Qed.

End CompilerFacts.


Lemma C7_array_of_depth_witness :
  compiled_depth
    (zend_compile_array_of_type (array_of_ast (array_of_ast (array_of_ast int_ast))))
  = Some 3
  /\ compiled_depth
       (zend_compile_array_of_type
          (array_of_ast (shape_ast [element_ast "id" false int_ast])))
     = Some 1
  /\ exists ao,
       ptr (array_of_type (array_of_type ex_int 1) 2) = PTR_ARRAY_OF ao
       /\ (ZEND_TYPE_IS_ARRAY_OF (element_type ao) = false -> depth ao = 1)
       /\ (forall inner,
              ZEND_TYPE_IS_ARRAY_OF (element_type ao) = true ->
              ptr (element_type ao) = PTR_ARRAY_OF inner ->
              depth ao = (depth inner + 1) mod 256
              /\ (depth inner < 255 -> depth ao = depth inner + 1)).
Proof.
  split; [vm_compute; reflexivity|]. split; [vm_compute; reflexivity|].
  apply (C7_array_of_depth (array_of_ast (array_of_ast int_ast))).
  vm_compute. reflexivity.
Defined.

Lemma C7_counterexample :
  compiled_depth
    (zend_compile_array_of_type (Nat.iter 256 array_of_ast int_ast)) = Some 0
  /\ compiled_element_depth
       (zend_compile_array_of_type (Nat.iter 256 array_of_ast int_ast)) = Some 255
  /\ 0 <> 1 + 255.
Proof.
  split; [vm_compute; reflexivity|]. split; [vm_compute; reflexivity|]. lia.
Qed.

Lemma C10_depth_wraps_at_256_witness :
  exists t ao,
    zend_compile_type_internal (Nat.iter 300 array_of_ast int_ast) true
    = Compiled t
    /\ ptr t = PTR_ARRAY_OF ao
    /\ depth ao = Z.of_nat 300 mod 256
    /\ ReflectionArrayOfType_getDepth (Some ao) = Z.of_nat 300 mod 256.
Proof.
  apply (C10_depth_wraps_at_256 300 int_ast ex_int true).
  - vm_compute. reflexivity.
  - vm_compute. reflexivity.
  - lia.
Defined.

(** Claim C9 at concrete inputs: [array{a: int, a: string}], which no
    value of [a] satisfies, and [array{a: int, a: ?int}], which null does not
    satisfy although its last occurrence of [a] accepts it. *)
Lemma C9_duplicate_keys_witness :
  (exists shape,
      zend_compile_type_internal
        (shape_ast [element_ast "a" false int_ast;
                    element_ast "a" false string_ast]) true
      = Compiled (Build_zend_type (PTR_ARRAY_SHAPE shape) ex_shape_bits)
      /\ elements shape
         = [Build_zend_shape_element (Some "a") 0 true false ex_int;
            Build_zend_shape_element (Some "a") 0 true false ex_string]
      /\ fst (zend_validate_array_shape shape [(key_str "a", zv_string "x")])
         = false
      /\ fst (zend_validate_array_shape shape [(key_str "a", zv_long 1)])
         = false)
  /\
  (exists shape,
      zend_compile_type_internal
        (shape_ast [element_ast "a" false int_ast;
                    element_ast "a" false nullable_int_ast]) true
      = Compiled (Build_zend_type (PTR_ARRAY_SHAPE shape) ex_shape_bits)
      /\ fst (zend_validate_array_shape shape [(key_str "a", zv_long 1)])
         = true
      /\ fst (zend_validate_array_shape shape [(key_str "a", zv_null)])
         = false).
Proof.
  split.
  - assert (Hdecls :
      Forall2
        (fun d e =>
           exists t,
             zend_compile_type_internal (declared_type_ast d) true = Compiled t
             /\ declaration_element d t = Some e)
        ex_a_int_a_string
        [Build_zend_shape_element (Some "a") 0 true false ex_int;
         Build_zend_shape_element (Some "a") 0 true false ex_string]).
    { constructor; [exists ex_int; split; vm_compute; reflexivity|].
      constructor; [exists ex_string; split; vm_compute; reflexivity|].
      constructor. }
    destruct (C9_duplicate_keys _ _ Hdecls)
      as [shape [Hcompile [Hentry [Hels Hverdict]]]].
    exists shape. split.
    { change (zend_compile_type_internal
                (shape_ast (map declaration_node ex_a_int_a_string)) true
              = Compiled (Build_zend_type (PTR_ARRAY_SHAPE shape) ex_shape_bits)).
      rewrite (Hentry true), Hcompile. vm_compute. reflexivity. }
    split; [exact Hels|]. split.
    + destruct (Hverdict [(key_str "a", zv_string "x")]) as [_ [Hany _]].
      apply (Hany (Build_zend_shape_element (Some "a") 0 true false ex_int)
               (key_str "a") (zv_string "x")).
      * left. reflexivity.
      * reflexivity.
      * reflexivity.
      * vm_compute. reflexivity.
    + destruct (Hverdict [(key_str "a", zv_long 1)]) as [_ [Hany _]].
      apply (Hany (Build_zend_shape_element (Some "a") 0 true false ex_string)
               (key_str "a") (zv_long 1)).
      * right. left. reflexivity.
      * reflexivity.
      * reflexivity.
      * vm_compute. reflexivity.
  - assert (Hdecls :
      Forall2
        (fun d e =>
           exists t,
             zend_compile_type_internal (declared_type_ast d) true = Compiled t
             /\ declaration_element d t = Some e)
        ex_a_int_a_nullable_int
        [Build_zend_shape_element (Some "a") 0 true false ex_int;
         Build_zend_shape_element (Some "a") 0 true false
           (Build_zend_type PTR_NULL (Z.lor (Z.shiftl 1 4) (Z.shiftl 1 1)))]).
    { constructor; [exists ex_int; split; vm_compute; reflexivity|].
      constructor;
        [exists (Build_zend_type PTR_NULL (Z.lor (Z.shiftl 1 4) (Z.shiftl 1 1)));
         split; vm_compute; reflexivity|].
      constructor. }
    destruct (C9_duplicate_keys _ _ Hdecls)
      as [shape [Hcompile [Hentry [Hels Hverdict]]]].
    exists shape. split.
    { change (zend_compile_type_internal
                (shape_ast (map declaration_node ex_a_int_a_nullable_int)) true
              = Compiled (Build_zend_type (PTR_ARRAY_SHAPE shape) ex_shape_bits)).
      rewrite (Hentry true), Hcompile. vm_compute. reflexivity. }
    split.
    + destruct (Hverdict [(key_str "a", zv_long 1)]) as [Hiff _].
      apply Hiff. vm_compute. reflexivity.
    + destruct (Hverdict [(key_str "a", zv_null)]) as [_ [Hany _]].
      apply (Hany (Build_zend_shape_element (Some "a") 0 true false ex_int)
               (key_str "a") zv_null).
      * left. reflexivity.
      * reflexivity.
      * reflexivity.
      * vm_compute. reflexivity.
Defined.

(** ** Type comparison *)
Section EquivalenceFacts.
Context {E : zend_engine}.

Lemma zend_types_are_equivalent_unfold a b :
  zend_types_are_equivalent a b =
  if negb (tag_bits a =? tag_bits b) then false
  else if ZEND_TYPE_IS_ARRAY_OF a then
    match ptr a with
    | PTR_ARRAY_OF ao_a =>
        if negb (ZEND_TYPE_IS_ARRAY_OF b) then false
        else
          match ptr b with
          | PTR_ARRAY_OF ao_b =>
              zend_types_are_equivalent (element_type ao_a) (element_type ao_b)
          | _ => false
          end
    | _ => false
    end
  else if ZEND_TYPE_IS_ARRAY_SHAPE a then
    match ptr a with
    | PTR_ARRAY_SHAPE shape_a =>
        if negb (ZEND_TYPE_IS_ARRAY_SHAPE b) then false
        else
          match ptr b with
          | PTR_ARRAY_SHAPE shape_b =>
              if negb (shape_hash shape_a =? shape_hash shape_b) then false
              else if negb (num_elements shape_a =? num_elements shape_b)
              then false
              else elements_equivalent (elements shape_a) (elements shape_b)
          | _ => false
          end
    | _ => false
    end
  else if negb (ZEND_TYPE_PURE_MASK a =? ZEND_TYPE_PURE_MASK b) then false
  else if ZEND_TYPE_HAS_NAME a && ZEND_TYPE_HAS_NAME b then
    match ptr a, ptr b with
    | PTR_NAME name_a, PTR_NAME name_b => zend_string_equals_ci name_a name_b
    | _, _ => false
    end
  else negb (ZEND_TYPE_HAS_NAME a) && negb (ZEND_TYPE_HAS_NAME b).
Proof.
  destruct a as [pa ma]. unfold tag_bits.
  cbn [zend_types_are_equivalent type_mask ptr].
  destruct (negb (Z.land ma ZEND_TYPE_EXTENDED_ARRAY_MASK
                  =? Z.land (type_mask b) ZEND_TYPE_EXTENDED_ARRAY_MASK));
    [reflexivity|].
  destruct (ZEND_TYPE_IS_ARRAY_OF (Build_zend_type pa ma)); [reflexivity|].
  destruct (ZEND_TYPE_IS_ARRAY_SHAPE (Build_zend_type pa ma)); [|reflexivity].
  destruct pa as [| | |ao|sa]; reflexivity.
Qed.

Lemma elements_equivalent_Forall2 la lb :
  List.length la = List.length lb ->
  (elements_equivalent la lb = true <-> Forall2 elements_agree la lb).
Proof.
  revert lb. induction la as [|ea la IH]; intros [|eb lb] Hlen;
    try discriminate.
  - split; [constructor|reflexivity].
  - cbn [List.length] in Hlen. injection Hlen as Hlen.
    cbn [elements_equivalent]. unfold elements_agree at 1.
    split.
    + intros H.
      destruct (Bool.eqb (is_string_key ea) (is_string_key eb)) eqn:Hk;
        [|discriminate].
      apply Bool.eqb_prop in Hk. cbn [negb] in H.
      match type of H with
      | (if ?c then _ else _) = _ => destruct c eqn:Hid; [discriminate|]
      end.
      destruct (Bool.eqb (is_optional ea) (is_optional eb)) eqn:Ho;
        [|discriminate].
      apply Bool.eqb_prop in Ho. cbn [negb] in H.
      destruct (zend_types_are_equivalent (type ea) (type eb)) eqn:Ht;
        [|discriminate].
      cbn [negb] in H.
      constructor; [|apply IH; assumption].
      split; [exact Hk|]. split; [|split; [exact Ho|exact Ht]].
      destruct (is_string_key ea); apply negb_false_iff in Hid;
        [exact Hid|apply Z.eqb_eq; exact Hid].
    + intros H. inversion H as [|? ? ? ? Hag Hrest]; subst.
      destruct Hag as [Hk [Hid [Ho Ht]]].
      rewrite Hk, Ho, Ht, !Bool.eqb_reflx. cbn [negb].
      rewrite <- Hk.
      destruct (is_string_key ea).
      * rewrite Hid. cbn [negb]. apply IH; assumption.
      * rewrite Hid, Z.eqb_refl. cbn [negb]. apply IH; assumption.
Qed.

(** Induction over type values. *)
Lemma zend_type_ind (P : zend_type -> Prop) :
  (forall m, P (Build_zend_type PTR_NULL m)) ->
  (forall n m, P (Build_zend_type (PTR_NAME n) m)) ->
  (forall l m, Forall P l -> P (Build_zend_type (PTR_LIST l) m)) ->
  (forall et rc d m,
      P et -> P (Build_zend_type (PTR_ARRAY_OF (Build_zend_array_of et rc d)) m)) ->
  (forall rc h els m,
      Forall (fun e => P (type e)) els ->
      P (Build_zend_type (PTR_ARRAY_SHAPE (Build_zend_array_shape rc h els)) m)) ->
  forall t, P t.
Proof.
  intros Hnull Hname Hlist Hao Hsh.
  fix IH 1. intros [p m]. destruct p as [|n|l|ao|sh].
  - apply Hnull.
  - apply Hname.
  - apply Hlist. induction l as [|t l IHl]; constructor; [apply IH|exact IHl].
  - destruct ao as [et rc d]. apply Hao. apply IH.
  - destruct sh as [rc h els]. apply Hsh.
    induction els as [|e els IHels]; constructor; [|exact IHels].
    destruct e as [k kn sk o t]. cbn [type]. apply IH.
Qed.

Lemma land_tag_bit_24 x :
  Z.land x ZEND_TYPE_ARRAY_OF_BIT
  = Z.land (Z.land x ZEND_TYPE_EXTENDED_ARRAY_MASK) ZEND_TYPE_ARRAY_OF_BIT.
Proof. rewrite <- Z.land_assoc. reflexivity. Qed.

Lemma land_tag_bit_25 x :
  Z.land x ZEND_TYPE_ARRAY_SHAPE_BIT
  = Z.land (Z.land x ZEND_TYPE_EXTENDED_ARRAY_MASK) ZEND_TYPE_ARRAY_SHAPE_BIT.
Proof. rewrite <- Z.land_assoc. reflexivity. Qed.

Lemma tag_bits_is_array_of a b :
  tag_bits a = tag_bits b -> ZEND_TYPE_IS_ARRAY_OF a = ZEND_TYPE_IS_ARRAY_OF b.
Proof.
  unfold tag_bits, ZEND_TYPE_IS_ARRAY_OF. intros H.
  rewrite (land_tag_bit_24 (type_mask a)), (land_tag_bit_24 (type_mask b)), H.
  reflexivity.
Qed.

Lemma tag_bits_is_array_shape a b :
  tag_bits a = tag_bits b ->
  ZEND_TYPE_IS_ARRAY_SHAPE a = ZEND_TYPE_IS_ARRAY_SHAPE b.
Proof.
  unfold tag_bits, ZEND_TYPE_IS_ARRAY_SHAPE. intros H.
  rewrite (land_tag_bit_25 (type_mask a)), (land_tag_bit_25 (type_mask b)), H.
  reflexivity.
Qed.

Lemma no_extended_array t :
  ZEND_TYPE_HAS_EXTENDED_ARRAY t = false ->
  ZEND_TYPE_IS_ARRAY_OF t = false /\ ZEND_TYPE_IS_ARRAY_SHAPE t = false.
Proof.
  unfold ZEND_TYPE_HAS_EXTENDED_ARRAY, ZEND_TYPE_IS_ARRAY_OF,
    ZEND_TYPE_IS_ARRAY_SHAPE.
  intros H. apply negb_false_iff, Z.eqb_eq in H.
  rewrite land_tag_bit_24, land_tag_bit_25, H. split; reflexivity.
Qed.

Lemma zend_tolower_ascii_eqb_refl c :
  Ascii.eqb (zend_tolower_ascii c) (zend_tolower_ascii c) = true.
Proof. apply Ascii.eqb_refl. Qed.

Lemma zend_string_equals_ci_refl s : zend_string_equals_ci s s = true.
Proof.
  induction s as [|c s IH]; [reflexivity|].
  cbn [zend_string_equals_ci]. rewrite Ascii.eqb_refl, IH. reflexivity.
Qed.

Lemma elements_equivalent_refl els :
  Forall (fun e => well_tagged (type e) = true ->
                   zend_types_are_equivalent (type e) (type e) = true) els ->
  forallb well_tagged_element els = true ->
  elements_equivalent els els = true.
Proof.
  induction 1 as [|e els He _ IH]; [reflexivity|].
  cbn [forallb]. intros Hwt. apply andb_true_iff in Hwt as [Hwe Hrest].
  unfold well_tagged_element in Hwe. apply andb_true_iff in Hwe as [Hkey Hty].
  cbn [elements_equivalent].
  rewrite !Bool.eqb_reflx, (He Hty), (IH Hrest). cbn [negb].
  destruct (is_string_key e).
  - destruct (key e) as [k|]; [|discriminate].
    cbn [zend_string_equals]. rewrite String.eqb_refl. reflexivity.
  - rewrite Z.eqb_refl. reflexivity.
Qed.

Lemma well_tagged_shape_elements t shape :
  ptr t = PTR_ARRAY_SHAPE shape ->
  well_tagged t =
  negb (ZEND_TYPE_IS_ARRAY_OF t) && ZEND_TYPE_IS_ARRAY_SHAPE t
  && forallb well_tagged_element (elements shape).
Proof.
  destruct t as [p m]. cbn [ptr]. intros ->. cbn [well_tagged ptr].
  reflexivity.
Qed.

Lemma zend_types_are_equivalent_refl t :
  well_tagged t = true -> zend_types_are_equivalent t t = true.
Proof.
  induction t as [m|n m|l m _|et rc d m IH|rc h els m IH] using zend_type_ind;
    intros Hwt; rewrite zend_types_are_equivalent_unfold, Z.eqb_refl;
    cbn [negb].
  - cbn [well_tagged ptr] in Hwt. apply andb_true_iff in Hwt as [Hext Hname].
    apply negb_true_iff in Hext, Hname.
    destruct (no_extended_array _ Hext) as [-> ->].
    rewrite Z.eqb_refl, Hname. reflexivity.
  - cbn [well_tagged ptr] in Hwt. apply negb_true_iff in Hwt.
    destruct (no_extended_array _ Hwt) as [-> ->].
    rewrite Z.eqb_refl. cbn [negb ptr].
    destruct (ZEND_TYPE_HAS_NAME (Build_zend_type (PTR_NAME n) m));
      [apply zend_string_equals_ci_refl|reflexivity].
  - cbn [well_tagged ptr] in Hwt.
    apply andb_true_iff in Hwt as [Hwt _].
    apply andb_true_iff in Hwt as [Hext Hname].
    apply negb_true_iff in Hext, Hname.
    destruct (no_extended_array _ Hext) as [-> ->].
    rewrite Z.eqb_refl, Hname. reflexivity.
  - cbn [well_tagged ptr element_type] in Hwt.
    apply andb_true_iff in Hwt as [Hof Het].
    rewrite Hof. cbn [ptr negb element_type]. exact (IH Het).
  - rewrite (well_tagged_shape_elements
               (Build_zend_type (PTR_ARRAY_SHAPE (Build_zend_array_shape rc h els)) m)
               _ eq_refl) in Hwt.
    apply andb_true_iff in Hwt as [Hwt Hels].
    apply andb_true_iff in Hwt as [Hof Hsh].
    apply negb_true_iff in Hof. rewrite Hof, Hsh. cbn [ptr negb].
    rewrite !Z.eqb_refl. cbn [negb elements].
    apply elements_equivalent_refl; assumption.
Qed.

Lemma well_tagged_mask p m m' :
  Z.land m' ZEND_TYPE_EXTENDED_ARRAY_MASK = Z.land m ZEND_TYPE_EXTENDED_ARRAY_MASK ->
  Z.land m' _ZEND_TYPE_NAME_BIT = Z.land m _ZEND_TYPE_NAME_BIT ->
  well_tagged (Build_zend_type p m') = well_tagged (Build_zend_type p m).
Proof.
  intros Hext Hname.
  assert (Hof : ZEND_TYPE_IS_ARRAY_OF (Build_zend_type p m')
                = ZEND_TYPE_IS_ARRAY_OF (Build_zend_type p m))
    by (apply tag_bits_is_array_of; exact Hext).
  assert (Hsh : ZEND_TYPE_IS_ARRAY_SHAPE (Build_zend_type p m')
                = ZEND_TYPE_IS_ARRAY_SHAPE (Build_zend_type p m))
    by (apply tag_bits_is_array_shape; exact Hext).
  assert (Hx : ZEND_TYPE_HAS_EXTENDED_ARRAY (Build_zend_type p m')
               = ZEND_TYPE_HAS_EXTENDED_ARRAY (Build_zend_type p m))
    by (unfold ZEND_TYPE_HAS_EXTENDED_ARRAY; cbn [type_mask]; rewrite Hext;
        reflexivity).
  assert (Hn : ZEND_TYPE_HAS_NAME (Build_zend_type p m')
               = ZEND_TYPE_HAS_NAME (Build_zend_type p m))
    by (unfold ZEND_TYPE_HAS_NAME; cbn [type_mask]; rewrite Hname;
        reflexivity).
  destruct p; cbn [well_tagged ptr]; rewrite ?Hof, ?Hsh, ?Hx, ?Hn; reflexivity.
Qed.

Lemma land_lor_0 a b c :
  Z.land a c = 0 -> Z.land b c = 0 -> Z.land (Z.lor a b) c = 0.
Proof.
  intros Ha Hb. rewrite Z.land_lor_distr_l, Ha, Hb. reflexivity.
Qed.

Lemma land_tag_bits_0 x :
  Z.land x ZEND_TYPE_EXTENDED_ARRAY_MASK = 0 ->
  Z.land x ZEND_TYPE_ARRAY_OF_BIT = 0 /\ Z.land x ZEND_TYPE_ARRAY_SHAPE_BIT = 0.
Proof.
  intros H. rewrite land_tag_bit_24, land_tag_bit_25, H. split; reflexivity.
Qed.

Section Layout.
Hypothesis layout : engine_layout.

Lemma array_shape_type_not_array_of els :
  ZEND_TYPE_IS_ARRAY_OF (array_shape_type els) = false.
Proof.
  unfold ZEND_TYPE_IS_ARRAY_OF, array_shape_type, ZEND_TYPE_SET_ARRAY_SHAPE_PTR.
  cbn [type_mask ZEND_TYPE_INIT_NONE]. apply negb_false_iff, Z.eqb_eq.
  rewrite Z.lor_0_l. apply land_lor_0; [reflexivity|].
  apply land_tag_bits_0, (layout_array layout).
Qed.

Lemma list_type_well_tagged l bit :
  Z.land bit ZEND_TYPE_EXTENDED_ARRAY_MASK = 0 ->
  Z.land bit _ZEND_TYPE_NAME_BIT = 0 ->
  forallb well_tagged l = true ->
  well_tagged
    (Build_zend_type (ptr (ZEND_TYPE_SET_LIST ZEND_TYPE_INIT_NONE l))
       (Z.lor (type_mask (ZEND_TYPE_SET_LIST ZEND_TYPE_INIT_NONE l)) bit))
  = true.
Proof.
  intros Hbit Hbitn Hl.
  cbn [ZEND_TYPE_SET_LIST ZEND_TYPE_INIT_NONE ptr type_mask well_tagged].
  rewrite Z.lor_0_l.
  unfold ZEND_TYPE_HAS_EXTENDED_ARRAY, ZEND_TYPE_HAS_NAME. cbn [type_mask].
  rewrite (land_lor_0 _ _ _ (layout_list layout) Hbit).
  rewrite (land_lor_0 _ _ _ (layout_list_name layout) Hbitn).
  cbn. induction l as [|t l IH]; [reflexivity|].
  cbn [forallb] in Hl. apply andb_true_iff in Hl as [Ht Hl].
  rewrite Ht. exact (IH Hl).
Qed.

Lemma compiled_well_tagged_all ast :
  (forall persistent t,
      zend_compile_type_internal ast persistent = Compiled t ->
      well_tagged t = true)
  /\ (forall elem,
         compile_shape_element ast = Compiled elem ->
         well_tagged_element elem = true)
  /\ (forall kind attr children elems,
         ast = ast_node kind attr children ->
         compile_shape_elements children = Compiled elems ->
         forallb well_tagged_element elems = true).
Proof.
  induction ast as [kind attr val | kind attr child IH] using zend_ast_ind.
  - split; [|split].
    + intros persistent t Hc.
      destruct kind; cbn in Hc; try discriminate.
      * inversion Hc; subst t. cbn [well_tagged ptr ZEND_TYPE_INIT_CODE].
        unfold ZEND_TYPE_HAS_EXTENDED_ARRAY, ZEND_TYPE_HAS_NAME.
        cbn [type_mask].
        rewrite (layout_code layout), (layout_code_name layout). reflexivity.
      * destruct val; try discriminate. inversion Hc; subst t.
        cbn [well_tagged ptr ZEND_TYPE_INIT_CLASS].
        unfold ZEND_TYPE_HAS_EXTENDED_ARRAY. cbn [type_mask].
        rewrite (layout_name layout). reflexivity.
      * destruct val; try discriminate. inversion Hc; subst t.
        cbn [well_tagged ptr ZEND_TYPE_INIT_CLASS].
        unfold ZEND_TYPE_HAS_EXTENDED_ARRAY. cbn [type_mask].
        rewrite (layout_name layout). reflexivity.
    + intros elem Hc. discriminate.
    + intros k a children elems Heq. discriminate.
  - assert (Hmembers : forall persistent l,
      (fix compile_members (l : list zend_ast)
         : compile_result (list zend_type) :=
         match l with
         | [] => Compiled []
         | member :: rest =>
             t <- zend_compile_type_internal member persistent ;;
             rest' <- compile_members rest ;;
             Compiled (t :: rest')
         end) child = Compiled l ->
      forallb well_tagged l = true).
    { intros persistent. clear - IH.
      induction IH as [|c child [Hc _] _ IHchild]; intros l Hl.
      - inversion Hl. reflexivity.
      - destruct (zend_compile_type_internal c persistent) as [t|] eqn:Ht;
          [|discriminate].
        cbn [bind_compile] in Hl.
        match type of Hl with
        | bind_compile ?r _ = _ => destruct r as [rest'|] eqn:Hr; [|discriminate]
        end.
        cbn [bind_compile] in Hl. inversion Hl; subst l.
        cbn [forallb]. rewrite (Hc persistent t Ht), (IHchild rest' eq_refl).
        reflexivity. }
    split; [|split].
    + intros persistent t Hc.
      destruct kind; try (cbn in Hc; discriminate).
      * cbn in Hc. inversion Hc; subst t.
        cbn [well_tagged ptr ZEND_TYPE_INIT_CODE].
        unfold ZEND_TYPE_HAS_EXTENDED_ARRAY, ZEND_TYPE_HAS_NAME.
        cbn [type_mask].
        rewrite (layout_code layout), (layout_code_name layout). reflexivity.
      * destruct child as [|child0 rest]; [cbn in Hc; discriminate|].
        cbn [zend_compile_type_internal ast_kind] in Hc.
        destruct (zend_compile_type_internal child0 persistent) as [ty|e] eqn:H0;
          [|discriminate].
        cbn [bind_compile] in Hc. inversion Hc; subst t.
        inversion IH as [|? ? [IH0 _] _]; subst.
        destruct ty as [p m]. cbn [ptr type_mask].
        rewrite (well_tagged_mask p m (Z.lor m MAY_BE_NULL)).
        -- exact (IH0 persistent _ H0).
        -- rewrite Z.land_lor_distr_l, (layout_null layout), Z.lor_0_r.
           reflexivity.
        -- rewrite Z.land_lor_distr_l, (layout_null_name layout), Z.lor_0_r.
           reflexivity.
      * cbn [zend_compile_type_internal ast_kind] in Hc.
        match type of Hc with
        | bind_compile ?r _ = _ => destruct r as [l|] eqn:Hl; [|discriminate]
        end.
        cbn [bind_compile] in Hc. inversion Hc; subst t.
        apply list_type_well_tagged;
          [apply (layout_union layout)|apply (layout_union_name layout)|].
        exact (Hmembers persistent l Hl).
      * cbn [zend_compile_type_internal ast_kind] in Hc.
        match type of Hc with
        | bind_compile ?r _ = _ => destruct r as [l|] eqn:Hl; [|discriminate]
        end.
        cbn [bind_compile] in Hc. inversion Hc; subst t.
        apply list_type_well_tagged;
          [apply (layout_intersection layout)
          |apply (layout_intersection_name layout)|].
        exact (Hmembers persistent l Hl).
      * change (zend_compile_array_of_type
                  (ast_node ZEND_AST_TYPE_ARRAY_OF attr child) = Compiled t) in Hc.
        apply zend_compile_array_of_type_inv in Hc
          as (a & c & more & et & Heq & Hc & Ht).
        inversion Heq; subst child.
        inversion IH as [|? ? [IH0 _] _]; subst.
        assert (Hwt : forall d, well_tagged (array_of_type et d) = true).
        { intros d. pose proof (array_of_type_is_array_of et d) as Hof.
          unfold array_of_type, ZEND_TYPE_SET_ARRAY_OF_PTR in *.
          cbn [well_tagged ptr element_type]. rewrite Hof.
          exact (IH0 true et Hc). }
        destruct Ht as [[_ ->]|[inner [_ [_ ->]]]]; apply Hwt.
      * change (zend_compile_array_shape_type
                  (ast_node ZEND_AST_TYPE_ARRAY_SHAPE attr child) = Compiled t) in Hc.
        apply zend_compile_array_shape_type_inv in Hc
          as (a & a' & cs & more & els & Heq & Hels & ->).
        inversion Heq; subst child.
        inversion IH as [|? ? [_ [_ IHlist]] _]; subst.
        rewrite (well_tagged_shape_elements (array_shape_type els) _ eq_refl).
        rewrite array_shape_type_not_array_of, array_shape_type_is_array_shape.
        cbn [negb andb elements].
        exact (IHlist _ _ _ _ eq_refl Hels).
    + intros elem Hc. unfold compile_shape_element in Hc.
      destruct kind; try discriminate.
      destruct child as [|key_ast [|type_ast rest]]; try discriminate.
      destruct key_ast as [kk ka kv|]; try discriminate.
      destruct kk; try discriminate.
      inversion IH as [|? ? _ IH']; subst.
      inversion IH' as [|? ? [IHty _] _]; subst.
      destruct kv; try discriminate; cbn [bind_compile] in Hc;
        destruct (zend_compile_type_internal type_ast true) as [ty|] eqn:Hty;
        try discriminate; cbn [bind_compile] in Hc; inversion Hc; subst elem;
        unfold well_tagged_element;
        cbn [is_string_key key type]; rewrite (IHty true ty Hty); reflexivity.
    + intros k a children elems Heq Hc. inversion Heq; subst k a children.
      clear Heq Hmembers. revert elems Hc.
      induction IH as [|c child [_ [Helem _]] _ IHchild]; intros elems Hc.
      * inversion Hc. reflexivity.
      * cbn [compile_shape_elements] in Hc.
        destruct (compile_shape_element c) as [e|] eqn:He; [|discriminate].
        cbn [bind_compile] in Hc.
        destruct (compile_shape_elements child) as [rest'|] eqn:Hr;
          [|discriminate].
        cbn [bind_compile] in Hc. inversion Hc; subst elems.
        cbn [forallb]. rewrite (Helem e eq_refl), (IHchild rest' eq_refl).
        reflexivity.
Qed.

Lemma compiled_well_tagged ast persistent t :
  zend_compile_type_internal ast persistent = Compiled t ->
  well_tagged t = true.
Proof. apply compiled_well_tagged_all. Qed.

Lemma compile_persistent_irrelevant ast :
  forall p1 p2,
    zend_compile_type_internal ast p1 = zend_compile_type_internal ast p2.
Proof.
  induction ast as [kind attr val | kind attr child IH] using zend_ast_ind;
    intros p1 p2.
  - destruct kind; reflexivity.
  - assert (Hmembers :
      (fix compile_members (l : list zend_ast)
         : compile_result (list zend_type) :=
         match l with
         | [] => Compiled []
         | member :: rest =>
             t <- zend_compile_type_internal member p1 ;;
             rest' <- compile_members rest ;;
             Compiled (t :: rest')
         end) child
      =
      (fix compile_members (l : list zend_ast)
         : compile_result (list zend_type) :=
         match l with
         | [] => Compiled []
         | member :: rest =>
             t <- zend_compile_type_internal member p2 ;;
             rest' <- compile_members rest ;;
             Compiled (t :: rest')
         end) child).
    { induction IH as [|c child Hc _ IHchild]; [reflexivity|].
      rewrite (Hc p1 p2), IHchild. reflexivity. }
    destruct kind; try reflexivity.
    + destruct child as [|child0 rest]; [reflexivity|].
      cbn [zend_compile_type_internal ast_kind].
      inversion IH as [|? ? IH0 _]; subst. rewrite (IH0 p1 p2). reflexivity.
    + cbn [zend_compile_type_internal ast_kind]. rewrite Hmembers. reflexivity.
    + cbn [zend_compile_type_internal ast_kind]. rewrite Hmembers. reflexivity.
Qed.

End Layout.

Lemma permutation_same_keys {A B : Type} (f : A -> B) (l1 l2 : list A) :
  Permutation l1 l2 -> NoDup (map f l1) -> map f l1 = map f l2 -> l1 = l2.
Proof.
  revert l2. induction l1 as [|x l1 IH]; intros l2 Hperm Hnodup Hmap.
  - apply Permutation_nil in Hperm. congruence.
  - destruct l2 as [|y l2]; [discriminate|].
    cbn [map] in Hmap, Hnodup. injection Hmap as Hxy Hmap.
    inversion Hnodup as [|? ? Hnotin Hnodup']; subst.
    assert (Hin : In y (x :: l1))
      by (apply (Permutation_in y (Permutation_sym Hperm)); left; reflexivity).
    destruct Hin as [Heq|Hin].
    + subst y. f_equal. apply IH; [|assumption|assumption].
      exact (Permutation_cons_inv Hperm).
    + exfalso. apply Hnotin. rewrite Hxy. apply in_map. exact Hin.
Qed.

Lemma elements_agree_declared_key ea eb :
  elements_agree ea eb -> declared_key ea = declared_key eb.
Proof.
  unfold elements_agree, declared_key. intros [Hk [Hid _]].
  rewrite <- Hk. destruct (is_string_key ea).
  - unfold zend_string_equals in Hid.
    destruct (key ea), (key eb); try discriminate.
    apply String.eqb_eq in Hid. subst. reflexivity.
  - rewrite Hid. reflexivity.
Qed.

Lemma equivalent_array_of a b ao_a ao_b :
  ZEND_TYPE_IS_ARRAY_OF a = true ->
  ptr a = PTR_ARRAY_OF ao_a ->
  ptr b = PTR_ARRAY_OF ao_b ->
  (zend_types_are_equivalent a b = true <->
   tag_bits a = tag_bits b
   /\ zend_types_are_equivalent (element_type ao_a) (element_type ao_b) = true).
Proof.
  intros Hof Hpa Hpb.
  rewrite zend_types_are_equivalent_unfold, Hof, Hpa, Hpb.
  destruct (tag_bits a =? tag_bits b) eqn:Htag; cbn [negb].
  - apply Z.eqb_eq in Htag.
    rewrite <- (tag_bits_is_array_of a b Htag), Hof. cbn [negb].
    split; [auto|]. intros [_ H]. exact H.
  - apply Z.eqb_neq in Htag. split; [discriminate|]. intros [H _]. contradiction.
Qed.

Lemma equivalent_array_shape a b sa sb :
  ZEND_TYPE_IS_ARRAY_OF a = false ->
  ZEND_TYPE_IS_ARRAY_SHAPE a = true ->
  ptr a = PTR_ARRAY_SHAPE sa ->
  ptr b = PTR_ARRAY_SHAPE sb ->
  (zend_types_are_equivalent a b = true <->
   tag_bits a = tag_bits b
   /\ shape_hash sa = shape_hash sb
   /\ num_elements sa = num_elements sb
   /\ Forall2 elements_agree (elements sa) (elements sb)).
Proof.
  intros Hof Hsh Hpa Hpb.
  rewrite zend_types_are_equivalent_unfold, Hof, Hsh, Hpa, Hpb.
  destruct (tag_bits a =? tag_bits b) eqn:Htag; cbn [negb].
  2:{ apply Z.eqb_neq in Htag. split; [discriminate|].
      intros [H _]. contradiction. }
  apply Z.eqb_eq in Htag.
  rewrite <- (tag_bits_is_array_shape a b Htag), Hsh. cbn [negb].
  destruct (shape_hash sa =? shape_hash sb) eqn:Hh; cbn [negb].
  2:{ apply Z.eqb_neq in Hh. split; [discriminate|].
      intros [_ [H _]]. contradiction. }
  apply Z.eqb_eq in Hh.
  destruct (num_elements sa =? num_elements sb) eqn:Hn; cbn [negb].
  2:{ apply Z.eqb_neq in Hn. split; [discriminate|].
      intros [_ [_ [H _]]]. contradiction. }
  apply Z.eqb_eq in Hn.
  assert (Hlen : List.length (elements sa) = List.length (elements sb))
    by (unfold num_elements in Hn; lia).
  rewrite (elements_equivalent_Forall2 _ _ Hlen).
  split; [auto|]. intros [_ [_ [_ H]]]. exact H.
Qed.

Lemma equivalent_plain a b :
  ZEND_TYPE_IS_ARRAY_OF a = false ->
  ZEND_TYPE_IS_ARRAY_SHAPE a = false ->
  (zend_types_are_equivalent a b = true <->
   tag_bits a = tag_bits b
   /\ ZEND_TYPE_PURE_MASK a = ZEND_TYPE_PURE_MASK b
   /\ ((ZEND_TYPE_HAS_NAME a = true /\ ZEND_TYPE_HAS_NAME b = true
        /\ exists name_a name_b,
             ptr a = PTR_NAME name_a /\ ptr b = PTR_NAME name_b
             /\ zend_string_equals_ci name_a name_b = true)
       \/ (ZEND_TYPE_HAS_NAME a = false /\ ZEND_TYPE_HAS_NAME b = false))).
Proof.
  intros Hof Hsh.
  rewrite zend_types_are_equivalent_unfold, Hof, Hsh.
  destruct (tag_bits a =? tag_bits b) eqn:Htag; cbn [negb].
  2:{ apply Z.eqb_neq in Htag. split; [discriminate|].
      intros [H _]. contradiction. }
  apply Z.eqb_eq in Htag.
  destruct (ZEND_TYPE_PURE_MASK a =? ZEND_TYPE_PURE_MASK b) eqn:Hm; cbn [negb].
  2:{ apply Z.eqb_neq in Hm. split; [discriminate|].
      intros [_ [H _]]. contradiction. }
  apply Z.eqb_eq in Hm.
  destruct (ZEND_TYPE_HAS_NAME a) eqn:Hna, (ZEND_TYPE_HAS_NAME b) eqn:Hnb;
    cbn [andb negb].
  - split.
    + intros H. destruct (ptr a) as [|na| | |] eqn:Hpa; try discriminate.
      destruct (ptr b) as [|nb| | |] eqn:Hpb; try discriminate.
      repeat split; try assumption. left. repeat split.
      exists na, nb. auto.
    + intros [_ [_ [[_ [_ [na [nb [Hpa [Hpb H]]]]]]|[H _]]]]; [|discriminate].
      rewrite Hpa, Hpb. exact H.
  - split; [discriminate|].
    intros [_ [_ [[_ [H _]]|[H _]]]]; discriminate.
  - split; [discriminate|].
    intros [_ [_ [[H _]|[_ H]]]]; discriminate.
  - split; [auto|reflexivity].
Qed.

Lemma equivalent_tag_bits a b :
  zend_types_are_equivalent a b = true -> tag_bits a = tag_bits b.
Proof.
  rewrite zend_types_are_equivalent_unfold.
  destruct (tag_bits a =? tag_bits b) eqn:Htag; cbn [negb]; [|discriminate].
  intros _. apply Z.eqb_eq. exact Htag.
Qed.

(** Claim C3.  [zend_types_are_equivalent a b] holds only if the tag bits
    of [a] and [b] are equal, and then: for array-of types, exactly when the
    element types are equivalent; for shapes, exactly when the stored hashes
    are equal, the element counts are equal and the elements agree pairwise
    in declaration order on key kind, key, optional flag and (recursively)
    type; for any other type, exactly when the pure masks are equal and
    either both carry a class name and the names are equal up to case or
    neither carries one.  Consequently a shape declaration compiled twice
    gives equivalent types (for an engine whose bits do not overlap the tag
    bits), while a shape is not equivalent to a reordering of its distinct
    keys, nor to itself with one more element. *)
Theorem C3_equivalence :
  (forall a b,
      zend_types_are_equivalent a b = true -> tag_bits a = tag_bits b)
  /\
  (forall a b ao_a ao_b,
      ZEND_TYPE_IS_ARRAY_OF a = true ->
      ptr a = PTR_ARRAY_OF ao_a ->
      ptr b = PTR_ARRAY_OF ao_b ->
      (zend_types_are_equivalent a b = true <->
       tag_bits a = tag_bits b
       /\ zend_types_are_equivalent (element_type ao_a) (element_type ao_b)
          = true))
  /\
  (forall a b sa sb,
      ZEND_TYPE_IS_ARRAY_OF a = false ->
      ZEND_TYPE_IS_ARRAY_SHAPE a = true ->
      ptr a = PTR_ARRAY_SHAPE sa ->
      ptr b = PTR_ARRAY_SHAPE sb ->
      (zend_types_are_equivalent a b = true <->
       tag_bits a = tag_bits b
       /\ shape_hash sa = shape_hash sb
       /\ num_elements sa = num_elements sb
       /\ Forall2 elements_agree (elements sa) (elements sb)))
  /\
  (forall a b,
      ZEND_TYPE_IS_ARRAY_OF a = false ->
      ZEND_TYPE_IS_ARRAY_SHAPE a = false ->
      (zend_types_are_equivalent a b = true <->
       tag_bits a = tag_bits b
       /\ ZEND_TYPE_PURE_MASK a = ZEND_TYPE_PURE_MASK b
       /\ ((ZEND_TYPE_HAS_NAME a = true /\ ZEND_TYPE_HAS_NAME b = true
            /\ exists name_a name_b,
                 ptr a = PTR_NAME name_a /\ ptr b = PTR_NAME name_b
                 /\ zend_string_equals_ci name_a name_b = true)
           \/ (ZEND_TYPE_HAS_NAME a = false /\ ZEND_TYPE_HAS_NAME b = false))))
  /\
  (engine_layout ->
   forall element_list p1 p2 t1 t2,
     zend_compile_type_internal (shape_ast element_list) p1 = Compiled t1 ->
     zend_compile_type_internal (shape_ast element_list) p2 = Compiled t2 ->
     zend_types_are_equivalent t1 t2 = true)
  /\
  (forall a b sa sb,
      ZEND_TYPE_IS_ARRAY_OF a = false ->
      ZEND_TYPE_IS_ARRAY_SHAPE a = true ->
      ptr a = PTR_ARRAY_SHAPE sa ->
      ptr b = PTR_ARRAY_SHAPE sb ->
      Permutation (elements sa) (elements sb) ->
      elements sa <> elements sb ->
      NoDup (map declared_key (elements sa)) ->
      zend_types_are_equivalent a b = false)
  /\
  (forall a b sa sb l1 extra l2,
      ZEND_TYPE_IS_ARRAY_OF a = false ->
      ZEND_TYPE_IS_ARRAY_SHAPE a = true ->
      ptr a = PTR_ARRAY_SHAPE sa ->
      ptr b = PTR_ARRAY_SHAPE sb ->
      elements sa = l1 ++ l2 ->
      elements sb = l1 ++ extra :: l2 ->
      zend_types_are_equivalent a b = false).
Proof.
  split; [exact equivalent_tag_bits|].
  split; [exact equivalent_array_of|].
  split; [exact equivalent_array_shape|].
  split; [exact equivalent_plain|].
  split; [|split].
  - intros layout element_list p1 p2 t1 t2 H1 H2.
    rewrite (compile_persistent_irrelevant _ p2 p1) in H2.
    rewrite H1 in H2. inversion H2; subst t2.
    apply zend_types_are_equivalent_refl.
    exact (compiled_well_tagged layout _ _ _ H1).
  - intros a b sa sb Hof Hsh Hpa Hpb Hperm Hneq Hnodup.
    destruct (zend_types_are_equivalent a b) eqn:Heq; [|reflexivity].
    exfalso. apply Hneq.
    apply (equivalent_array_shape a b sa sb Hof Hsh Hpa Hpb) in Heq
      as [_ [_ [_ Hall]]].
    apply (permutation_same_keys declared_key); [assumption|assumption|].
    clear - Hall. induction Hall as [|ea eb la lb Hag _ IH]; [reflexivity|].
    cbn [map]. rewrite IH, (elements_agree_declared_key _ _ Hag). reflexivity.
  - intros a b sa sb l1 extra l2 Hof Hsh Hpa Hpb Ha Hb.
    destruct (zend_types_are_equivalent a b) eqn:Heq; [|reflexivity].
    exfalso.
    apply (equivalent_array_shape a b sa sb Hof Hsh Hpa Hpb) in Heq
      as [_ [_ [Hn _]]].
    unfold num_elements in Hn. rewrite Ha, Hb in Hn.
    rewrite !length_app in Hn. cbn [List.length] in Hn. lia.
Qed.

End EquivalenceFacts.

Lemma example_engine_layout : @engine_layout example_engine.
Proof.
  constructor; try reflexivity; intros code;
    cbn [zend_type_code_mask example_engine _ZEND_TYPE_NAME_BIT];
    rewrite <- Z.land_assoc; apply Z.land_0_r.
Qed.


Lemma C3_equivalence_witness :
  zend_types_are_equivalent (E := example_engine)
    (array_shape_type [ex_elem_id; ex_elem_name_opt])
    (array_shape_type [ex_elem_id; ex_elem_name_opt]) = true
  /\ zend_types_are_equivalent (E := example_engine)
       (array_shape_type [ex_elem_id; ex_elem_name_opt])
       (array_shape_type [ex_elem_name_opt; ex_elem_id]) = false
  /\ zend_types_are_equivalent (E := example_engine)
       (array_shape_type [ex_elem_id; ex_elem_name_opt])
       (array_shape_type [ex_elem_id; ex_elem_name_opt; ex_elem_email_opt])
     = false.
Proof.
  destruct (C3_equivalence (E := example_engine))
    as [_ [_ [_ [_ [Hsame [Hreorder Hextra]]]]]].
  split; [|split].
  - apply (Hsame example_engine_layout
             [element_ast "id" false int_ast; element_ast "name" true string_ast]
             true false); vm_compute; reflexivity.
  - eapply Hreorder.
    + vm_compute; reflexivity.
    + vm_compute; reflexivity.
    + reflexivity.
    + reflexivity.
    + cbn [elements]. apply perm_swap.
    + cbn [elements]. discriminate.
    + cbn [elements map]. repeat constructor; cbn; intuition discriminate.
  - eapply (Hextra _ _ _ _ [ex_elem_id; ex_elem_name_opt] ex_elem_email_opt []).
    + vm_compute; reflexivity.
    + vm_compute; reflexivity.
    + reflexivity.
    + reflexivity.
    + reflexivity.
    + reflexivity.
Defined.

(** ** Type to string *)
Section StringifyFacts.
Context {E : zend_engine}.

Lemma string_append_assoc (a b c : string) :
  ((a ++ b) ++ c = a ++ (b ++ c))%string.
Proof.
  induction a as [|x a IH]; [reflexivity|].
  cbn [String.append]. rewrite IH. reflexivity.
Qed.

Lemma string_append_nil_r (a : string) : (a ++ "" = a)%string.
Proof.
  induction a as [|x a IH]; [reflexivity|].
  cbn [String.append]. rewrite IH. reflexivity.
Qed.

Lemma has_extended_array_split t :
  ZEND_TYPE_HAS_EXTENDED_ARRAY t
  = ZEND_TYPE_IS_ARRAY_OF t || ZEND_TYPE_IS_ARRAY_SHAPE t.
Proof.
  unfold ZEND_TYPE_HAS_EXTENDED_ARRAY, ZEND_TYPE_IS_ARRAY_OF,
    ZEND_TYPE_IS_ARRAY_SHAPE, ZEND_TYPE_EXTENDED_ARRAY_MASK.
  rewrite Z.land_lor_distr_r.
  destruct (Z.eqb_spec (Z.land (type_mask t) ZEND_TYPE_ARRAY_OF_BIT) 0) as [H1|H1];
    destruct (Z.eqb_spec (Z.land (type_mask t) ZEND_TYPE_ARRAY_SHAPE_BIT) 0)
      as [H2|H2];
    cbn [negb orb].
  - rewrite H1, H2. reflexivity.
  - apply negb_true_iff, Z.eqb_neq. rewrite Z.lor_eq_0_iff. tauto.
  - apply negb_true_iff, Z.eqb_neq. rewrite Z.lor_eq_0_iff. tauto.
  - apply negb_true_iff, Z.eqb_neq. rewrite Z.lor_eq_0_iff. tauto.
Qed.







Lemma zend_type_to_string_extended_unfold ty :
  zend_type_to_string_extended ty =
  if ZEND_TYPE_IS_ARRAY_OF ty then
    match ptr ty with
    | PTR_ARRAY_OF array_of =>
        ("array<" ++ zend_type_to_string_extended (element_type array_of)
         ++ ">")%string
    | _ => ""
    end
  else if ZEND_TYPE_IS_ARRAY_SHAPE ty then
    match ptr ty with
    | PTR_ARRAY_SHAPE shape =>
        (shape_elements_to_string 0 (elements shape) "array{" ++ "}")%string
    | _ => ""
    end
  else if ZEND_TYPE_HAS_LIST ty then
    match ptr ty with
    | PTR_LIST type_list =>
        type_list_to_string
          (if mask_has (type_mask ty) _ZEND_TYPE_INTERSECTION_BIT
           then "&" else "|") 0 type_list ""
    | _ => ""
    end
  else if ZEND_TYPE_HAS_NAME ty then
    match ptr ty with
    | PTR_NAME name => name
    | _ => ""
    end
  else builtin_type_to_string ty "".
Proof.
  destruct ty as [p m]. cbn [zend_type_to_string_extended ptr].
  destruct (ZEND_TYPE_IS_ARRAY_OF (Build_zend_type p m)).
  { destruct p; reflexivity. }
  destruct (ZEND_TYPE_IS_ARRAY_SHAPE (Build_zend_type p m)).
  { destruct p; reflexivity. }
  destruct (ZEND_TYPE_HAS_LIST (Build_zend_type p m)).
  { destruct p; reflexivity. }
  destruct (ZEND_TYPE_HAS_NAME (Build_zend_type p m)); [|reflexivity].
  destruct p; reflexivity.
Qed.

Lemma shape_elements_to_string_concat elems i buf :
  0 <= i ->
  shape_elements_to_string i elems buf =
  (buf ++ match elems with
          | [] => ""
          | _ => (if (0 <? i)%Z then ", " else "")
                 ++ String.concat ", " (map render_element elems)
          end)%string.
Proof.
  revert i buf. induction elems as [|e elems IH]; intros i buf Hi.
  - cbn. rewrite string_append_nil_r. reflexivity.
  - cbn [shape_elements_to_string]. cbn zeta. rewrite IH by lia.
    replace (0 <? i + 1) with true by (symmetry; apply Z.ltb_lt; lia).
    assert (Hhead :
      ((match is_string_key e, key e with
        | true, Some k => ((if (0 <? i)%Z then buf ++ ", " else buf) ++ k)
        | _, _ => smart_str_append_long (if (0 <? i)%Z then buf ++ ", " else buf)
                    (zend_long (key_num e))
        end) = buf ++ (if (0 <? i)%Z then ", " else "") ++ element_key_string e)%string).
    { unfold element_key_string, smart_str_append_long.
      destruct (0 <? i), (is_string_key e), (key e);
        rewrite ?string_append_assoc; reflexivity. }
    rewrite Hhead.
    destruct elems as [|e' elems]; cbn [map String.concat].
    + unfold render_element; destruct (is_optional e);
        rewrite ?string_append_assoc, ?string_append_nil_r;
        cbn [String.append]; reflexivity.
    + set (tail := String.concat ", "
                     (render_element e' :: map render_element elems)).
      unfold render_element; destruct (is_optional e);
        rewrite ?string_append_assoc, ?string_append_nil_r;
        cbn [String.append]; reflexivity.
Qed.


Lemma erase_refcounts_mask t : type_mask (erase_refcounts t) = type_mask t.
Proof. destruct t as [p m]. reflexivity. Qed.





End StringifyFacts.





(** ** Descriptor lifecycle *)

(** Claim C5, which the code does not meet.  After a second owner has
    taken a reference to the descriptor of [array<array<int>>],
    [zend_type_release_extended] on the first owner leaves that descriptor
    allocated with reference count 1, but with its element type reset and
    the inner descriptor freed.  The same happens to the element types of a
    shared shape, whose keys, released under the reference-count test, are
    kept.  With a single owner every descriptor and key is released
    once. *)
Theorem C5_release_reaches_nested_descriptor_of_shared_owner :
  (* a second signature takes a reference to the outer descriptor, then the
     first one is destroyed *)
  let shared := Lifecycle.zend_array_of_addref 1%nat ex_store in
  let after := Lifecycle.zend_type_release_extended 3 ex_owner_of_1 shared in
  option_map (fun m => Lifecycle.cells m 1%nat) after
  = Some (Some (Lifecycle.array_of_at Lifecycle.ZEND_TYPE_INIT_NONE 1 2))
  /\ option_map (fun m => Lifecycle.cells m 2%nat) after = Some None
  /\ option_map Lifecycle.released after = Some [Lifecycle.pefree 2%nat]
  /\
  (* the same with a shape: its key is kept, its element type is released *)
  let shared := Lifecycle.zend_array_shape_addref 3%nat ex_store in
  let after := Lifecycle.zend_type_release_extended 3 ex_owner_of_3 shared in
  option_map (fun m => Lifecycle.cells m 3%nat) after
  = Some (Some (Lifecycle.shape_at 1 0
                  [Lifecycle.Build_zend_shape_element (Some "tags") 0 true
                     false Lifecycle.ZEND_TYPE_INIT_NONE]))
  /\ option_map (fun m => Lifecycle.cells m 4%nat) after = Some None
  /\ option_map Lifecycle.released after = Some [Lifecycle.pefree 4%nat]
  /\
  (* a single owner: everything is released, once *)
  option_map Lifecycle.released
    (Lifecycle.zend_type_release_extended 3 ex_owner_of_3 ex_store)
  = Some [Lifecycle.pefree 4%nat; Lifecycle.zend_string_release "tags";
          Lifecycle.pefree 3%nat].
Proof.
  cbv zeta. repeat split; vm_compute; reflexivity.
Qed.

(** ** Argument and return verification *)
Section VerificationFacts.
Context {E : zend_engine}.

Lemma well_tagged_array_of ty :
  well_tagged ty = true -> ZEND_TYPE_IS_ARRAY_OF ty = true ->
  exists ao, ptr ty = PTR_ARRAY_OF ao.
Proof.
  destruct ty as [p m]. intros Hwt Hof.
  destruct p; cbn [well_tagged ptr] in Hwt; cbn [ptr]; eauto;
    rewrite ?has_extended_array_split, Hof in Hwt; discriminate.
Qed.

Lemma well_tagged_array_shape ty :
  well_tagged ty = true ->
  ZEND_TYPE_IS_ARRAY_OF ty = false -> ZEND_TYPE_IS_ARRAY_SHAPE ty = true ->
  exists shape, ptr ty = PTR_ARRAY_SHAPE shape.
Proof.
  destruct ty as [p m]. intros Hwt Hof Hsh.
  destruct p; cbn [well_tagged ptr] in Hwt; cbn [ptr]; eauto;
    rewrite ?has_extended_array_split, ?Hof, ?Hsh in Hwt; discriminate.
Qed.





Lemma zval_not_array val :
  Z_TYPE_P val <> IS_ARRAY -> negb (zval_type_eqb (Z_TYPE_P val) IS_ARRAY) = true.
Proof. destruct val; cbn; congruence. Qed.








End VerificationFacts.




(** A required key missing from a nested shape is reported as a wrong type
    of that key, with the kind of the enclosing value. *)
Example nested_missing_key_reported_as_wrong_type :
  zend_verify_arg_type_extended
    (Build_zend_function None "h" 1 false
       [Build_zend_arg_info "p"
          (array_shape_type
             [Build_zend_shape_element (Some "user") 0 true false
                (array_shape_type
                   [Build_zend_shape_element (Some "name") 0 true false
                      ex_string])])]
       (Build_zend_arg_info "" ZEND_TYPE_INIT_NONE))
    1 (zv_array [(key_str "user", zv_array [])])
  = (false,
     [zend_type_error
        "%s%s%s(): Argument #%d ($%s) key '%s' must be of type %s, %s given"
        [arg_s ""; arg_s ""; arg_s "h"; arg_d 1; arg_s "p"; arg_s "name";
         arg_s "string"; arg_s "array"]]).
Proof. vm_compute. reflexivity. Qed.

(** * Further properties of the code *)

(** ** The validators: lists, out-parameters, order, weakening *)
Section ValidatorProperties.
Context {E : zend_engine}.

(** Property X1.  For a type that carries a type list,
    [zend_check_type_extended] dereferences the value once and then
    accepts it exactly when every member accepts it (intersection bit set)
    or when some member accepts it (otherwise); so an empty intersection
    accepts every value and an empty union none. *)
Theorem check_type_list_members (ty : zend_type) (type_list : list zend_type)
  (val : zval) :
  ZEND_TYPE_IS_ARRAY_OF ty = false ->
  ZEND_TYPE_IS_ARRAY_SHAPE ty = false ->
  ZEND_TYPE_HAS_LIST ty = true ->
  ptr ty = PTR_LIST type_list ->
  zend_check_type_extended ty val =
  let val := if Z_ISREF_P val then Z_REFVAL_P val else val in
  if mask_has (type_mask ty) _ZEND_TYPE_INTERSECTION_BIT
  then forallb (fun t => zend_check_type_extended t val) type_list
  else existsb (fun t => zend_check_type_extended t val) type_list.
Proof.
  destruct ty as [p m]. cbn [ptr]. intros Hof Hsh Hl ->.
  cbn [zend_check_type_extended]. rewrite Hof, Hsh, Hl. cbn [ptr type_mask].
  cbn zeta.
  generalize (if Z_ISREF_P val then Z_REFVAL_P val else val). intros v.
  clear Hof Hsh Hl.
  destruct (mask_has m _ZEND_TYPE_INTERSECTION_BIT).
  - induction type_list as [|t l IH]; [reflexivity|].
    cbn [forallb]. destruct (zend_check_type_extended t v); cbn [negb andb];
      [exact IH|reflexivity].
  - induction type_list as [|t l IH]; [reflexivity|].
    cbn [existsb]. destruct (zend_check_type_extended t v); cbn [orb];
      [reflexivity|exact IH].
Qed.

Lemma validators_report_all (t : zend_type) :
  well_tagged t = true ->
  (forall ao, ptr t = PTR_ARRAY_OF ao -> array_of_reports (element_type ao))
  /\ (forall shape, ptr t = PTR_ARRAY_SHAPE shape ->
        shape_reports (elements shape)).
Proof.
  induction t as [m|n m|l m _|et rc d m IH|rc h els m IH] using zend_type_ind;
    intros Hwt; (split; [intros ao Hp|intros shape Hp]); try discriminate.
  - (* array-of *)
    cbn [ptr] in Hp. inversion Hp; subst ao. cbn [element_type]. clear Hp.
    cbn [well_tagged ptr element_type] in Hwt.
    apply andb_true_iff in Hwt as [_ Hwt].
    specialize (IH Hwt). destruct IH as [IHao _].
    intros ht. induction ht as [|[k v] ht IHht]; [left; split; reflexivity|].
    cbn [array_of_foreach]. unfold array_of_visit.
    destruct (ZEND_TYPE_IS_ARRAY_OF et) eqn:Hof.
    { destruct (negb (zval_type_eqb (Z_TYPE_P v) IS_ARRAY));
        [right; split; [reflexivity|eexists; reflexivity]|].
      destruct (well_tagged_array_of _ Hwt Hof) as [inner Hpi]. rewrite Hpi.
      rewrite zend_validate_array_of_unfold.
      destruct (IHao inner Hpi (Z_ARRVAL_P v)) as [[H1 H2]|[H1 [b H2]]];
        destruct (array_of_foreach (element_type inner) (Z_ARRVAL_P v))
          as [ok bad]; cbn [fst snd] in H1, H2; subst ok bad; cbn [negb].
      - exact IHht.
      - right. split; [reflexivity|eexists; reflexivity]. }
    destruct (ZEND_TYPE_IS_ARRAY_SHAPE et) eqn:Hsh.
    { destruct (negb (zval_type_eqb (Z_TYPE_P v) IS_ARRAY));
        [right; split; [reflexivity|eexists; reflexivity]|].
      destruct (well_tagged_array_shape _ Hwt Hof Hsh) as [inner Hpi].
      rewrite Hpi.
      destruct (zend_validate_array_shape inner (Z_ARRVAL_P v)) as [[] out];
        cbn [negb].
      - exact IHht.
      - right. split; [reflexivity|eexists; reflexivity]. }
    destruct (zend_check_type_extended et v); cbn [negb].
    + exact IHht.
    + right. split; [reflexivity|eexists; reflexivity].
  - (* shape *)
    cbn [ptr] in Hp. inversion Hp; subst shape. cbn [elements]. clear Hp.
    rewrite (well_tagged_shape_elements
               (Build_zend_type
                  (PTR_ARRAY_SHAPE (Build_zend_array_shape rc h els)) m)
               _ eq_refl) in Hwt.
    apply andb_true_iff in Hwt as [_ Hwt]. cbn [elements] in Hwt.
    intros ht. induction IH as [|e els He _ IHels];
      [left; split; reflexivity|].
    cbn [forallb] in Hwt. apply andb_true_iff in Hwt as [Hwe Hwt].
    unfold well_tagged_element in Hwe. apply andb_true_iff in Hwe as [_ Hwe].
    specialize (IHels Hwt). specialize (He Hwe). destruct He as [Heao _].
    assert (Hnext :
      (fst (shape_loop ht els) = true /\ snd (shape_loop ht els) = shape_out_init)
      \/ (fst (shape_loop ht els) = false
          /\ exists e0,
               failed_element (snd (shape_loop ht els)) = Some e0
               /\ (bad_value (snd (shape_loop ht els)) = None ->
                   In e0 (e :: els) /\ is_optional e0 = false
                   /\ shape_lookup ht e0 = None))).
    { destruct IHels as [H|[H1 [e0 [H2 H3]]]]; [left; exact H|].
      right. split; [exact H1|]. exists e0. split; [exact H2|].
      intros Hb. destruct (H3 Hb) as [Hin H4]. split; [right; exact Hin|exact H4]. }
    clear IHels.
    cbn [shape_loop]. unfold shape_visit.
    destruct (shape_lookup ht e) as [val|] eqn:Hl.
    2:{ destruct (is_optional e) eqn:Ho; [exact Hnext|].
        right. split; [reflexivity|]. exists e. cbn [snd failed_element].
        split; [reflexivity|]. intros _.
        split; [left; reflexivity|]. split; [exact Ho|exact Hl]. }
    destruct (ZEND_TYPE_IS_ARRAY_OF (type e)) eqn:Hof.
    { destruct (negb (zval_type_eqb (Z_TYPE_P val) IS_ARRAY)).
      { right. split; [reflexivity|]. exists e. cbn [snd failed_element bad_value].
        split; [reflexivity|discriminate]. }
      destruct (well_tagged_array_of _ Hwe Hof) as [inner Hpi]. rewrite Hpi.
      destruct (zend_validate_array_of inner (Z_ARRVAL_P val)) as [[] bad];
        cbn [negb]; [exact Hnext|].
      right. split; [reflexivity|]. exists e. cbn [snd failed_element bad_value].
      split; [reflexivity|discriminate]. }
    destruct (ZEND_TYPE_IS_ARRAY_SHAPE (type e)) eqn:Hsh.
    { destruct (negb (zval_type_eqb (Z_TYPE_P val) IS_ARRAY)).
      { right. split; [reflexivity|]. exists e. cbn [snd failed_element bad_value].
        split; [reflexivity|discriminate]. }
      destruct (well_tagged_array_shape _ Hwe Hof Hsh) as [inner Hpi].
      rewrite Hpi.
      destruct (zend_validate_array_shape inner (Z_ARRVAL_P val)) as [[] out];
        cbn [negb]; [exact Hnext|].
      right. split; [reflexivity|]. cbn [snd failed_element bad_value].
      eexists. split; [reflexivity|discriminate]. }
    destruct (zend_check_type_extended (type e) val); cbn [negb];
      [exact Hnext|].
    right. split; [reflexivity|]. exists e. cbn [snd failed_element bad_value].
    split; [reflexivity|discriminate].
Qed.

(** Property X2.  For descriptors of a type whose tag bits agree with its
    pointers, the out-parameters of the validators follow the result:
    [zend_validate_array_of] leaves [*bad_element] unset when it returns
    true and set when it returns false; [zend_validate_array_shape] leaves
    all its out-parameters at their initial values when it returns true,
    and when it returns false [*failed_element] is set, with [*bad_value]
    unset only for a required element of the shape itself that the array
    lacks. *)
Theorem validator_outputs_follow_result (t : zend_type) :
  well_tagged t = true ->
  (forall array_of ht,
      ptr t = PTR_ARRAY_OF array_of ->
      (fst (zend_validate_array_of array_of ht) = true
       /\ snd (zend_validate_array_of array_of ht) = None)
      \/ (fst (zend_validate_array_of array_of ht) = false
          /\ exists bad_element,
               snd (zend_validate_array_of array_of ht) = Some bad_element))
  /\ (forall shape ht,
        ptr t = PTR_ARRAY_SHAPE shape ->
        (fst (zend_validate_array_shape shape ht) = true
         /\ snd (zend_validate_array_shape shape ht) = shape_out_init)
        \/ (fst (zend_validate_array_shape shape ht) = false
            /\ exists elem,
                 failed_element (snd (zend_validate_array_shape shape ht))
                 = Some elem
                 /\ (bad_value (snd (zend_validate_array_shape shape ht)) = None ->
                     In elem (elements shape) /\ is_optional elem = false
                     /\ shape_lookup ht elem = None))).
Proof.
  intros Hwt. destruct (validators_report_all t Hwt) as [Hao Hsh].
  split.
  - intros ao ht Hp. rewrite zend_validate_array_of_unfold. exact (Hao ao Hp ht).
  - intros shape ht Hp. rewrite zend_validate_array_shape_unfold.
    exact (Hsh shape Hp ht).
Qed.

Lemma array_of_foreach_app et ht1 ht2 :
  array_of_foreach et (ht1 ++ ht2) =
  if fst (array_of_foreach et ht1) then array_of_foreach et ht2
  else array_of_foreach et ht1.
Proof.
  induction ht1 as [|[k v] ht1 IH]; [reflexivity|].
  cbn [app array_of_foreach].
  destruct (array_of_visit et v) as [r|] eqn:Hv; [|exact IH].
  rewrite (array_of_visit_fails _ _ _ Hv). reflexivity.
Qed.

Lemma array_of_foreach_values et ht1 ht2 :
  map snd ht1 = map snd ht2 ->
  array_of_foreach et ht1 = array_of_foreach et ht2.
Proof.
  revert ht2. induction ht1 as [|[k1 v1] ht1 IH]; intros [|[k2 v2] ht2] H;
    try discriminate; [reflexivity|].
  cbn [map snd] in H. injection H as Hv Hrest. subst v2.
  cbn [array_of_foreach]. rewrite (IH ht2 Hrest). reflexivity.
Qed.

(** Property X3.  [zend_validate_array_of] never looks at the keys of the
    array: two arrays with the same values in the same order validate
    alike; and the values are visited in order, so an array that is the
    concatenation of two validates as the second part when the first part
    passes and as the first part otherwise. *)
Theorem array_of_validation_reads_values_in_order (array_of : zend_array_of)
  (ht1 ht2 : HashTable) :
  (map snd ht1 = map snd ht2 ->
   zend_validate_array_of array_of ht1 = zend_validate_array_of array_of ht2)
  /\ zend_validate_array_of array_of (ht1 ++ ht2) =
     (if fst (zend_validate_array_of array_of ht1)
      then zend_validate_array_of array_of ht2
      else zend_validate_array_of array_of ht1).
Proof.
  rewrite !zend_validate_array_of_unfold. split.
  - apply array_of_foreach_values.
  - apply array_of_foreach_app.
Qed.

Lemma zend_hash_find_In ht s v :
  NoDup (map fst ht) ->
  (zend_hash_find ht s = Some v <-> In (key_str s, v) ht).
Proof.
  induction ht as [|[k x] ht IH]; intros Hnd.
  - split; [discriminate|intros []].
  - cbn [map fst] in Hnd. inversion Hnd as [|? ? Hnotin Hnd']; subst.
    specialize (IH Hnd'). cbn [zend_hash_find In].
    destruct k as [s'|i].
    + destruct (String.eqb s' s) eqn:Heq.
      * apply String.eqb_eq in Heq. subst s'. split.
        -- intros H. left. congruence.
        -- intros [H|H]; [congruence|].
           exfalso. apply Hnotin.
           change (key_str s) with (fst (key_str s, v)). apply in_map. exact H.
      * apply String.eqb_neq in Heq. rewrite IH. split; [auto|].
        intros [H|H]; [congruence|exact H].
    + rewrite IH. split; [auto|]. intros [H|H]; [discriminate|exact H].
Qed.

Lemma zend_hash_index_find_In ht h v :
  NoDup (map fst ht) ->
  (zend_hash_index_find ht h = Some v <-> In (key_idx h, v) ht).
Proof.
  induction ht as [|[k x] ht IH]; intros Hnd.
  - split; [discriminate|intros []].
  - cbn [map fst] in Hnd. inversion Hnd as [|? ? Hnotin Hnd']; subst.
    specialize (IH Hnd'). cbn [zend_hash_index_find In].
    destruct k as [s'|i].
    + rewrite IH. split; [auto|]. intros [H|H]; [discriminate|exact H].
    + destruct (Z.eqb i h) eqn:Heq.
      * apply Z.eqb_eq in Heq. subst i. split.
        -- intros H. left. congruence.
        -- intros [H|H]; [congruence|].
           exfalso. apply Hnotin.
           change (key_idx h) with (fst (key_idx h, v)). apply in_map. exact H.
      * apply Z.eqb_neq in Heq. rewrite IH. split; [auto|].
        intros [H|H]; [congruence|exact H].
Qed.

Lemma option_eq_by_iff {A} (o1 o2 : option A) :
  (forall v, o1 = Some v <-> o2 = Some v) -> o1 = o2.
Proof.
  intros H. destruct o1 as [a|], o2 as [b|]; try reflexivity.
  - symmetry. apply H. reflexivity.
  - symmetry. apply H. reflexivity.
  - apply H. reflexivity.
Qed.

Lemma shape_lookup_permutation ht ht' elem :
  Permutation ht ht' -> NoDup (map fst ht) ->
  shape_lookup ht' elem = shape_lookup ht elem.
Proof.
  intros Hperm Hnd.
  assert (Hnd' : NoDup (map fst ht'))
    by (apply (Permutation_NoDup (Permutation_map fst Hperm)); exact Hnd).
  unfold shape_lookup. destruct (is_string_key elem).
  - destruct (key elem) as [s|]; [|reflexivity].
    apply option_eq_by_iff. intros v.
    rewrite (zend_hash_find_In ht' s v Hnd'), (zend_hash_find_In ht s v Hnd).
    split; apply Permutation_in;
      [apply Permutation_sym; exact Hperm|exact Hperm].
  - apply option_eq_by_iff. intros v.
    rewrite (zend_hash_index_find_In ht' _ v Hnd'),
      (zend_hash_index_find_In ht _ v Hnd).
    split; apply Permutation_in;
      [apply Permutation_sym; exact Hperm|exact Hperm].
Qed.

(** Property X4.  [zend_validate_array_shape] does not depend on the order
    of the buckets of the array: for an array with distinct keys, any
    reordering of its buckets gives the same result and the same
    out-parameters. *)
Theorem shape_validation_ignores_bucket_order (shape : zend_array_shape)
  (ht ht' : HashTable) :
  Permutation ht ht' -> NoDup (map fst ht) ->
  zend_validate_array_shape shape ht' = zend_validate_array_shape shape ht.
Proof.
  intros Hperm Hnd. rewrite !zend_validate_array_shape_unfold.
  apply shape_loop_lookup_ext. intros e _.
  apply shape_lookup_permutation; assumption.
Qed.

Lemma shape_lookup_empty elem : shape_lookup [] elem = None.
Proof.
  unfold shape_lookup. destruct (is_string_key elem); [|reflexivity].
  destruct (key elem); reflexivity.
Qed.

Lemma forallb_pointwise {A} (f g : A -> bool) l :
  (forall a, f a = g a) -> forallb f l = forallb g l.
Proof.
  intros H. induction l as [|a l IH]; [reflexivity|].
  cbn [forallb]. rewrite H, IH. reflexivity.
Qed.

(** Property X5.  On the empty array [zend_validate_array_shape] passes
    exactly when every declared element is optional; otherwise it reports
    the first required element as [*failed_element], as a missing key with
    no bad value. *)
Theorem shape_validation_of_empty_array (shape : zend_array_shape) :
  fst (zend_validate_array_shape shape []) = forallb is_optional (elements shape)
  /\ forall pre elem post,
       elements shape = pre ++ elem :: post ->
       forallb is_optional pre = true ->
       is_optional elem = false ->
       failed_element (snd (zend_validate_array_shape shape [])) = Some elem
       /\ bad_value (snd (zend_validate_array_shape shape [])) = None.
Proof.
  rewrite zend_validate_array_shape_unfold. split.
  - rewrite shape_loop_pass. apply forallb_pointwise. intros e.
    unfold shape_element_ok. rewrite shape_lookup_empty. reflexivity.
  - intros pre elem post Hels Hpre Hopt. rewrite Hels.
    rewrite shape_loop_first_failure.
    + cbn [shape_loop]. unfold shape_visit.
      rewrite shape_lookup_empty, Hopt. split; reflexivity.
    + rewrite <- Hpre. apply forallb_pointwise. intros e.
      unfold shape_element_ok. rewrite shape_lookup_empty. reflexivity.
    + unfold shape_element_ok. rewrite shape_lookup_empty. exact Hopt.
Qed.

(** Property X6.  An array that passes a shape also passes every shape
    declared from elements of the first one (same key, same type), in any
    order and any number, each of them possibly made optional. *)
Theorem shape_validation_weakens_with_declaration
  (shape shape' : zend_array_shape) (ht : HashTable) :
  (forall elem, In elem (elements shape') ->
     exists elem0,
       In elem0 (elements shape)
       /\ declared_key elem = declared_key elem0
       /\ type elem = type elem0
       /\ (is_optional elem0 = true -> is_optional elem = true)) ->
  fst (zend_validate_array_shape shape ht) = true ->
  zend_validate_array_shape shape' ht = (true, shape_out_init).
Proof.
  intros Hincl Hpass.
  rewrite zend_validate_array_shape_unfold in Hpass.
  rewrite shape_loop_pass, forallb_forall in Hpass.
  rewrite zend_validate_array_shape_unfold.
  assert (Hall : forall e, In e (elements shape') -> shape_visit ht e = None).
  { intros e He. apply shape_visit_ok.
    destruct (Hincl e He) as [e0 [Hin [Hk [Ht Ho]]]].
    specialize (Hpass e0 Hin). unfold shape_element_ok in *.
    rewrite (shape_lookup_declared_key ht e e0 Hk), Ht.
    destruct (shape_lookup ht e0); [exact Hpass|].
    apply Ho. exact Hpass. }
  clear Hincl.
  induction (elements shape') as [|e els IH]; [reflexivity|].
  cbn [shape_loop]. rewrite (Hall e (or_introl eq_refl)).
  apply IH. intros e' He'. apply Hall. right. exact He'.
Qed.

End ValidatorProperties.

(** ** Equivalent types accept the same values *)
Section EquivalenceSoundness.
Context {E : zend_engine}.

Lemma array_structured_shape rc h els m :
  array_structured
    (Build_zend_type (PTR_ARRAY_SHAPE (Build_zend_array_shape rc h els)) m)
  = negb (ZEND_TYPE_IS_ARRAY_OF
            (Build_zend_type (PTR_ARRAY_SHAPE (Build_zend_array_shape rc h els)) m))
    && ZEND_TYPE_IS_ARRAY_SHAPE
         (Build_zend_type (PTR_ARRAY_SHAPE (Build_zend_array_shape rc h els)) m)
    && forallb (fun e => array_structured (type e)) els.
Proof. reflexivity. Qed.

Lemma element_matches_check et val :
  Z_ISREF_P val = false ->
  element_matches et val = zend_check_type_extended et val.
Proof.
  intros Hr. unfold element_matches. destruct et as [p m].
  cbn [zend_check_type_extended]. rewrite Hr.
  destruct (ZEND_TYPE_IS_ARRAY_OF (Build_zend_type p m)).
  { cbn [ptr]. destruct p; try apply andb_false_r.
    destruct (zval_type_eqb (Z_TYPE_P val) IS_ARRAY); reflexivity. }
  destruct (ZEND_TYPE_IS_ARRAY_SHAPE (Build_zend_type p m)); [|reflexivity].
  cbn [ptr]. destruct p; try apply andb_false_r.
  destruct (zval_type_eqb (Z_TYPE_P val) IS_ARRAY); reflexivity.
Qed.

Lemma element_matches_reference et val :
  ZEND_TYPE_HAS_EXTENDED_ARRAY et = true ->
  element_matches et (zv_reference val) = false.
Proof.
  intros Hext. unfold element_matches.
  rewrite has_extended_array_split in Hext.
  destruct (ZEND_TYPE_IS_ARRAY_OF et); [reflexivity|].
  cbn [orb] in Hext. rewrite Hext. reflexivity.
Qed.

Lemma check_plain a b val :
  ZEND_TYPE_HAS_EXTENDED_ARRAY a = false ->
  ZEND_TYPE_HAS_EXTENDED_ARRAY b = false ->
  ZEND_TYPE_HAS_LIST a = false -> ZEND_TYPE_HAS_LIST b = false ->
  ZEND_TYPE_HAS_NAME a = false -> ZEND_TYPE_HAS_NAME b = false ->
  ZEND_TYPE_PURE_MASK a = ZEND_TYPE_PURE_MASK b ->
  zend_check_type_extended a val = zend_check_type_extended b val.
Proof.
  intros Hxa Hxb Hla Hlb Hna Hnb Hm.
  destruct (no_extended_array _ Hxa) as [Hofa Hsha].
  destruct (no_extended_array _ Hxb) as [Hofb Hshb].
  destruct a as [pa ma], b as [pb mb].
  cbn [zend_check_type_extended].
  rewrite Hofa, Hsha, Hla, Hna, Hofb, Hshb, Hlb, Hnb, Hm. reflexivity.
Qed.

Lemma forallb_Forall2_ext {A} (f g : A -> bool) la lb :
  Forall2 (fun x y => f x = g y) la lb -> forallb f la = forallb g lb.
Proof.
  induction 1 as [|x y la lb Hxy _ IH]; [reflexivity|].
  cbn [forallb]. rewrite Hxy, IH. reflexivity.
Qed.

Lemma equivalent_types_accept_same_values_all (a : zend_type) :
  forall b,
    zend_types_are_equivalent a b = true ->
    array_structured a = true -> array_structured b = true ->
    forall val,
      element_matches a val = element_matches b val
      /\ zend_check_type_extended a val = zend_check_type_extended b val.
Proof.
  assert (Hreduce : forall a b,
    tag_bits a = tag_bits b ->
    (ZEND_TYPE_HAS_EXTENDED_ARRAY a = false ->
     forall val, zend_check_type_extended a val = zend_check_type_extended b val) ->
    (forall val, Z_ISREF_P val = false ->
       zend_check_type_extended a val = zend_check_type_extended b val) ->
    forall val,
      element_matches a val = element_matches b val
      /\ zend_check_type_extended a val = zend_check_type_extended b val).
  { clear a. intros a b Htag Hplain Hnonref val.
    assert (Hxab : ZEND_TYPE_HAS_EXTENDED_ARRAY a = ZEND_TYPE_HAS_EXTENDED_ARRAY b)
      by (unfold ZEND_TYPE_HAS_EXTENDED_ARRAY; unfold tag_bits in Htag;
          rewrite Htag; reflexivity).
    assert (Hm : forall v, element_matches a v = element_matches b v).
    { intros v. destruct (Z_ISREF_P v) eqn:Hr.
      - destruct (ZEND_TYPE_HAS_EXTENDED_ARRAY a) eqn:Hxa.
        + destruct v; try discriminate.
          rewrite !element_matches_reference; congruence.
        + unfold element_matches.
          destruct (no_extended_array _ Hxa) as [-> ->].
          symmetry in Hxab.
          destruct (no_extended_array _ Hxab) as [-> ->].
          apply Hplain. reflexivity.
      - rewrite !element_matches_check by exact Hr. apply Hnonref. exact Hr. }
    split; [apply Hm|].
    destruct (Z_ISREF_P val) eqn:Hr; [|apply Hnonref; exact Hr].
    destruct val; try discriminate.
    destruct (Z_ISREF_P val) eqn:Hr2.
    - destruct (ZEND_TYPE_HAS_EXTENDED_ARRAY a) eqn:Hxa;
        [|apply Hplain; reflexivity].
      (* a reference to a reference is no array *)
      destruct val; try discriminate.
      rewrite has_extended_array_split in Hxa, Hxab.
      destruct a as [pa ma], b as [pb mb]. cbn [zend_check_type_extended].
      change (Z_ISREF_P (zv_reference (zv_reference val))) with true.
      cbn [Z_REFVAL_P Z_TYPE_P zval_type_eqb negb].
      destruct (ZEND_TYPE_IS_ARRAY_OF (Build_zend_type pa ma)) eqn:Hofa;
        destruct (ZEND_TYPE_IS_ARRAY_OF (Build_zend_type pb mb)) eqn:Hofb;
        destruct (ZEND_TYPE_IS_ARRAY_SHAPE (Build_zend_type pa ma)) eqn:Hsha;
        destruct (ZEND_TYPE_IS_ARRAY_SHAPE (Build_zend_type pb mb)) eqn:Hshb;
        cbn [orb] in Hxa, Hxab; try discriminate;
        cbn [ptr]; destruct pa, pb; reflexivity.
    - rewrite !zend_check_type_extended_deref by exact Hr2.
      apply Hnonref. exact Hr2. }
  induction a as [m|n m|l m _|et rc d m IH|rc h els m IH] using zend_type_ind;
    intros b Heq Hsa Hsb; try discriminate.
  - (* built-in *)
    cbn [array_structured ptr] in Hsa.
    apply andb_true_iff in Hsa as [Hsa Hna].
    apply andb_true_iff in Hsa as [Hxa Hla].
    apply negb_true_iff in Hxa, Hla, Hna.
    destruct (no_extended_array _ Hxa) as [Hofa Hsha].
    apply (equivalent_plain _ _ Hofa Hsha) in Heq
      as [Htag [Hm [[Hn _]|[_ Hnb]]]]; [congruence|].
    assert (Hxb : ZEND_TYPE_HAS_EXTENDED_ARRAY b = false)
      by (unfold ZEND_TYPE_HAS_EXTENDED_ARRAY in *; unfold tag_bits in Htag;
          rewrite <- Htag; exact Hxa).
    assert (Hlb : ZEND_TYPE_HAS_LIST b = false).
    { destruct b as [pb mb]. destruct (no_extended_array _ Hxb) as [Hofb Hshb].
      destruct pb; cbn [array_structured ptr] in Hsb; try discriminate.
      - apply andb_true_iff in Hsb as [Hsb _].
        apply andb_true_iff in Hsb as [_ Hsb]. apply negb_true_iff in Hsb.
        exact Hsb.
      - rewrite Hofb in Hsb. discriminate.
      - rewrite Hofb, Hshb in Hsb. discriminate. }
    intros val.
    assert (Hc : forall v,
      zend_check_type_extended (Build_zend_type PTR_NULL m) v
      = zend_check_type_extended b v)
      by (intros v; apply check_plain; assumption).
    split; [|apply Hc].
    unfold element_matches. rewrite Hofa, Hsha.
    destruct (no_extended_array _ Hxb) as [-> ->]. apply Hc.
  - (* array-of *)
    cbn [array_structured ptr element_type] in Hsa.
    apply andb_true_iff in Hsa as [Hofa Hsa].
    destruct (ZEND_TYPE_IS_ARRAY_OF b) eqn:Hofb.
    2:{ rewrite zend_types_are_equivalent_unfold, Hofa in Heq.
        cbn [ptr] in Heq. rewrite Hofb in Heq.
        destruct (negb (tag_bits _ =? tag_bits b)); discriminate. }
    destruct b as [pb mb].
    destruct pb as [| | |[etb rcb db]|shb];
      try (rewrite zend_types_are_equivalent_unfold, Hofa in Heq;
           cbn [ptr] in Heq; rewrite Hofb in Heq;
           destruct (negb (tag_bits _ =? tag_bits _)); discriminate).
    apply (equivalent_array_of
             (Build_zend_type (PTR_ARRAY_OF (Build_zend_array_of et rc d)) m)
             (Build_zend_type (PTR_ARRAY_OF (Build_zend_array_of etb rcb db)) mb)
             (Build_zend_array_of et rc d)
             (Build_zend_array_of etb rcb db) Hofa eq_refl eq_refl) in Heq
      as [Htag Heq].
    cbn [element_type] in Heq.
    cbn [array_structured ptr element_type] in Hsb.
    apply andb_true_iff in Hsb as [_ Hsb].
    specialize (IH etb Heq Hsa Hsb).
    apply Hreduce; [exact Htag| |].
    + intros Hx. rewrite has_extended_array_split, Hofa in Hx. discriminate.
    + intros val Hr. cbn [zend_check_type_extended]. rewrite Hr, Hofa, Hofb.
      cbn [ptr]. destruct (negb (zval_type_eqb (Z_TYPE_P val) IS_ARRAY));
        [reflexivity|].
      rewrite !zend_validate_array_of_unfold, !array_of_foreach_pass.
      cbn [element_type]. apply forallb_pointwise. intros [k v].
      apply IH.
  - (* shape *)
    rewrite array_structured_shape in Hsa.
    apply andb_true_iff in Hsa as [Hsa Helsa].
    apply andb_true_iff in Hsa as [Hofa Hsha]. apply negb_true_iff in Hofa.
    assert (Htag : tag_bits
              (Build_zend_type (PTR_ARRAY_SHAPE (Build_zend_array_shape rc h els)) m)
            = tag_bits b) by (apply equivalent_tag_bits; exact Heq).
    pose proof (tag_bits_is_array_of _ _ Htag) as Hofb.
    pose proof (tag_bits_is_array_shape _ _ Htag) as Hshb.
    rewrite Hofa in Hofb. rewrite Hsha in Hshb.
    symmetry in Hofb, Hshb.
    destruct b as [pb mb].
    destruct pb as [| | |aob|[rcb hb elsb]];
      try (rewrite zend_types_are_equivalent_unfold, Hofa, Hsha in Heq;
           cbn [ptr] in Heq; rewrite Hshb in Heq;
           destruct (negb (tag_bits _ =? tag_bits _)); discriminate).
    apply (equivalent_array_shape
             (Build_zend_type
                (PTR_ARRAY_SHAPE (Build_zend_array_shape rc h els)) m)
             (Build_zend_type
                (PTR_ARRAY_SHAPE (Build_zend_array_shape rcb hb elsb)) mb)
             (Build_zend_array_shape rc h els)
             (Build_zend_array_shape rcb hb elsb) Hofa Hsha eq_refl eq_refl)
      in Heq as [_ [_ [_ Hagree]]].
    cbn [elements] in Hagree.
    rewrite array_structured_shape in Hsb.
    apply andb_true_iff in Hsb as [_ Helsb].
    assert (Hok : forall ht,
      forallb (shape_element_ok ht) els = forallb (shape_element_ok ht) elsb).
    { intros ht. apply forallb_Forall2_ext.
      clear Htag Hofb Hshb Hofa Hsha.
      induction Hagree as [|ea eb la lb Hag _ IHag]; [constructor|].
      inversion IH as [|? ? IHe IHrest]; subst.
      cbn [forallb] in Helsa, Helsb.
      apply andb_true_iff in Helsa as [Hea Hla].
      apply andb_true_iff in Helsb as [Heb Hlb].
      constructor; [|apply IHag; assumption].
      unfold shape_element_ok.
      rewrite (shape_lookup_declared_key ht ea eb
                 (elements_agree_declared_key _ _ Hag)).
      destruct Hag as [_ [_ [Ho Ht]]].
      destruct (shape_lookup ht eb) as [val|]; [|exact Ho].
      apply (IHe (type eb) Ht Hea Heb). }
    apply Hreduce; [exact Htag| |].
    + intros Hx. rewrite has_extended_array_split, Hofa, Hsha in Hx.
      discriminate.
    + intros val Hr. cbn [zend_check_type_extended].
      rewrite Hr, Hofa, Hsha, Hofb, Hshb. cbn [ptr].
      destruct (negb (zval_type_eqb (Z_TYPE_P val) IS_ARRAY)); [reflexivity|].
      rewrite !zend_validate_array_shape_unfold, !shape_loop_pass.
      cbn [elements]. apply Hok.
Qed.

(** Property X7.  Equivalent types built from built-in types, array-of and
    shapes accept the same values: if [zend_types_are_equivalent] holds of
    two such types, [zend_check_type_extended] gives the same answer for
    both on every value. *)
Theorem equivalent_types_accept_same_values (a b : zend_type) (val : zval) :
  zend_types_are_equivalent a b = true ->
  array_structured a = true -> array_structured b = true ->
  zend_check_type_extended a val = zend_check_type_extended b val.
Proof.
  intros Heq Ha Hb.
  apply (equivalent_types_accept_same_values_all a b Heq Ha Hb val).
Qed.

End EquivalenceSoundness.

(** ** Equivalence is symmetric and transitive, and blind to list members *)
Section EquivalenceRelation.
Context {E : zend_engine}.

Lemma zend_string_equals_ci_sym a b :
  zend_string_equals_ci a b = zend_string_equals_ci b a.
Proof.
  revert b. induction a as [|x a IH]; intros [|y b]; try reflexivity.
  cbn [zend_string_equals_ci]. rewrite IH, Ascii.eqb_sym. reflexivity.
Qed.

Lemma zend_string_equals_ci_trans a b c :
  zend_string_equals_ci a b = true -> zend_string_equals_ci b c = true ->
  zend_string_equals_ci a c = true.
Proof.
  revert b c. induction a as [|x a IH]; intros [|y b] [|z c];
    try discriminate; try reflexivity.
  cbn [zend_string_equals_ci]. intros H1 H2.
  apply andb_true_iff in H1 as [H1 H1'].
  apply andb_true_iff in H2 as [H2 H2'].
  apply Ascii.eqb_eq in H1, H2. rewrite H1, H2, Ascii.eqb_refl.
  exact (IH b c H1' H2').
Qed.

Lemma zend_string_equals_sym a b :
  zend_string_equals a b = zend_string_equals b a.
Proof.
  destruct a, b; try reflexivity. cbn. apply String.eqb_sym.
Qed.

Lemma elements_equivalent_sym la :
  Forall (fun e => forall b,
            zend_types_are_equivalent (type e) b
            = zend_types_are_equivalent b (type e)) la ->
  forall lb,
    List.length la = List.length lb ->
    elements_equivalent la lb = elements_equivalent lb la.
Proof.
  induction 1 as [|ea la Hea _ IH]; intros [|eb lb] Hlen; try discriminate;
    [reflexivity|].
  cbn [List.length] in Hlen. injection Hlen as Hlen.
  cbn [elements_equivalent].
  rewrite (Hea (type eb)), (IH lb Hlen).
  rewrite (zend_string_equals_sym (key ea) (key eb)).
  rewrite (Z.eqb_sym (key_num ea) (key_num eb)).
  destruct (is_string_key ea), (is_string_key eb), (is_optional ea),
    (is_optional eb); reflexivity.
Qed.

Lemma zend_types_are_equivalent_sym_step a b :
  (forall ao_a ao_b,
      ptr a = PTR_ARRAY_OF ao_a -> ptr b = PTR_ARRAY_OF ao_b ->
      zend_types_are_equivalent (element_type ao_a) (element_type ao_b)
      = zend_types_are_equivalent (element_type ao_b) (element_type ao_a)) ->
  (forall sa sb,
      ptr a = PTR_ARRAY_SHAPE sa -> ptr b = PTR_ARRAY_SHAPE sb ->
      List.length (elements sa) = List.length (elements sb) ->
      elements_equivalent (elements sa) (elements sb)
      = elements_equivalent (elements sb) (elements sa)) ->
  zend_types_are_equivalent a b = zend_types_are_equivalent b a.
Proof.
  intros Hao Hsh.
  rewrite (zend_types_are_equivalent_unfold a b),
    (zend_types_are_equivalent_unfold b a).
  rewrite (Z.eqb_sym (tag_bits b) (tag_bits a)).
  destruct (tag_bits a =? tag_bits b) eqn:Htag; cbn [negb]; [|reflexivity].
  apply Z.eqb_eq in Htag.
  rewrite <- (tag_bits_is_array_of a b Htag),
    <- (tag_bits_is_array_shape a b Htag).
  destruct (ZEND_TYPE_IS_ARRAY_OF a); cbn [negb].
  { destruct (ptr a) as [| | |ao_a|] eqn:Hpa;
      destruct (ptr b) as [| | |ao_b|] eqn:Hpb; try reflexivity.
    apply Hao; reflexivity. }
  destruct (ZEND_TYPE_IS_ARRAY_SHAPE a); cbn [negb].
  { destruct (ptr a) as [| | | |sa] eqn:Hpa;
      destruct (ptr b) as [| | | |sb] eqn:Hpb; try reflexivity.
    rewrite (Z.eqb_sym (shape_hash sb) (shape_hash sa)).
    rewrite (Z.eqb_sym (num_elements sb) (num_elements sa)).
    destruct (shape_hash sa =? shape_hash sb); cbn [negb]; [|reflexivity].
    destruct (num_elements sa =? num_elements sb) eqn:Hn; cbn [negb];
      [|reflexivity].
    apply Z.eqb_eq in Hn. apply Hsh; try reflexivity.
    unfold num_elements in Hn. lia. }
  rewrite (Z.eqb_sym (ZEND_TYPE_PURE_MASK b) (ZEND_TYPE_PURE_MASK a)).
  destruct (ZEND_TYPE_PURE_MASK a =? ZEND_TYPE_PURE_MASK b); cbn [negb];
    [|reflexivity].
  destruct (ZEND_TYPE_HAS_NAME a), (ZEND_TYPE_HAS_NAME b); cbn [andb negb];
    try reflexivity.
  destruct (ptr a) as [|na| | |]; destruct (ptr b) as [|nb| | |];
    try reflexivity.
  apply zend_string_equals_ci_sym.
Qed.

(** Property X8.  [zend_types_are_equivalent] is symmetric, for all type
    values. *)
Theorem zend_types_are_equivalent_sym (a b : zend_type) :
  zend_types_are_equivalent a b = zend_types_are_equivalent b a.
Proof.
  revert b.
  induction a as [m|n m|l m _|et rc d m IH|rc h els m IH] using zend_type_ind;
    intros b; apply zend_types_are_equivalent_sym_step;
    cbn [ptr]; try discriminate.
  - intros ao_a ao_b Ha Hb. inversion Ha; subst ao_a. cbn [element_type].
    apply IH.
  - intros sa sb Ha Hb Hlen. inversion Ha; subst sa. cbn [elements] in *.
    apply elements_equivalent_sym; assumption.
Qed.

(** The three ways two types can be equivalent. *)
Lemma equivalent_cases a b :
  zend_types_are_equivalent a b = true ->
  tag_bits a = tag_bits b
  /\ ((ZEND_TYPE_IS_ARRAY_OF a = true
       /\ exists ao_a ao_b,
            ptr a = PTR_ARRAY_OF ao_a /\ ptr b = PTR_ARRAY_OF ao_b
            /\ zend_types_are_equivalent (element_type ao_a) (element_type ao_b)
               = true)
      \/ (ZEND_TYPE_IS_ARRAY_OF a = false /\ ZEND_TYPE_IS_ARRAY_SHAPE a = true
          /\ exists sa sb,
               ptr a = PTR_ARRAY_SHAPE sa /\ ptr b = PTR_ARRAY_SHAPE sb
               /\ shape_hash sa = shape_hash sb
               /\ num_elements sa = num_elements sb
               /\ Forall2 elements_agree (elements sa) (elements sb))
      \/ (ZEND_TYPE_IS_ARRAY_OF a = false /\ ZEND_TYPE_IS_ARRAY_SHAPE a = false
          /\ ZEND_TYPE_PURE_MASK a = ZEND_TYPE_PURE_MASK b
          /\ ((ZEND_TYPE_HAS_NAME a = true /\ ZEND_TYPE_HAS_NAME b = true
               /\ exists name_a name_b,
                    ptr a = PTR_NAME name_a /\ ptr b = PTR_NAME name_b
                    /\ zend_string_equals_ci name_a name_b = true)
              \/ (ZEND_TYPE_HAS_NAME a = false
                  /\ ZEND_TYPE_HAS_NAME b = false)))).
Proof.
  intros Heq. pose proof (equivalent_tag_bits a b Heq) as Htag.
  split; [exact Htag|].
  destruct (ZEND_TYPE_IS_ARRAY_OF a) eqn:Hof.
  { left. split; [reflexivity|].
    rewrite zend_types_are_equivalent_unfold, Hof in Heq.
    destruct (negb (tag_bits a =? tag_bits b)); [discriminate|].
    destruct (ptr a) as [| | |ao_a|] eqn:Hpa; try discriminate.
    destruct (negb (ZEND_TYPE_IS_ARRAY_OF b)); [discriminate|].
    destruct (ptr b) as [| | |ao_b|] eqn:Hpb; try discriminate.
    exists ao_a, ao_b. auto. }
  destruct (ZEND_TYPE_IS_ARRAY_SHAPE a) eqn:Hsh.
  { right. left. split; [reflexivity|]. split; [reflexivity|].
    assert (Hpa : exists sa, ptr a = PTR_ARRAY_SHAPE sa).
    { rewrite zend_types_are_equivalent_unfold, Hof, Hsh in Heq.
      destruct (negb (tag_bits a =? tag_bits b)); [discriminate|].
      destruct (ptr a) as [| | | |sa]; try discriminate. eauto. }
    assert (Hpb : exists sb, ptr b = PTR_ARRAY_SHAPE sb).
    { rewrite zend_types_are_equivalent_unfold, Hof, Hsh in Heq.
      destruct (negb (tag_bits a =? tag_bits b)); [discriminate|].
      destruct (ptr a) as [| | | |sa]; try discriminate.
      destruct (negb (ZEND_TYPE_IS_ARRAY_SHAPE b)); [discriminate|].
      destruct (ptr b) as [| | | |sb]; try discriminate. eauto. }
    destruct Hpa as [sa Hpa], Hpb as [sb Hpb].
    apply (equivalent_array_shape a b sa sb Hof Hsh Hpa Hpb) in Heq
      as [_ [Hh [Hn Hag]]].
    exists sa, sb. auto. }
  right. right. split; [reflexivity|]. split; [reflexivity|].
  apply (equivalent_plain a b Hof Hsh) in Heq as [_ [Hm Hn]]. auto.
Qed.

Lemma elements_agree_trans la :
  Forall (fun e => forall b c,
            zend_types_are_equivalent (type e) b = true ->
            zend_types_are_equivalent b c = true ->
            zend_types_are_equivalent (type e) c = true) la ->
  forall lb lc,
    Forall2 elements_agree la lb -> Forall2 elements_agree lb lc ->
    Forall2 elements_agree la lc.
Proof.
  induction 1 as [|ea la Hea _ IH]; intros lb lc Hab Hbc.
  - inversion Hab; subst. inversion Hbc; subst. constructor.
  - inversion Hab as [|? eb ? lb' Hag1 Hrest1]; subst.
    inversion Hbc as [|? ec ? lc' Hag2 Hrest2]; subst.
    constructor; [|exact (IH lb' lc' Hrest1 Hrest2)].
    destruct Hag1 as [Hk1 [Hid1 [Ho1 Ht1]]].
    destruct Hag2 as [Hk2 [Hid2 [Ho2 Ht2]]].
    unfold elements_agree.
    split; [congruence|]. split; [|split; [congruence|]].
    + rewrite <- Hk1 in Hid2. destruct (is_string_key ea).
      * unfold zend_string_equals in *.
        destruct (key ea), (key eb), (key ec); try discriminate.
        apply String.eqb_eq in Hid1, Hid2. subst. apply String.eqb_refl.
      * congruence.
    + exact (Hea (type eb) (type ec) Ht1 Ht2).
Qed.

(** Property X9.  [zend_types_are_equivalent] is transitive, for all type
    values. *)
Theorem zend_types_are_equivalent_trans (a b c : zend_type) :
  zend_types_are_equivalent a b = true ->
  zend_types_are_equivalent b c = true ->
  zend_types_are_equivalent a c = true.
Proof.
  revert b c.
  induction a as [m|n m|l m _|et rc d m IH|rc h els m IH] using zend_type_ind;
    intros b c Hab Hbc;
    destruct (equivalent_cases _ _ Hab) as [Htab Hcab];
    destruct (equivalent_cases _ _ Hbc) as [Htbc Hcbc];
    pose proof (tag_bits_is_array_of _ _ Htab) as Hofab;
    pose proof (tag_bits_is_array_shape _ _ Htab) as Hshab;
    match goal with
    | |- zend_types_are_equivalent ?x c = true => set (a := x) in *
    end;
    (destruct Hcab as [[Hofa (ao_a & ao_b & Hpa & Hpb & Het)]
                      |[(Hofa & Hsha & sa & sb & Hpa & Hpb & Hh & Hn & Hag)
                       |(Hofa & Hsha & Hm & Hnames)]]);
    try (subst a; cbn [ptr] in Hpa; discriminate).
  all: destruct Hcbc as [[Hofb (ao_b' & ao_c & Hpb' & Hpc & Het')]
                        |[(Hofb & Hshb & sb' & sc & Hpb' & Hpc & Hh' & Hn' & Hag')
                         |(Hofb & Hshb & Hm' & Hnames')]];
    try congruence.
  all: first
    [ (* neither is an array-of or a shape *)
      apply (equivalent_plain a c Hofa Hsha);
      (split; [congruence|]); (split; [congruence|]);
      destruct Hnames as [(Hna & Hnb & na & nb & Hpna & Hpnb & Hci)|[Hna Hnb]];
      destruct Hnames' as [(Hnb' & Hnc & nb' & nc & Hpnb' & Hpnc & Hci')
                          |[Hnb' Hnc]];
      try congruence;
      [left; split; [exact Hna|]; split; [exact Hnc|];
       exists na, nc; split; [exact Hpna|]; split; [exact Hpnc|];
       rewrite Hpnb in Hpnb'; inversion Hpnb'; subst nb';
       exact (zend_string_equals_ci_trans _ _ _ Hci Hci')
      |right; split; assumption]
    | (* array-of *)
      rewrite Hpb in Hpb'; inversion Hpb'; subst ao_b';
      apply (equivalent_array_of a c ao_a ao_c Hofa Hpa Hpc);
      (split; [congruence|]);
      subst a; cbn [ptr] in Hpa; inversion Hpa; subst ao_a;
      cbn [element_type] in *;
      exact (IH _ _ Het Het')
    | (* shape *)
      rewrite Hpb in Hpb'; inversion Hpb'; subst sb';
      apply (equivalent_array_shape a c sa sc Hofa Hsha Hpa Hpc);
      (split; [congruence|]); (split; [congruence|]); (split; [congruence|]);
      subst a; cbn [ptr] in Hpa; inversion Hpa; subst sa;
      cbn [elements] in *;
      exact (elements_agree_trans els IH _ _ Hag Hag') ].
Qed.

Section LayoutLists.
Hypothesis layout : engine_layout.

Lemma compiled_list_type kind_bit l :
  Z.land kind_bit ZEND_TYPE_EXTENDED_ARRAY_MASK = 0 ->
  Z.land kind_bit _ZEND_TYPE_NAME_BIT = 0 ->
  let t := Build_zend_type (ptr (ZEND_TYPE_SET_LIST ZEND_TYPE_INIT_NONE l))
             (Z.lor (type_mask (ZEND_TYPE_SET_LIST ZEND_TYPE_INIT_NONE l))
                kind_bit) in
  tag_bits t = 0 /\ ZEND_TYPE_HAS_NAME t = false.
Proof.
  intros Hx Hn. cbn [ZEND_TYPE_SET_LIST ZEND_TYPE_INIT_NONE ptr type_mask].
  rewrite Z.lor_0_l. unfold tag_bits, ZEND_TYPE_HAS_NAME. cbn [type_mask].
  rewrite (land_lor_0 _ _ _ (layout_list layout) Hx).
  rewrite (land_lor_0 _ _ _ (layout_list_name layout) Hn).
  split; reflexivity.
Qed.

Lemma equivalent_list_types kind_bit l1 l2 :
  Z.land kind_bit ZEND_TYPE_EXTENDED_ARRAY_MASK = 0 ->
  Z.land kind_bit _ZEND_TYPE_NAME_BIT = 0 ->
  zend_types_are_equivalent
    (Build_zend_type (ptr (ZEND_TYPE_SET_LIST ZEND_TYPE_INIT_NONE l1))
       (Z.lor (type_mask (ZEND_TYPE_SET_LIST ZEND_TYPE_INIT_NONE l1)) kind_bit))
    (Build_zend_type (ptr (ZEND_TYPE_SET_LIST ZEND_TYPE_INIT_NONE l2))
       (Z.lor (type_mask (ZEND_TYPE_SET_LIST ZEND_TYPE_INIT_NONE l2)) kind_bit))
  = true.
Proof.
  intros Hx Hn.
  destruct (compiled_list_type kind_bit l1 Hx Hn) as [Ht1 Hn1].
  destruct (compiled_list_type kind_bit l2 Hx Hn) as [Ht2 Hn2].
  cbv zeta in Ht1, Hn1, Ht2, Hn2.
  apply equivalent_plain.
  - apply negb_false_iff, Z.eqb_eq.
    rewrite land_tag_bit_24. unfold tag_bits in Ht1. rewrite Ht1. reflexivity.
  - apply negb_false_iff, Z.eqb_eq.
    rewrite land_tag_bit_25. unfold tag_bits in Ht1. rewrite Ht1. reflexivity.
  - split; [congruence|]. split; [reflexivity|]. right. split; assumption.
Qed.

(** Property X10.  For an engine whose bits do not overlap the tag bits,
    [zend_types_are_equivalent] never looks at the members of a type list:
    any two compiled unions are equivalent, and any two compiled
    intersections, whatever their members. *)
Theorem equivalence_ignores_list_members
  (attr1 attr2 : Z) (children1 children2 : list zend_ast)
  (persistent1 persistent2 : bool) (t1 t2 : zend_type) :
  (zend_compile_type_internal
     (ast_node ZEND_AST_TYPE_UNION attr1 children1) persistent1 = Compiled t1 ->
   zend_compile_type_internal
     (ast_node ZEND_AST_TYPE_UNION attr2 children2) persistent2 = Compiled t2 ->
   zend_types_are_equivalent t1 t2 = true)
  /\ (zend_compile_type_internal
        (ast_node ZEND_AST_TYPE_INTERSECTION attr1 children1) persistent1
      = Compiled t1 ->
      zend_compile_type_internal
        (ast_node ZEND_AST_TYPE_INTERSECTION attr2 children2) persistent2
      = Compiled t2 ->
      zend_types_are_equivalent t1 t2 = true).
Proof.
  split; intros H1 H2;
    cbn [zend_compile_type_internal ast_kind] in H1, H2;
    match type of H1 with
    | bind_compile ?l _ = _ => destruct l as [l1|]; [|discriminate]
    end;
    match type of H2 with
    | bind_compile ?l _ = _ => destruct l as [l2|]; [|discriminate]
    end;
    cbn [bind_compile] in H1, H2; inversion H1; inversion H2.
  - apply equivalent_list_types;
      [exact (layout_union layout)|exact (layout_union_name layout)].
  - apply equivalent_list_types;
      [exact (layout_intersection layout)
      |exact (layout_intersection_name layout)].
Qed.

End LayoutLists.

End EquivalenceRelation.

(** ** What the compiler produces *)
Section CompilerProperties.
Context {E : zend_engine}.

(** Every compiled type is built by the six steps of the compiler; a
    property kept by each step holds of every compiled type. *)
Lemma compiled_type_ind (P : zend_type -> Prop) :
  (forall code, P (ZEND_TYPE_INIT_CODE code)) ->
  (forall class_name, P (ZEND_TYPE_INIT_CLASS class_name)) ->
  (forall t, P t ->
     P (Build_zend_type (ptr t) (Z.lor (type_mask t) MAY_BE_NULL))) ->
  (forall l, Forall P l ->
     P (Build_zend_type (PTR_LIST l)
          (Z.lor (Z.lor 0 _ZEND_TYPE_LIST_BIT) _ZEND_TYPE_UNION_BIT))) ->
  (forall l, Forall P l ->
     P (Build_zend_type (PTR_LIST l)
          (Z.lor (Z.lor 0 _ZEND_TYPE_LIST_BIT) _ZEND_TYPE_INTERSECTION_BIT))) ->
  (forall et d,
     P et ->
     (ZEND_TYPE_IS_ARRAY_OF et = false /\ d = 1)
     \/ (exists inner,
           ZEND_TYPE_IS_ARRAY_OF et = true /\ ptr et = PTR_ARRAY_OF inner
           /\ d = uint8_t (depth inner + 1)) ->
     P (array_of_type et d)) ->
  (forall els,
     Forall (fun e => P (type e) /\ compiled_key e = true) els ->
     P (array_shape_type els)) ->
  forall ast persistent t,
    zend_compile_type_internal ast persistent = Compiled t -> P t.
Proof.
  intros Hcode Hclass Hnull Hunion Hinter Hof Hshape ast.
  enough (Hall :
    (forall persistent t,
        zend_compile_type_internal ast persistent = Compiled t -> P t)
    /\ (forall elem,
           compile_shape_element ast = Compiled elem ->
           P (type elem) /\ compiled_key elem = true)
    /\ (forall kind attr children elems,
           ast = ast_node kind attr children ->
           compile_shape_elements children = Compiled elems ->
           Forall (fun e => P (type e) /\ compiled_key e = true) elems))
    by (apply Hall).
  induction ast as [kind attr val | kind attr child IH] using zend_ast_ind.
  - split; [|split].
    + intros persistent t Hc.
      destruct kind; cbn in Hc; try discriminate.
      * inversion Hc; subst t. apply Hcode.
      * destruct val; try discriminate. inversion Hc; subst t. apply Hclass.
      * destruct val; try discriminate. inversion Hc; subst t. apply Hclass.
    + intros elem Hc. discriminate.
    + intros k a children elems Heq. discriminate.
  - assert (Hmembers : forall persistent l,
      (fix compile_members (l : list zend_ast)
         : compile_result (list zend_type) :=
         match l with
         | [] => Compiled []
         | member :: rest =>
             t <- zend_compile_type_internal member persistent ;;
             rest' <- compile_members rest ;;
             Compiled (t :: rest')
         end) child = Compiled l ->
      Forall P l).
    { intros persistent. clear - IH.
      induction IH as [|c child [Hc _] _ IHchild]; intros l Hl.
      - inversion Hl. constructor.
      - destruct (zend_compile_type_internal c persistent) as [t|] eqn:Ht;
          [|discriminate].
        cbn [bind_compile] in Hl.
        match type of Hl with
        | bind_compile ?r _ = _ => destruct r as [rest'|] eqn:Hr; [|discriminate]
        end.
        cbn [bind_compile] in Hl. inversion Hl; subst l.
        constructor; [exact (Hc persistent t Ht)|exact (IHchild rest' eq_refl)]. }
    split; [|split].
    + intros persistent t Hc.
      destruct kind; try (cbn in Hc; discriminate).
      * cbn in Hc. inversion Hc; subst t. apply Hcode.
      * destruct child as [|child0 rest]; [cbn in Hc; discriminate|].
        cbn [zend_compile_type_internal ast_kind] in Hc.
        destruct (zend_compile_type_internal child0 persistent) as [ty|e] eqn:H0;
          [|discriminate].
        cbn [bind_compile] in Hc. inversion Hc; subst t.
        inversion IH as [|? ? [IH0 _] _]; subst.
        apply Hnull. exact (IH0 persistent _ H0).
      * cbn [zend_compile_type_internal ast_kind] in Hc.
        match type of Hc with
        | bind_compile ?r _ = _ => destruct r as [l|] eqn:Hl; [|discriminate]
        end.
        cbn [bind_compile] in Hc. inversion Hc; subst t.
        apply Hunion. exact (Hmembers persistent l Hl).
      * cbn [zend_compile_type_internal ast_kind] in Hc.
        match type of Hc with
        | bind_compile ?r _ = _ => destruct r as [l|] eqn:Hl; [|discriminate]
        end.
        cbn [bind_compile] in Hc. inversion Hc; subst t.
        apply Hinter. exact (Hmembers persistent l Hl).
      * change (zend_compile_array_of_type
                  (ast_node ZEND_AST_TYPE_ARRAY_OF attr child) = Compiled t) in Hc.
        apply zend_compile_array_of_type_inv in Hc
          as (a & c & more & et & Heq & Hc & Ht).
        inversion Heq; subst child.
        inversion IH as [|? ? [IH0 _] _]; subst.
        destruct Ht as [[Hno ->]|[inner [Hyes [Hp ->]]]];
          (apply Hof; [exact (IH0 true et Hc)|]).
        -- left. split; [exact Hno|reflexivity].
        -- right. exists inner. auto.
      * change (zend_compile_array_shape_type
                  (ast_node ZEND_AST_TYPE_ARRAY_SHAPE attr child) = Compiled t) in Hc.
        apply zend_compile_array_shape_type_inv in Hc
          as (a & a' & cs & more & els & Heq & Hels & ->).
        inversion Heq; subst child.
        inversion IH as [|? ? [_ [_ IHlist]] _]; subst.
        apply Hshape. exact (IHlist _ _ _ _ eq_refl Hels).
    + intros elem Hc. unfold compile_shape_element in Hc.
      destruct kind; try discriminate.
      destruct child as [|key_ast [|type_ast rest]]; try discriminate.
      destruct key_ast as [kk ka kv|]; try discriminate.
      destruct kk; try discriminate.
      inversion IH as [|? ? _ IH']; subst.
      inversion IH' as [|? ? [IHty _] _]; subst.
      destruct kv; try discriminate; cbn [bind_compile] in Hc;
        destruct (zend_compile_type_internal type_ast true) as [ty|] eqn:Hty;
        try discriminate; cbn [bind_compile] in Hc; inversion Hc; subst elem;
        cbn [type]; (split; [exact (IHty true ty Hty)|]).
      * unfold compiled_key. cbn [is_string_key key key_num].
        unfold zend_ulong.
        pose proof (Z.mod_pos_bound lval (2 ^ 64) ltac:(lia)) as Hr.
        apply andb_true_iff. split; [apply Z.leb_le|apply Z.ltb_lt]; lia.
      * reflexivity.
    + intros k a children elems Heq Hc. inversion Heq; subst k a children.
      clear Heq Hmembers. revert elems Hc.
      induction IH as [|c child [_ [Helem _]] _ IHchild]; intros elems Hc.
      * inversion Hc. constructor.
      * cbn [compile_shape_elements] in Hc.
        destruct (compile_shape_element c) as [e|] eqn:He; [|discriminate].
        cbn [bind_compile] in Hc.
        destruct (compile_shape_elements child) as [rest'|] eqn:Hr;
          [|discriminate].
        cbn [bind_compile] in Hc. inversion Hc; subst elems.
        constructor; [exact (Helem e eq_refl)|exact (IHchild rest' eq_refl)].
Qed.

Lemma land_lor_absorb x b : Z.land (Z.lor x b) b = b.
Proof.
  apply Z.bits_inj'. intros n Hn.
  rewrite Z.land_spec, Z.lor_spec.
  destruct (Z.testbit b n), (Z.testbit x n); reflexivity.
Qed.

Lemma freshly_compiled_mask p m bits :
  freshly_compiled (Build_zend_type p m) = true ->
  freshly_compiled (Build_zend_type p (Z.lor m bits)) = true.
Proof.
  assert (Hmask : (Z.land m MAY_BE_ARRAY =? MAY_BE_ARRAY) = true ->
                  (Z.land (Z.lor m bits) MAY_BE_ARRAY =? MAY_BE_ARRAY) = true).
  { intros H. apply Z.eqb_eq in H. apply Z.eqb_eq.
    apply Z.bits_inj'. intros n Hn.
    apply (f_equal (fun z => Z.testbit z n)) in H.
    rewrite Z.land_spec in H. rewrite Z.land_spec, Z.lor_spec.
    destruct (Z.testbit m n), (Z.testbit bits n), (Z.testbit MAY_BE_ARRAY n);
      cbn in *; congruence. }
  destruct p as [| | |ao|sh]; try (intros H; exact H).
  - cbn [freshly_compiled ptr type_mask]. intros H.
    apply andb_true_iff in H as [H Het].
    apply andb_true_iff in H as [H Hm].
    rewrite H, (Hmask Hm), Het. reflexivity.
  - cbn [freshly_compiled ptr type_mask]. intros H.
    apply andb_true_iff in H as [H Hels].
    apply andb_true_iff in H as [H Hm].
    rewrite H, (Hmask Hm), Hels. reflexivity.
Qed.

Lemma freshly_compiled_list l m :
  Forall (fun t => freshly_compiled t = true) l ->
  freshly_compiled (Build_zend_type (PTR_LIST l) m) = true.
Proof.
  cbn [freshly_compiled ptr].
  induction 1 as [|t l Ht _ IH]; [reflexivity|]. rewrite Ht, IH. reflexivity.
Qed.

Lemma zend_compute_shape_hash_fields rc h rc' h' els :
  zend_compute_shape_hash (Build_zend_array_shape rc h els)
  = zend_compute_shape_hash (Build_zend_array_shape rc' h' els).
Proof. reflexivity. Qed.

(** Property X11.  Every descriptor of a compiled type is as
    [zend_array_of_alloc], [zend_array_shape_alloc] and the compiler leave
    it: reference count 1, a depth within [uint8_t], the stored hash of a
    shape equal to [zend_compute_shape_hash] of that shape, the array bit
    set beside the tag bit, string keys stored with [key_num] 0 and
    integer keys within [zend_ulong]. *)
Theorem compiled_descriptors_are_fresh (ast : zend_ast) (persistent : bool)
  (t : zend_type) :
  zend_compile_type_internal ast persistent = Compiled t ->
  freshly_compiled t = true.
Proof.
  revert ast persistent t.
  apply (compiled_type_ind (fun t => freshly_compiled t = true)).
  - reflexivity.
  - reflexivity.
  - intros [p m] H. cbn [ptr type_mask]. apply freshly_compiled_mask. exact H.
  - intros l Hl. apply freshly_compiled_list. exact Hl.
  - intros l Hl. apply freshly_compiled_list. exact Hl.
  - intros et d Het Hd.
    unfold array_of_type, ZEND_TYPE_SET_ARRAY_OF_PTR.
    cbn [freshly_compiled ptr type_mask array_of_refcount depth element_type
         ZEND_TYPE_INIT_NONE].
    rewrite Het, Z.lor_0_l, land_lor_absorb, !Z.eqb_refl.
    assert (Hr : 0 <= d < 256).
    { destruct Hd as [[_ ->]|[inner [_ [_ ->]]]]; [lia|apply uint8_t_range]. }
    replace (0 <=? d) with true by (symmetry; apply Z.leb_le; lia).
    replace (d <? 256) with true by (symmetry; apply Z.ltb_lt; lia).
    reflexivity.
  - intros els Hels.
    unfold array_shape_type, ZEND_TYPE_SET_ARRAY_SHAPE_PTR.
    cbn [freshly_compiled ptr type_mask shape_refcount shape_hash elements
         ZEND_TYPE_INIT_NONE].
    rewrite Z.lor_0_l, land_lor_absorb.
    rewrite (zend_compute_shape_hash_fields 1
               (zend_compute_shape_hash (Build_zend_array_shape 1 0 els)) 1 0).
    rewrite !Z.eqb_refl. cbn [andb].
    induction Hels as [|e els [He Hk] _ IH]; [reflexivity|].
    rewrite Hk, He, IH. reflexivity.
Qed.

End CompilerProperties.

(** ** Which trees compile *)
Section CompilerGrammar.
Context {E : zend_engine}.
Hypothesis layout : engine_layout.

Lemma compiled_exists_bind {A B} (r : compile_result A)
  (k : A -> compile_result B) :
  (forall a, r = Compiled a -> exists b, k a = Compiled b) ->
  ((exists b, bind_compile r k = Compiled b) <-> exists a, r = Compiled a).
Proof.
  intros Hk. destruct r as [a|e]; cbn [bind_compile].
  - split; [eauto|]. intros _. apply Hk. reflexivity.
  - split; [intros [b Hb]; discriminate|intros [a Ha]; discriminate].
Qed.

Lemma compile_members_succeed persistent children :
  Forall (fun c => (exists t, zend_compile_type_internal c persistent = Compiled t)
                   <-> valid_type_ast c = true) children ->
  ((exists l,
      (fix compile_members (l : list zend_ast)
         : compile_result (list zend_type) :=
         match l with
         | [] => Compiled []
         | member :: rest =>
             t <- zend_compile_type_internal member persistent ;;
             rest' <- compile_members rest ;;
             Compiled (t :: rest')
         end) children = Compiled l)
   <-> forallb valid_type_ast children = true).
Proof.
  induction 1 as [|c children Hc _ IH].
  - split; [reflexivity|]. intros _. eexists. reflexivity.
  - cbn [forallb]. rewrite andb_true_iff, <- Hc, <- IH.
    destruct (zend_compile_type_internal c persistent) as [t|e];
      cbn [bind_compile].
    + match goal with
      | |- context [bind_compile ?r _] => destruct r as [l|e]
      end; cbn [bind_compile].
      * split; [intros _; split; eexists; reflexivity|].
        intros _. eexists. reflexivity.
      * split; [intros [l Hl]; discriminate|].
        intros [_ [l Hl]]. discriminate.
    + split; [intros [l Hl]; discriminate|].
      intros [[t Ht] _]. discriminate.
Qed.

Lemma compile_succeeds_iff_valid_all ast :
  (forall persistent,
      (exists t, zend_compile_type_internal ast persistent = Compiled t)
      <-> valid_type_ast ast = true)
  /\ ((exists elem, compile_shape_element ast = Compiled elem)
      <-> valid_shape_element_ast valid_type_ast ast = true)
  /\ (forall kind attr children,
         ast = ast_node kind attr children ->
         ((exists elems, compile_shape_elements children = Compiled elems)
          <-> forallb (valid_shape_element_ast valid_type_ast) children = true)).
Proof.
  induction ast as [kind attr val | kind attr child IH] using zend_ast_ind.
  - split; [|split].
    + intros persistent.
      destruct kind; cbn [zend_compile_type_internal ast_kind valid_type_ast];
        try (split; [intros [t Ht]; discriminate|discriminate]).
      * split; [reflexivity|]. intros _. eexists. reflexivity.
      * destruct val;
          try (split; [intros [t Ht]; discriminate|discriminate]).
        split; [reflexivity|]. intros _. eexists. reflexivity.
      * destruct val;
          try (split; [intros [t Ht]; discriminate|discriminate]).
        split; [reflexivity|]. intros _. eexists. reflexivity.
    + cbn. split; [intros [e He]; discriminate|discriminate].
    + intros k a children Heq. discriminate.
  - split; [|split].
    + intros persistent.
      destruct kind;
        try (cbn [zend_compile_type_internal ast_kind valid_type_ast];
             split; [intros [t Ht]; discriminate|discriminate]).
      * (* ZEND_AST_TYPE *)
        cbn. split; [reflexivity|]. intros _. eexists. reflexivity.
      * (* ZEND_AST_NULLABLE_TYPE *)
        destruct child as [|child0 rest];
          [cbn; split; [intros [t Ht]; discriminate|discriminate]|].
        cbn [zend_compile_type_internal ast_kind valid_type_ast].
        inversion IH as [|? ? [IH0 _] _]; subst.
        rewrite <- (IH0 persistent).
        apply compiled_exists_bind. intros ty _. eexists. reflexivity.
      * (* ZEND_AST_TYPE_UNION *)
        cbn [zend_compile_type_internal ast_kind valid_type_ast].
        rewrite <- (compile_members_succeed persistent child).
        -- apply compiled_exists_bind. intros l _. eexists. reflexivity.
        -- clear - IH. induction IH as [|c child [Hc _] _ IHc]; constructor;
             [apply Hc|exact IHc].
      * (* ZEND_AST_TYPE_INTERSECTION *)
        cbn [zend_compile_type_internal ast_kind valid_type_ast].
        rewrite <- (compile_members_succeed persistent child).
        -- apply compiled_exists_bind. intros l _. eexists. reflexivity.
        -- clear - IH. induction IH as [|c child [Hc _] _ IHc]; constructor;
             [apply Hc|exact IHc].
      * (* ZEND_AST_TYPE_ARRAY_OF *)
        destruct child as [|c more];
          [cbn; split; [intros [t Ht]; discriminate|discriminate]|].
        change (zend_compile_type_internal
                  (ast_node ZEND_AST_TYPE_ARRAY_OF attr (c :: more)) persistent)
          with (zend_compile_array_of_type
                  (ast_node ZEND_AST_TYPE_ARRAY_OF attr (c :: more))).
        rewrite zend_compile_array_of_type_unfold.
        cbn [valid_type_ast].
        inversion IH as [|? ? [IH0 _] _]; subst.
        rewrite <- (IH0 true).
        apply compiled_exists_bind. intros et Het.
        destruct (ZEND_TYPE_IS_ARRAY_OF et) eqn:Hof; [|eexists; reflexivity].
        destruct (well_tagged_array_of et
                    (compiled_well_tagged layout c true et Het) Hof)
          as [inner ->].
        eexists. reflexivity.
      * (* ZEND_AST_TYPE_ARRAY_SHAPE *)
        destruct child as [|c more];
          [cbn; split; [intros [t Ht]; discriminate|discriminate]|].
        change (zend_compile_type_internal
                  (ast_node ZEND_AST_TYPE_ARRAY_SHAPE attr (c :: more)) persistent)
          with (zend_compile_array_shape_type
                  (ast_node ZEND_AST_TYPE_ARRAY_SHAPE attr (c :: more))).
        destruct c as [k a v | k a els];
          [cbn; split; [intros [t Ht]; discriminate|discriminate]|].
        destruct k;
          try (cbn; split; [intros [t Ht]; discriminate|discriminate]).
        rewrite zend_compile_shape_elements_unfold.
        cbn [valid_type_ast].
        inversion IH as [|? ? [_ [_ IHlist]] _]; subst.
        rewrite <- (IHlist _ _ _ eq_refl).
        apply compiled_exists_bind. intros l _. eexists. reflexivity.
    + unfold compile_shape_element, valid_shape_element_ast.
      destruct kind;
        try (split; [intros [e He]; discriminate|discriminate]).
      destruct child as [|key_ast rest0];
        [split; [intros [e He]; discriminate|discriminate]|].
      destruct key_ast as [kk ka kv|kk ka kc];
        destruct rest0 as [|type_ast rest];
        try (split; [intros [e He]; discriminate|discriminate]).
      all: destruct kk;
        try (split; [intros [e He]; discriminate|discriminate]).
      inversion IH as [|? ? _ IH']; subst.
      inversion IH' as [|? ? [IHty _] _]; subst.
      destruct kv; cbn [bind_compile andb];
        try (split; [intros [e He]; discriminate|discriminate]);
        rewrite <- (IHty true);
        (apply compiled_exists_bind; intros ty _; eexists; reflexivity).
    + intros k a children Heq. inversion Heq; subst k a children. clear Heq.
      induction IH as [|c child [_ [Helem _]] _ IHchild].
      * split; [reflexivity|]. intros _. eexists. reflexivity.
      * cbn [compile_shape_elements forallb].
        rewrite andb_true_iff, <- Helem, <- IHchild.
        destruct (compile_shape_element c) as [e|err]; cbn [bind_compile].
        -- destruct (compile_shape_elements child) as [l|err];
             cbn [bind_compile].
           ++ split; [intros _; split; eexists; reflexivity|].
              intros _. eexists. reflexivity.
           ++ split; [intros [l Hl]; discriminate|].
              intros [_ [l Hl]]. discriminate.
        -- split; [intros [l Hl]; discriminate|].
           intros [[e He] _]. discriminate.
Qed.

(** Property X12.  For an engine whose bits do not overlap the tag bits,
    [zend_compile_type_internal] returns a type exactly for the trees of
    [valid_type_ast]: nodes of the kinds of its [switch] with the children
    they read, class names given as strings, and shape elements whose key
    literal is a string or an integer; every other tree ends in
    [zend_error_noreturn] or a failed assertion. *)
Theorem compile_succeeds_iff_valid (ast : zend_ast) (persistent : bool) :
  (exists t, zend_compile_type_internal ast persistent = Compiled t)
  <-> valid_type_ast ast = true.
Proof. apply compile_succeeds_iff_valid_all. Qed.

End CompilerGrammar.

(** ** Nullable array-of and shape types *)
Section NullableTypes.
Context {E : zend_engine}.

Lemma has_extended_array_lor p m bits :
  ZEND_TYPE_HAS_EXTENDED_ARRAY (Build_zend_type p m) = true ->
  ZEND_TYPE_HAS_EXTENDED_ARRAY (Build_zend_type p (Z.lor m bits)) = true.
Proof.
  unfold ZEND_TYPE_HAS_EXTENDED_ARRAY. cbn [type_mask].
  rewrite !negb_true_iff, !Z.eqb_neq, Z.land_lor_distr_l, Z.lor_eq_0_iff.
  tauto.
Qed.

Lemma extended_array_rejects_non_array t val :
  ZEND_TYPE_HAS_EXTENDED_ARRAY t = true ->
  Z_TYPE_P (if Z_ISREF_P val then Z_REFVAL_P val else val) <> IS_ARRAY ->
  zend_check_type_extended t val = false.
Proof.
  intros Hext Hval. apply zval_not_array in Hval.
  rewrite has_extended_array_split in Hext.
  destruct t as [p m]. cbn [zend_check_type_extended]. rewrite Hval.
  destruct (ZEND_TYPE_IS_ARRAY_OF (Build_zend_type p m)).
  - cbn [ptr]. destruct p; reflexivity.
  - cbn [orb] in Hext. rewrite Hext. cbn [ptr]. destruct p; reflexivity.
Qed.

(** Property X13.  Compiling [?T] for an array-of or shape type [T] keeps
    the descriptor and sets the null bit, so that [allowsNull] of the
    reflection classes answers true; yet [zend_check_type_extended]
    rejects null for that type and [zend_verify_arg_type_extended] fails
    on a null argument, because the tag bit is tested before the null bit
    is ever read. *)
Theorem nullable_extended_array_rejects_null
  (attr : Z) (child0 : zend_ast) (more : list zend_ast) (persistent : bool)
  (child_type : zend_type) :
  zend_compile_type_internal child0 persistent = Compiled child_type ->
  ZEND_TYPE_HAS_EXTENDED_ARRAY child_type = true ->
  MAY_BE_NULL <> 0 ->
  exists t,
    zend_compile_type_internal
      (ast_node ZEND_AST_NULLABLE_TYPE attr (child0 :: more)) persistent
    = Compiled t
    /\ ptr t = ptr child_type
    /\ ReflectionArrayOfType_allowsNull t = true
    /\ ReflectionArrayShapeType_allowsNull t = true
    /\ zend_check_type_extended t zv_null = false
    /\ forall func arg_num info,
         select_arg_info func arg_num = Some info ->
         arg_type info = t ->
         ZEND_TYPE_IS_SET t = true ->
         fst (zend_verify_arg_type_extended func arg_num zv_null) = false.
Proof.
  intros Hc Hext Hnull.
  destruct child_type as [p m].
  exists (Build_zend_type p (Z.lor m MAY_BE_NULL)).
  assert (Hext' : ZEND_TYPE_HAS_EXTENDED_ARRAY
                    (Build_zend_type p (Z.lor m MAY_BE_NULL)) = true)
    by (apply has_extended_array_lor; exact Hext).
  assert (Hallows : negb (Z.land (Z.lor m MAY_BE_NULL) MAY_BE_NULL =? 0) = true).
  { apply negb_true_iff, Z.eqb_neq.
    rewrite Z.land_lor_distr_l, Z.land_diag, Z.lor_eq_0_iff. tauto. }
  split; [|split; [reflexivity|split; [exact Hallows|split; [exact Hallows|split]]]].
  - cbn [zend_compile_type_internal ast_kind]. rewrite Hc. reflexivity.
  - apply extended_array_rejects_non_array; [exact Hext'|]. cbn. discriminate.
  - intros func arg_num info Hsel Hty Hset.
    unfold zend_verify_arg_type_extended. rewrite Hsel, Hty, Hset.
    cbn [negb]. rewrite has_extended_array_split in Hext'.
    destruct (ZEND_TYPE_IS_ARRAY_OF (Build_zend_type p (Z.lor m MAY_BE_NULL))).
    + cbn [ptr Z_TYPE_P zval_type_eqb negb]. destruct p; reflexivity.
    + cbn [orb] in Hext'. rewrite Hext'.
      cbn [ptr Z_TYPE_P zval_type_eqb negb]. destruct p; reflexivity.
Qed.

Section LayoutNullable.
Hypothesis layout : engine_layout.

Lemma tag_bits_nullable p m :
  tag_bits (Build_zend_type p (Z.lor m MAY_BE_NULL))
  = tag_bits (Build_zend_type p m).
Proof.
  unfold tag_bits. cbn [type_mask].
  rewrite Z.land_lor_distr_l, (layout_null layout), Z.lor_0_r. reflexivity.
Qed.

(** Property X14.  For an engine whose bits do not overlap the tag bits,
    the nullable form of a compiled array-of or shape type is displayed by
    [zend_type_to_string_extended] exactly as the type itself, and
    [zend_types_are_equivalent] holds between the two in both directions. *)
Theorem nullability_of_extended_array_is_not_displayed
  (attr : Z) (child0 : zend_ast) (more : list zend_ast) (persistent : bool)
  (child_type t : zend_type) :
  zend_compile_type_internal child0 persistent = Compiled child_type ->
  ZEND_TYPE_HAS_EXTENDED_ARRAY child_type = true ->
  zend_compile_type_internal
    (ast_node ZEND_AST_NULLABLE_TYPE attr (child0 :: more)) persistent
  = Compiled t ->
  zend_type_to_string_extended t = zend_type_to_string_extended child_type
  /\ zend_types_are_equivalent t child_type = true
  /\ zend_types_are_equivalent child_type t = true.
Proof.
  intros Hc Hext Hn.
  cbn [zend_compile_type_internal ast_kind] in Hn. rewrite Hc in Hn.
  cbn [bind_compile] in Hn. inversion Hn; subst t. clear Hn.
  pose proof (compiled_well_tagged layout _ _ _ Hc) as Hwt.
  pose proof (zend_types_are_equivalent_refl _ Hwt) as Hrefl.
  destruct child_type as [p m]. cbn [ptr type_mask].
  pose proof (tag_bits_nullable p m) as Htag.
  pose proof (tag_bits_is_array_of _ _ Htag) as Hof.
  pose proof (tag_bits_is_array_shape _ _ Htag) as Hsh.
  rewrite has_extended_array_split in Hext.
  split; [|split].
  - rewrite (zend_type_to_string_extended_unfold
               (Build_zend_type p (Z.lor m MAY_BE_NULL))),
      (zend_type_to_string_extended_unfold (Build_zend_type p m)).
    rewrite Hof, Hsh. cbn [ptr].
    destruct (ZEND_TYPE_IS_ARRAY_OF (Build_zend_type p m)); [reflexivity|].
    cbn [orb] in Hext. rewrite Hext. reflexivity.
  - rewrite <- Hrefl.
    rewrite (zend_types_are_equivalent_unfold
               (Build_zend_type p (Z.lor m MAY_BE_NULL)) (Build_zend_type p m)),
      (zend_types_are_equivalent_unfold
         (Build_zend_type p m) (Build_zend_type p m)).
    rewrite Htag, Hof, Hsh. cbn [ptr].
    destruct (ZEND_TYPE_IS_ARRAY_OF (Build_zend_type p m)); [reflexivity|].
    cbn [orb] in Hext. rewrite Hext. reflexivity.
  - rewrite <- Hrefl.
    rewrite (zend_types_are_equivalent_unfold
               (Build_zend_type p m) (Build_zend_type p (Z.lor m MAY_BE_NULL))),
      (zend_types_are_equivalent_unfold
         (Build_zend_type p m) (Build_zend_type p m)).
    rewrite Htag, Hof, Hsh. cbn [ptr].
    destruct (ZEND_TYPE_IS_ARRAY_OF (Build_zend_type p m)); [reflexivity|].
    cbn [orb] in Hext. rewrite Hext. reflexivity.
Qed.

(** Property X15.  For an engine whose bits do not overlap the tag bits, a
    compiled type has tag bits that agree with its pointers at every level
    and never both tag bits: with the array-of bit the pointer is an
    array-of descriptor, with the shape bit it is a shape descriptor, and
    without a tag bit it is neither. *)
Theorem compiled_types_have_one_kind (ast : zend_ast) (persistent : bool)
  (t : zend_type) :
  zend_compile_type_internal ast persistent = Compiled t ->
  well_tagged t = true
  /\ (ZEND_TYPE_IS_ARRAY_OF t = true ->
      ZEND_TYPE_IS_ARRAY_SHAPE t = false
      /\ exists array_of, ZEND_TYPE_ARRAY_OF_PTR t = Some array_of)
  /\ (ZEND_TYPE_IS_ARRAY_SHAPE t = true ->
      ZEND_TYPE_IS_ARRAY_OF t = false
      /\ exists shape, ZEND_TYPE_ARRAY_SHAPE_PTR t = Some shape)
  /\ (ZEND_TYPE_HAS_EXTENDED_ARRAY t = false ->
      ZEND_TYPE_ARRAY_OF_PTR t = None /\ ZEND_TYPE_ARRAY_SHAPE_PTR t = None).
Proof.
  intros Hc. pose proof (compiled_well_tagged layout _ _ _ Hc) as Hwt.
  split; [exact Hwt|].
  assert (Hboth : ZEND_TYPE_IS_ARRAY_OF t && ZEND_TYPE_IS_ARRAY_SHAPE t = false).
  { revert ast persistent t Hc Hwt.
    enough (H : forall ast persistent t,
               zend_compile_type_internal ast persistent = Compiled t ->
               ZEND_TYPE_IS_ARRAY_OF t && ZEND_TYPE_IS_ARRAY_SHAPE t = false)
      by (intros; eapply H; eassumption).
    apply (compiled_type_ind
             (fun t => ZEND_TYPE_IS_ARRAY_OF t && ZEND_TYPE_IS_ARRAY_SHAPE t
                       = false)).
    - intros code.
      assert (Hx : ZEND_TYPE_HAS_EXTENDED_ARRAY (ZEND_TYPE_INIT_CODE code) = false)
        by (unfold ZEND_TYPE_HAS_EXTENDED_ARRAY; cbn [ZEND_TYPE_INIT_CODE type_mask];
            rewrite (layout_code layout); reflexivity).
      destruct (no_extended_array _ Hx) as [-> _]. reflexivity.
    - intros name.
      assert (Hx : ZEND_TYPE_HAS_EXTENDED_ARRAY (ZEND_TYPE_INIT_CLASS name) = false)
        by (unfold ZEND_TYPE_HAS_EXTENDED_ARRAY; cbn [ZEND_TYPE_INIT_CLASS type_mask];
            rewrite (layout_name layout); reflexivity).
      destruct (no_extended_array _ Hx) as [-> _]. reflexivity.
    - intros [p m] H. cbn [ptr type_mask].
      rewrite (tag_bits_is_array_of _ _ (tag_bits_nullable p m)),
        (tag_bits_is_array_shape _ _ (tag_bits_nullable p m)). exact H.
    - intros l _.
      match goal with
      | |- ZEND_TYPE_IS_ARRAY_OF ?t && _ = false =>
          assert (Hx : ZEND_TYPE_HAS_EXTENDED_ARRAY t = false)
      end.
      { unfold ZEND_TYPE_HAS_EXTENDED_ARRAY. cbn [type_mask].
        rewrite Z.lor_0_l,
          (land_lor_0 _ _ _ (layout_list layout) (layout_union layout)).
        reflexivity. }
      destruct (no_extended_array _ Hx) as [-> _]. reflexivity.
    - intros l _.
      match goal with
      | |- ZEND_TYPE_IS_ARRAY_OF ?t && _ = false =>
          assert (Hx : ZEND_TYPE_HAS_EXTENDED_ARRAY t = false)
      end.
      { unfold ZEND_TYPE_HAS_EXTENDED_ARRAY. cbn [type_mask].
        rewrite Z.lor_0_l,
          (land_lor_0 _ _ _ (layout_list layout) (layout_intersection layout)).
        reflexivity. }
      destruct (no_extended_array _ Hx) as [-> _]. reflexivity.
    - intros et d _ _. apply andb_false_iff. right.
      unfold ZEND_TYPE_IS_ARRAY_SHAPE, array_of_type, ZEND_TYPE_SET_ARRAY_OF_PTR.
      cbn [type_mask ZEND_TYPE_INIT_NONE]. apply negb_false_iff, Z.eqb_eq.
      rewrite Z.lor_0_l. apply land_lor_0; [reflexivity|].
      apply land_tag_bits_0, (layout_array layout).
    - intros els _. rewrite (array_shape_type_not_array_of layout). reflexivity. }
  unfold ZEND_TYPE_ARRAY_OF_PTR, ZEND_TYPE_ARRAY_SHAPE_PTR.
  split; [|split].
  - intros Hof. rewrite Hof in Hboth. cbn [andb] in Hboth.
    split; [exact Hboth|].
    destruct (well_tagged_array_of t Hwt Hof) as [ao ->]. eauto.
  - intros Hsh. rewrite Hsh, andb_true_r in Hboth.
    split; [exact Hboth|].
    destruct (well_tagged_array_shape t Hwt Hboth Hsh) as [shape ->]. eauto.
  - intros Hx. destruct t as [p m].
    destruct (no_extended_array _ Hx) as [Hof Hsh].
    destruct p; cbn [well_tagged ptr] in Hwt; cbn [ptr]; try (split; reflexivity).
    + rewrite Hof in Hwt. discriminate.
    + rewrite Hof, Hsh in Hwt. discriminate.
Qed.

End LayoutNullable.
End NullableTypes.

(** ** Integer keys *)
Section IntegerKeys.
Context {E : zend_engine}.

Lemma zend_ulong_of_zend_long lval :
  - 2 ^ 63 <= lval < 2 ^ 63 ->
  zend_ulong lval = if lval <? 0 then lval + 2 ^ 64 else lval.
Proof.
  intros Hr. unfold zend_ulong.
  destruct (Z.ltb_spec lval 0) as [Hneg|Hpos].
  - symmetry. apply (Z.mod_unique lval (2 ^ 64) (-1)); lia.
  - apply Z.mod_small. lia.
Qed.

Lemma zend_long_zend_ulong lval :
  - 2 ^ 63 <= lval < 2 ^ 63 -> zend_long (zend_ulong lval) = lval.
Proof.
  intros Hr. unfold zend_long.
  fold (zend_ulong (zend_ulong lval)).
  assert (Hidem : zend_ulong (zend_ulong lval) = zend_ulong lval)
    by (unfold zend_ulong; apply Z.mod_mod; lia).
  rewrite Hidem, (zend_ulong_of_zend_long lval Hr). cbn zeta.
  destruct (Z.ltb_spec lval 0) as [Hneg|Hpos].
  - destruct (Z.ltb_spec (lval + 2 ^ 64) (2 ^ 63)); lia.
  - destruct (Z.ltb_spec lval (2 ^ 63)); lia.
Qed.

(** Property X16.  An integer key literal within [zend_long] survives
    compilation: the compiled element is looked up in arrays under the
    key's [zend_ulong] value, [ReflectionArrayShapeElement::getName]
    returns the literal, the stringifier prints its signed decimal digits,
    [ReflectionArrayShapeType::hasElement] finds it, and a missing
    required key is reported by its unsigned value (the literal plus 2^64
    when it is negative). *)
Theorem integer_shape_key_round_trip
  (attr ka lval : Z) (type_ast : zend_ast) (more : list zend_ast)
  (ty : zend_type) :
  - 2 ^ 63 <= lval < 2 ^ 63 ->
  zend_compile_type_internal type_ast true = Compiled ty ->
  exists elem,
    compile_shape_element
      (ast_node ZEND_AST_SHAPE_ELEMENT attr
         (ast_zval ZEND_AST_ZVAL ka (zv_long lval) :: type_ast :: more))
    = Compiled elem
    /\ declared_key elem = Some (key_idx (zend_ulong lval))
    /\ ReflectionArrayShapeElement_getName (Some elem) = zv_long lval
    /\ element_key_string elem = NilZero.string_of_int (Z.to_int lval)
    /\ (forall rc h others,
          ReflectionArrayShapeType_hasElement
            (Some (Build_zend_array_shape rc h (elem :: others))) (zv_long lval)
          = true)
    /\ (Z.land attr 1 = 0 ->
        missing_key_num
          (snd (zend_validate_array_shape (Build_zend_array_shape 1 0 [elem]) []))
        = if lval <? 0 then lval + 2 ^ 64 else lval).
Proof.
  intros Hr Hty.
  eexists. split.
  { unfold compile_shape_element. cbn [bind_compile]. rewrite Hty.
    cbn [bind_compile]. reflexivity. }
  split; [reflexivity|].
  split.
  { cbn [ReflectionArrayShapeElement_getName is_string_key key_num].
    rewrite zend_long_zend_ulong by exact Hr. reflexivity. }
  split.
  { unfold element_key_string. cbn [is_string_key key_num].
    rewrite zend_long_zend_ulong by exact Hr. reflexivity. }
  split.
  { intros rc h others.
    cbn [ReflectionArrayShapeType_hasElement elements].
    unfold ReflectionArrayShapeType_key_found.
    cbn [Z_TYPE_P zval_type_eqb is_string_key key_num negb andb Z_LVAL_P].
    rewrite Z.eqb_refl. reflexivity. }
  intros Hattr. rewrite zend_validate_array_shape_unfold.
  cbn [elements shape_loop]. unfold shape_visit.
  rewrite shape_lookup_empty. cbn [is_optional]. rewrite Hattr.
  cbn [Z.eqb negb snd missing_key_num is_string_key key_num].
  exact (zend_ulong_of_zend_long lval Hr).
Qed.

End IntegerKeys.

(** ** Reflection over shapes *)
Section ReflectionProperties.
Context {E : zend_engine}.

Lemma key_found_declared_key elem key_zval :
  ReflectionArrayShapeType_key_found elem key_zval = true <->
  (exists s, key_zval = zv_string s /\ declared_key elem = Some (key_str s))
  \/ (exists n, key_zval = zv_long n
                /\ declared_key elem = Some (key_idx (zend_ulong n))).
Proof.
  unfold ReflectionArrayShapeType_key_found, declared_key.
  destruct key_zval; cbn [Z_TYPE_P zval_type_eqb Z_STR_P Z_LVAL_P];
    try (split; [discriminate|intros [[s [H _]]|[n [H _]]]; discriminate]).
  - (* long *)
    destruct (is_string_key elem); cbn [negb andb].
    + split; [discriminate|].
      intros [[s [H _]]|[n [H Hk]]]; [discriminate|].
      destruct (key elem); discriminate.
    + rewrite Z.eqb_eq. split.
      * intros H. right. exists lval. rewrite H. auto.
      * intros [[s [H _]]|[n [H Hk]]]; [discriminate|].
        inversion H; subst n. congruence.
  - (* string *)
    destruct (is_string_key elem); cbn [negb andb].
    + destruct (key elem) as [k|]; cbn [andb zend_string_equals option_map].
      * rewrite String.eqb_eq. split.
        -- intros H. left. exists str. rewrite H. auto.
        -- intros [[s [H Hk]]|[n [H _]]]; [|discriminate].
           inversion H; subst s. congruence.
      * split; [discriminate|].
        intros [[s [H Hk]]|[n [H _]]]; discriminate.
    + split; [discriminate|].
      intros [[s [H Hk]]|[n [H _]]]; discriminate.
Qed.

(** Property X17.  [ReflectionArrayShapeType::hasElement] answers true
    exactly when [getElement] returns an element and false exactly when it
    returns NULL; it finds a string or an integer exactly when that is the
    key a declared element is looked up under by the validator, and
    nothing for a key of any other kind; [getElement] returns the first
    declared element with the key. *)
Theorem reflection_finds_declared_keys (shape : zend_array_shape)
  (key_zval : zval) :
  (ReflectionArrayShapeType_hasElement (Some shape) key_zval = true <->
   exists elem,
     ReflectionArrayShapeType_getElement (Some shape) key_zval
     = Some (ReflectionArrayShapeElement (Some elem)))
  /\ (ReflectionArrayShapeType_hasElement (Some shape) key_zval = false <->
      ReflectionArrayShapeType_getElement (Some shape) key_zval = None)
  /\ (forall s,
         ReflectionArrayShapeType_hasElement (Some shape) (zv_string s) = true
         <-> In (Some (key_str s)) (map declared_key (elements shape)))
  /\ (forall n,
         ReflectionArrayShapeType_hasElement (Some shape) (zv_long n) = true
         <-> In (Some (key_idx (zend_ulong n)))
               (map declared_key (elements shape)))
  /\ (forall pre elem post,
         elements shape = pre ++ elem :: post ->
         (forall e, In e pre ->
                    ReflectionArrayShapeType_key_found e key_zval = false) ->
         ReflectionArrayShapeType_key_found elem key_zval = true ->
         ReflectionArrayShapeType_getElement (Some shape) key_zval
         = Some (ReflectionArrayShapeElement (Some elem))).
Proof.
  destruct shape as [rc h els].
  cbn [ReflectionArrayShapeType_hasElement ReflectionArrayShapeType_getElement
       elements].
  assert (Hhas : forall k,
    (fix loop (elems : list zend_shape_element) : bool :=
       match elems with
       | [] => false
       | elem :: rest =>
           if ReflectionArrayShapeType_key_found elem k then true
           else loop rest
       end) els
    = existsb (fun e => ReflectionArrayShapeType_key_found e k) els).
  { intros k. induction els as [|e els IH]; [reflexivity|].
    cbn [existsb]. rewrite <- IH.
    destruct (ReflectionArrayShapeType_key_found e k); reflexivity. }
  rewrite !Hhas.
  split; [|split; [|split; [|split]]].
  - clear Hhas. induction els as [|e els IH].
    + split; [discriminate|intros [e He]; discriminate].
    + cbn [existsb]. cbn zeta.
      destruct (ReflectionArrayShapeType_key_found e key_zval); cbn [orb].
      * split; [eauto|reflexivity].
      * exact IH.
  - clear Hhas. induction els as [|e els IH].
    + split; reflexivity.
    + cbn [existsb]. cbn zeta.
      destruct (ReflectionArrayShapeType_key_found e key_zval); cbn [orb].
      * split; discriminate.
      * exact IH.
  - intros s. rewrite Hhas, existsb_exists, in_map_iff.
    split.
    + intros [e [Hin Hf]]. exists e. split; [|exact Hin].
      apply key_found_declared_key in Hf
        as [[s' [Hs Hk]]|[n [Hn _]]]; [|discriminate].
      inversion Hs; subst s'. exact Hk.
    + intros [e [Hk Hin]]. exists e. split; [exact Hin|].
      apply key_found_declared_key. left. exists s. auto.
  - intros n. rewrite Hhas, existsb_exists, in_map_iff.
    split.
    + intros [e [Hin Hf]]. exists e. split; [|exact Hin].
      apply key_found_declared_key in Hf
        as [[s' [Hs _]]|[n' [Hn Hk]]]; [discriminate|].
      inversion Hn; subst n'. exact Hk.
    + intros [e [Hk Hin]]. exists e. split; [exact Hin|].
      apply key_found_declared_key. right. exists n. auto.
  - intros pre elem post -> Hpre Helem. clear Hhas.
    induction pre as [|e pre IH]; cbn [app]; cbn zeta.
    + rewrite Helem. reflexivity.
    + rewrite (Hpre e (or_introl eq_refl)). apply IH.
      intros e' He'. apply Hpre. right. exact He'.
Qed.

Lemma element_toString_render elem :
  (is_string_key elem = true -> key elem <> None) ->
  ReflectionArrayShapeElement___toString (Some elem) = render_element elem.
Proof.
  intros Hkey.
  unfold ReflectionArrayShapeElement___toString, render_element,
    element_key_string, smart_str_append_long.
  cbn zeta.
  destruct (is_string_key elem) eqn:Hs.
  - destruct (key elem) as [k|]; [|exfalso; apply Hkey; reflexivity].
    destruct (is_optional elem); cbn [String.append];
      rewrite ?string_append_assoc; reflexivity.
  - destruct (is_optional elem); cbn [String.append];
      rewrite ?string_append_assoc; reflexivity.
Qed.

(** Property X18.  For the reflection object of a shape type whose
    string-keyed elements have their key, [__toString] of the type is
    [array{], the [__toString] of the elements returned by [getElements]
    joined by [, ], and [}]. *)
Theorem shape_string_is_built_from_element_strings (type : zend_type)
  (shape : zend_array_shape) :
  reflection_type_from_zend_type type
  = Some (ReflectionArrayShapeType (Some shape) type) ->
  (forall elem, In elem (elements shape) ->
                is_string_key elem = true -> key elem <> None) ->
  ReflectionArrayShapeType___toString type
  = ("array{"
     ++ String.concat ", "
          (map (fun obj =>
                  match obj with
                  | ReflectionArrayShapeElement element =>
                      ReflectionArrayShapeElement___toString element
                  | _ => ""
                  end)
               (ReflectionArrayShapeType_getElements (Some shape)))
     ++ "}")%string.
Proof.
  intros Hobj Hkeys.
  unfold reflection_type_from_zend_type in Hobj.
  destruct (ZEND_TYPE_IS_ARRAY_OF type) eqn:Hof; [discriminate|].
  destruct (ZEND_TYPE_IS_ARRAY_SHAPE type) eqn:Hsh; [|discriminate].
  unfold ZEND_TYPE_ARRAY_SHAPE_PTR in Hobj.
  destruct (ptr type) as [| | | |sh] eqn:Hp; try discriminate.
  inversion Hobj; subst sh. clear Hobj.
  unfold ReflectionArrayShapeType___toString.
  rewrite zend_type_to_string_extended_unfold, Hof, Hsh, Hp.
  rewrite shape_elements_to_string_concat by lia.
  cbn [ReflectionArrayShapeType_getElements]. rewrite map_map.
  assert (Hmap :
    map (fun elem => ReflectionArrayShapeElement___toString (Some elem))
      (elements shape)
    = map render_element (elements shape)).
  { revert Hkeys. generalize (elements shape). intros els Hkeys.
    induction els as [|e els IH]; [reflexivity|].
    cbn [map]. rewrite element_toString_render, IH; [reflexivity| |].
    - intros e' He'. apply Hkeys. right. exact He'.
    - apply Hkeys. left. reflexivity. }
  rewrite Hmap.
  destruct (elements shape) as [|e els]; [reflexivity|].
  change (0 <? 0) with false.
  rewrite string_append_assoc. reflexivity.
Qed.

End ReflectionProperties.

(** ** The verification facade *)
Section VerificationProperties.
Context {E : zend_engine}.

Lemma validate_array_of_reports ty ao ht :
  well_tagged ty = true -> ptr ty = PTR_ARRAY_OF ao ->
  (fst (zend_validate_array_of ao ht) = true
   /\ snd (zend_validate_array_of ao ht) = None)
  \/ (fst (zend_validate_array_of ao ht) = false
      /\ exists v, snd (zend_validate_array_of ao ht) = Some v).
Proof.
  intros Hwt Hp. rewrite zend_validate_array_of_unfold.
  exact (proj1 (validators_report_all ty Hwt) ao Hp ht).
Qed.

Lemma validate_array_shape_reports ty shape ht :
  well_tagged ty = true -> ptr ty = PTR_ARRAY_SHAPE shape ->
  (fst (zend_validate_array_shape shape ht) = true
   /\ snd (zend_validate_array_shape shape ht) = shape_out_init)
  \/ (fst (zend_validate_array_shape shape ht) = false
      /\ exists e,
           failed_element (snd (zend_validate_array_shape shape ht)) = Some e).
Proof.
  intros Hwt Hp. rewrite zend_validate_array_shape_unfold.
  destruct (proj2 (validators_report_all ty Hwt) shape Hp ht)
    as [H|[H1 [e [H2 _]]]]; [left; exact H|right; eauto].
Qed.

(** Property X19.  [zend_verify_arg_type_extended] returns true without an
    error when there is no descriptor for the position or the declared
    type is not set; otherwise, for a declared type whose tag bits agree
    with its pointers, it returns what the validators' own matcher gives
    for the argument and the declared type: [zend_check_type_extended] for
    a value that is not a reference, and false for a reference where an
    array-of or a shape is declared. *)
Theorem verify_arg_applies_the_element_matcher
  (func : zend_function) (arg_num : Z) (arg : zval) :
  (select_arg_info func arg_num = None ->
   zend_verify_arg_type_extended func arg_num arg = (true, []))
  /\ (forall info,
         select_arg_info func arg_num = Some info ->
         ZEND_TYPE_IS_SET (arg_type info) = false ->
         zend_verify_arg_type_extended func arg_num arg = (true, []))
  /\ (forall info,
         select_arg_info func arg_num = Some info ->
         ZEND_TYPE_IS_SET (arg_type info) = true ->
         well_tagged (arg_type info) = true ->
         fst (zend_verify_arg_type_extended func arg_num arg)
         = element_matches (arg_type info) arg
         /\ (Z_ISREF_P arg = false ->
             fst (zend_verify_arg_type_extended func arg_num arg)
             = zend_check_type_extended (arg_type info) arg)
         /\ (ZEND_TYPE_HAS_EXTENDED_ARRAY (arg_type info) = true ->
             Z_ISREF_P arg = true ->
             fst (zend_verify_arg_type_extended func arg_num arg) = false)).
Proof.
  split; [|split].
  - intros Hsel. unfold zend_verify_arg_type_extended. rewrite Hsel.
    reflexivity.
  - intros info Hsel Hset. unfold zend_verify_arg_type_extended.
    rewrite Hsel, Hset. reflexivity.
  - intros info Hsel Hset Hwt.
    assert (Hm : fst (zend_verify_arg_type_extended func arg_num arg)
                 = element_matches (arg_type info) arg).
    { unfold zend_verify_arg_type_extended, element_matches.
      rewrite Hsel, Hset. cbn [negb].
      destruct (ZEND_TYPE_IS_ARRAY_OF (arg_type info)) eqn:Hof.
      { destruct (well_tagged_array_of _ Hwt Hof) as [ao Hp]. rewrite Hp.
        destruct (zval_type_eqb (Z_TYPE_P arg) IS_ARRAY); cbn [negb andb];
          [|reflexivity].
        destruct (zend_validate_array_of ao (Z_ARRVAL_P arg)) as [[] bad];
          reflexivity. }
      destruct (ZEND_TYPE_IS_ARRAY_SHAPE (arg_type info)) eqn:Hsh.
      { destruct (well_tagged_array_shape _ Hwt Hof Hsh) as [shape Hp].
        rewrite Hp.
        destruct (zval_type_eqb (Z_TYPE_P arg) IS_ARRAY) eqn:Harr;
          cbn [negb andb]; [|reflexivity].
        destruct (validate_array_shape_reports _ shape (Z_ARRVAL_P arg) Hwt Hp)
          as [[H1 H2]|[H1 [e H2]]];
          destruct (zend_validate_array_shape shape (Z_ARRVAL_P arg))
            as [ok out]; cbn [fst snd] in H1, H2; subst ok; cbn [negb];
          [reflexivity|].
        rewrite H2.
        destruct (bad_value out); [|destruct (missing_is_string_key out)];
          try reflexivity.
        destruct (is_string_key e); [destruct (key e)|]; reflexivity. }
      destruct (zend_check_type_extended (arg_type info) arg); reflexivity. }
    split; [exact Hm|split].
    + intros Hr. rewrite Hm. apply element_matches_check. exact Hr.
    + intros Hext Hr. rewrite Hm.
      destruct arg; try discriminate.
      apply element_matches_reference. exact Hext.
Qed.

(** Property X20.  [zend_verify_return_type_extended] returns true without
    an error for an unset return type; for a type with the void code it
    returns whether the value is null; for a type with the never code it
    always raises the never-returning error; otherwise, for a type whose
    tag bits agree with its pointers, it returns what the validators'
    matcher gives, which is [zend_check_type_extended] on a value that is
    not a reference. *)
Theorem verify_return_decision (func : zend_function) (retval : zval) :
  let return_type := arg_type (return_info func) in
  (ZEND_TYPE_IS_SET return_type = false ->
   zend_verify_return_type_extended func retval = (true, []))
  /\ (ZEND_TYPE_IS_SET return_type = true ->
      ZEND_TYPE_CONTAINS_CODE return_type IS_VOID = true ->
      fst (zend_verify_return_type_extended func retval)
      = zval_type_eqb (Z_TYPE_P retval) IS_NULL)
  /\ (ZEND_TYPE_IS_SET return_type = true ->
      ZEND_TYPE_CONTAINS_CODE return_type IS_VOID = false ->
      ZEND_TYPE_CONTAINS_CODE return_type IS_NEVER = true ->
      zend_verify_return_type_extended func retval
      = (false,
         [zend_type_error "%s%s%s(): never-returning function must not return"
            (func_prefix func)]))
  /\ (ZEND_TYPE_IS_SET return_type = true ->
      ZEND_TYPE_CONTAINS_CODE return_type IS_VOID = false ->
      ZEND_TYPE_CONTAINS_CODE return_type IS_NEVER = false ->
      well_tagged return_type = true ->
      fst (zend_verify_return_type_extended func retval)
      = element_matches return_type retval
      /\ (Z_ISREF_P retval = false ->
          fst (zend_verify_return_type_extended func retval)
          = zend_check_type_extended return_type retval)).
Proof.
  cbn zeta. split; [|split; [|split]].
  - intros Hset. unfold zend_verify_return_type_extended. rewrite Hset.
    reflexivity.
  - intros Hset Hvoid. unfold zend_verify_return_type_extended.
    rewrite Hset, Hvoid. cbn [negb].
    destruct (zval_type_eqb (Z_TYPE_P retval) IS_NULL); reflexivity.
  - intros Hset Hvoid Hnever. unfold zend_verify_return_type_extended.
    rewrite Hset, Hvoid, Hnever. reflexivity.
  - intros Hset Hvoid Hnever Hwt.
    assert (Hm : fst (zend_verify_return_type_extended func retval)
                 = element_matches (arg_type (return_info func)) retval).
    { unfold zend_verify_return_type_extended, element_matches.
      rewrite Hset, Hvoid, Hnever. cbn [negb].
      destruct (ZEND_TYPE_IS_ARRAY_OF (arg_type (return_info func))) eqn:Hof.
      { destruct (well_tagged_array_of _ Hwt Hof) as [ao Hp]. rewrite Hp.
        destruct (zval_type_eqb (Z_TYPE_P retval) IS_ARRAY); cbn [negb andb];
          [|reflexivity].
        destruct (zend_validate_array_of ao (Z_ARRVAL_P retval)) as [[] bad];
          reflexivity. }
      destruct (ZEND_TYPE_IS_ARRAY_SHAPE (arg_type (return_info func))) eqn:Hsh.
      { destruct (well_tagged_array_shape _ Hwt Hof Hsh) as [shape Hp].
        rewrite Hp.
        destruct (zval_type_eqb (Z_TYPE_P retval) IS_ARRAY) eqn:Harr;
          cbn [negb andb]; [|reflexivity].
        destruct (validate_array_shape_reports _ shape (Z_ARRVAL_P retval) Hwt Hp)
          as [[H1 H2]|[H1 [e H2]]];
          destruct (zend_validate_array_shape shape (Z_ARRVAL_P retval))
            as [ok out]; cbn [fst snd] in H1, H2; subst ok; cbn [negb];
          [reflexivity|].
        rewrite H2.
        destruct (bad_value out); [|destruct (missing_is_string_key out)];
          try reflexivity.
        destruct (is_string_key e); [destruct (key e)|]; reflexivity. }
      destruct (zend_check_type_extended (arg_type (return_info func)) retval);
        reflexivity. }
    split; [exact Hm|].
    intros Hr. rewrite Hm. apply element_matches_check. exact Hr.
Qed.

(** Property X21.  For declared types whose tag bits agree with their
    pointers the fallback diagnostics are never produced: no error of
    argument or return verification has the format "does not match type",
    and a failing [zend_validate_array_of] always reports a value, so the
    text "invalid value" is never used for the kind of the bad element. *)
Theorem fallback_diagnostics_are_unreachable :
  (forall func arg_num arg info e,
      select_arg_info func arg_num = Some info ->
      well_tagged (arg_type info) = true ->
      In e (snd (zend_verify_arg_type_extended func arg_num arg)) ->
      error_format e
      <> "%s%s%s(): Argument #%d ($%s) does not match type %s")
  /\ (forall func retval e,
         well_tagged (arg_type (return_info func)) = true ->
         In e (snd (zend_verify_return_type_extended func retval)) ->
         error_format e <> "%s%s%s(): Return value does not match type %s")
  /\ (forall ty array_of ht,
         well_tagged ty = true ->
         ptr ty = PTR_ARRAY_OF array_of ->
         fst (zend_validate_array_of array_of ht) = false ->
         exists bad,
           snd (zend_validate_array_of array_of ht) = Some bad
           /\ bad_type_name (snd (zend_validate_array_of array_of ht))
              = zend_zval_type_name bad).
Proof.
  split; [|split].
  - intros func arg_num arg info e Hsel Hwt.
    unfold zend_verify_arg_type_extended. rewrite Hsel.
    destruct (negb (ZEND_TYPE_IS_SET (arg_type info))); [intros []|].
    destruct (ZEND_TYPE_IS_ARRAY_OF (arg_type info)) eqn:Hof.
    { destruct (well_tagged_array_of _ Hwt Hof) as [ao Hp]. rewrite Hp.
      destruct (negb (zval_type_eqb (Z_TYPE_P arg) IS_ARRAY)).
      { intros [<-|[]]. cbn [error_format]. discriminate. }
      destruct (zend_validate_array_of ao (Z_ARRVAL_P arg)) as [[] bad];
        cbn [negb snd]; [intros []|].
      intros [<-|[]]. cbn [error_format]. discriminate. }
    destruct (ZEND_TYPE_IS_ARRAY_SHAPE (arg_type info)) eqn:Hsh.
    { destruct (well_tagged_array_shape _ Hwt Hof Hsh) as [shape Hp].
      rewrite Hp.
      destruct (negb (zval_type_eqb (Z_TYPE_P arg) IS_ARRAY)).
      { intros [<-|[]]. cbn [error_format]. discriminate. }
      destruct (validate_array_shape_reports _ shape (Z_ARRVAL_P arg) Hwt Hp)
        as [[H1 H2]|[H1 [e0 H2]]];
        destruct (zend_validate_array_shape shape (Z_ARRVAL_P arg))
          as [ok out]; cbn [fst snd] in H1, H2; subst ok; cbn [negb];
        [intros []|].
      rewrite H2.
      destruct (bad_value out).
      - destruct (is_string_key e0); [destruct (key e0)|];
          (intros [<-|[]]; cbn [error_format]; discriminate).
      - destruct (missing_is_string_key out);
          (intros [<-|[]]; cbn [error_format]; discriminate). }
    destruct (negb (zend_check_type_extended (arg_type info) arg));
      [|intros []].
    intros [<-|[]]. cbn [error_format]. discriminate.
  - intros func retval e Hwt.
    unfold zend_verify_return_type_extended.
    destruct (negb (ZEND_TYPE_IS_SET (arg_type (return_info func))));
      [intros []|].
    destruct (ZEND_TYPE_CONTAINS_CODE (arg_type (return_info func)) IS_VOID).
    { destruct (negb (zval_type_eqb (Z_TYPE_P retval) IS_NULL)); [|intros []].
      intros [<-|[]]. cbn [error_format]. discriminate. }
    destruct (ZEND_TYPE_CONTAINS_CODE (arg_type (return_info func)) IS_NEVER).
    { intros [<-|[]]. cbn [error_format]. discriminate. }
    destruct (ZEND_TYPE_IS_ARRAY_OF (arg_type (return_info func))) eqn:Hof.
    { destruct (well_tagged_array_of _ Hwt Hof) as [ao Hp]. rewrite Hp.
      destruct (negb (zval_type_eqb (Z_TYPE_P retval) IS_ARRAY)).
      { intros [<-|[]]. cbn [error_format]. discriminate. }
      destruct (zend_validate_array_of ao (Z_ARRVAL_P retval)) as [[] bad];
        cbn [negb snd]; [intros []|].
      intros [<-|[]]. cbn [error_format]. discriminate. }
    destruct (ZEND_TYPE_IS_ARRAY_SHAPE (arg_type (return_info func))) eqn:Hsh.
    { destruct (well_tagged_array_shape _ Hwt Hof Hsh) as [shape Hp].
      rewrite Hp.
      destruct (negb (zval_type_eqb (Z_TYPE_P retval) IS_ARRAY)).
      { intros [<-|[]]. cbn [error_format]. discriminate. }
      destruct (validate_array_shape_reports _ shape (Z_ARRVAL_P retval) Hwt Hp)
        as [[H1 H2]|[H1 [e0 H2]]];
        destruct (zend_validate_array_shape shape (Z_ARRVAL_P retval))
          as [ok out]; cbn [fst snd] in H1, H2; subst ok; cbn [negb];
        [intros []|].
      rewrite H2.
      destruct (bad_value out).
      - destruct (is_string_key e0); [destruct (key e0)|];
          (intros [<-|[]]; cbn [error_format]; discriminate).
      - destruct (missing_is_string_key out);
          (intros [<-|[]]; cbn [error_format]; discriminate). }
    destruct (negb (zend_check_type_extended (arg_type (return_info func)) retval));
      [|intros []].
    intros [<-|[]]. cbn [error_format]. discriminate.
  - intros ty ao ht Hwt Hp Hfail.
    destruct (validate_array_of_reports ty ao ht Hwt Hp)
      as [[H1 _]|[_ [bad Hbad]]]; [congruence|].
    exists bad. rewrite Hbad. split; reflexivity.
Qed.

End VerificationProperties.

(** ** Reference counts and release *)
Section LifecycleProperties.
Context {E : zend_engine}.

Lemma uint32_t_pred_succ rc :
  0 < rc < 2 ^ 32 -> uint32_t (uint32_t (rc + 1) - 1) = rc.
Proof.
  intros Hr. unfold uint32_t.
  destruct (Z.eq_dec rc (2 ^ 32 - 1)) as [->|Hne].
  - vm_compute. reflexivity.
  - rewrite (Z.mod_small (rc + 1)) by lia.
    replace (rc + 1 - 1) with rc by lia. apply Z.mod_small. lia.
Qed.

Lemma store_same a d m : Lifecycle.cells (Lifecycle.store a d m) a = d.
Proof. cbn. rewrite Nat.eqb_refl. reflexivity. Qed.

Lemma store_other a a' d m :
  a' <> a -> Lifecycle.cells (Lifecycle.store a d m) a' = Lifecycle.cells m a'.
Proof.
  intros Hne. cbn. destruct (Nat.eqb_spec a' a); [contradiction|reflexivity].
Qed.

(** Property X22.  For a descriptor with a reference count between 1 and
    2^32 - 1, [zend_array_of_addref] followed by [zend_array_of_release],
    and [zend_array_shape_addref] followed by [zend_array_shape_release],
    leave every cell of the store as it was and free nothing. *)
Theorem addref_then_release_restores_descriptor
  (a : Lifecycle.addr) (m : Lifecycle.memory) (rc : Z) :
  0 < rc < 2 ^ 32 ->
  (forall element_type depth,
      Lifecycle.cells m a = Some (Lifecycle.array_of_at element_type rc depth) ->
      exists m',
        Lifecycle.zend_array_of_release a (Lifecycle.zend_array_of_addref a m)
        = Some m'
        /\ (forall a', Lifecycle.cells m' a' = Lifecycle.cells m a')
        /\ Lifecycle.released m' = Lifecycle.released m)
  /\ (forall shape_hash elements,
         Lifecycle.cells m a = Some (Lifecycle.shape_at rc shape_hash elements) ->
         exists m',
           Lifecycle.zend_array_shape_release a
             (Lifecycle.zend_array_shape_addref a m)
           = Some m'
           /\ (forall a', Lifecycle.cells m' a' = Lifecycle.cells m a')
           /\ Lifecycle.released m' = Lifecycle.released m).
Proof.
  intros Hr.
  pose proof (uint32_t_pred_succ rc Hr) as Hback.
  assert (Hnz : (rc =? 0) = false) by (apply Z.eqb_neq; lia).
  split.
  - intros et d Hcell.
    unfold Lifecycle.zend_array_of_addref. rewrite Hcell.
    unfold Lifecycle.zend_array_of_release. rewrite store_same.
    cbn zeta. rewrite Hback, Hnz.
    eexists. split; [reflexivity|]. split; [|reflexivity].
    intros a'. destruct (Nat.eq_dec a' a) as [->|Hne].
    + rewrite store_same. symmetry. exact Hcell.
    + rewrite !store_other by exact Hne. reflexivity.
  - intros h els Hcell.
    unfold Lifecycle.zend_array_shape_addref. rewrite Hcell.
    unfold Lifecycle.zend_array_shape_release. rewrite store_same.
    cbn zeta. rewrite Hback, Hnz.
    eexists. split; [reflexivity|]. split; [|reflexivity].
    intros a'. destruct (Nat.eq_dec a' a) as [->|Hne].
    + rewrite store_same. symmetry. exact Hcell.
    + rewrite !store_other by exact Hne. reflexivity.
Qed.

Lemma release_keys_fold els m :
  Lifecycle.cells
    (fold_left
       (fun m elem =>
          match Lifecycle.key elem with
          | Some k => Lifecycle.emit (Lifecycle.zend_string_release k) m
          | None => m
          end) els m)
  = Lifecycle.cells m
  /\ Lifecycle.released
       (fold_left
          (fun m elem =>
             match Lifecycle.key elem with
             | Some k => Lifecycle.emit (Lifecycle.zend_string_release k) m
             | None => m
             end) els m)
     = Lifecycle.released m ++ key_releases els.
Proof.
  revert m. induction els as [|e els IH]; intros m.
  - cbn. rewrite app_nil_r. split; reflexivity.
  - cbn [fold_left key_releases flat_map].
    destruct (IH (match Lifecycle.key e with
                  | Some k => Lifecycle.emit (Lifecycle.zend_string_release k) m
                  | None => m
                  end)) as [Hc Hr].
    rewrite Hc, Hr. fold (key_releases els).
    destruct (Lifecycle.key e); cbn [Lifecycle.emit Lifecycle.cells
                                     Lifecycle.released app];
      rewrite <- ?app_assoc; split; reflexivity.
Qed.

(** Property X23.  [zend_array_shape_release] touches no other descriptor;
    at reference count 1 it releases the string keys of the elements once
    each, in declaration order, and then frees the descriptor; at a higher
    count it only decrements the count. *)
Theorem shape_release_frees_at_the_last_owner
  (shape : Lifecycle.addr) (m : Lifecycle.memory) (rc shape_hash : Z)
  (elements : list Lifecycle.zend_shape_element) :
  Lifecycle.cells m shape = Some (Lifecycle.shape_at rc shape_hash elements) ->
  0 < rc < 2 ^ 32 ->
  exists m',
    Lifecycle.zend_array_shape_release shape m = Some m'
    /\ (forall a, a <> shape -> Lifecycle.cells m' a = Lifecycle.cells m a)
    /\ (rc = 1 ->
        Lifecycle.cells m' shape = None
        /\ Lifecycle.released m'
           = Lifecycle.released m ++ key_releases elements
             ++ [Lifecycle.pefree shape])
    /\ (1 < rc ->
        Lifecycle.cells m' shape
        = Some (Lifecycle.shape_at (rc - 1) shape_hash elements)
        /\ Lifecycle.released m' = Lifecycle.released m).
Proof.
  intros Hcell Hr.
  unfold Lifecycle.zend_array_shape_release. rewrite Hcell. cbn zeta.
  assert (Hdec : uint32_t (rc - 1) = rc - 1)
    by (unfold uint32_t; apply Z.mod_small; lia).
  rewrite Hdec.
  destruct (Z.eqb_spec (rc - 1) 0) as [H0|Hpos].
  - destruct (release_keys_fold elements m) as [Hc Hrel].
    eexists. split; [reflexivity|]. split; [|split].
    + intros a Ha. cbn [Lifecycle.emit Lifecycle.cells].
      rewrite store_other by exact Ha. rewrite Hc. reflexivity.
    + intros _. cbn [Lifecycle.emit Lifecycle.cells Lifecycle.released].
      rewrite store_same. split; [reflexivity|].
      cbn [Lifecycle.store Lifecycle.released]. rewrite Hrel.
      rewrite <- app_assoc. reflexivity.
    + intros Hgt. lia.
  - eexists. split; [reflexivity|]. split; [|split].
    + intros a Ha. apply store_other. exact Ha.
    + intros H1. lia.
    + intros _. rewrite store_same. split; reflexivity.
Qed.

Lemma owns_chain_frame m m' addrs ty :
  (forall a, In a addrs -> Lifecycle.cells m' a = Lifecycle.cells m a) ->
  owns_chain m addrs ty -> owns_chain m' addrs ty.
Proof.
  revert ty. induction addrs as [|a rest IH]; intros ty Hsame H.
  - exact H.
  - destruct H as [Hof [Hp [et [d [Hcell Hrest]]]]].
    split; [exact Hof|]. split; [exact Hp|]. exists et, d.
    split; [rewrite (Hsame a (or_introl eq_refl)); exact Hcell|].
    apply IH; [|exact Hrest]. intros a' Ha'. apply Hsame. right. exact Ha'.
Qed.

Lemma release_array_of_unfold fuel ty m a :
  Lifecycle.ZEND_TYPE_IS_ARRAY_OF ty = true ->
  Lifecycle.ptr ty = Lifecycle.PTR_ARRAY_OF a ->
  Lifecycle.zend_type_release_extended (S fuel) ty m =
  match Lifecycle.cells m a with
  | Some (Lifecycle.array_of_at element_type _ _) =>
      match Lifecycle.zend_type_release_extended fuel element_type m with
      | Some m =>
          match Lifecycle.cells m a with
          | Some (Lifecycle.array_of_at _ rc d) =>
              Lifecycle.zend_array_of_release a
                (Lifecycle.store a
                   (Some (Lifecycle.array_of_at
                            Lifecycle.ZEND_TYPE_INIT_NONE rc d)) m)
          | _ => None
          end
      | None => None
      end
  | _ => None
  end.
Proof.
  intros Hof Hp. cbn [Lifecycle.zend_type_release_extended].
  rewrite Hof, Hp. reflexivity.
Qed.

(** Property X24.  [zend_type_release_extended] on a type that owns a
    chain of array-of descriptors, each with reference count 1, returns
    with enough fuel, frees every descriptor of the chain exactly once,
    innermost first, and leaves every other cell of the store unchanged. *)
Theorem release_frees_a_uniquely_owned_chain
  (addrs : list Lifecycle.addr) :
  forall (ty : Lifecycle.zend_type) (m : Lifecycle.memory),
    owns_chain m addrs ty ->
    NoDup addrs ->
    exists m',
      Lifecycle.zend_type_release_extended (S (List.length addrs)) ty m
      = Some m'
      /\ Lifecycle.released m'
         = Lifecycle.released m ++ map Lifecycle.pefree (rev addrs)
      /\ (forall a, In a addrs -> Lifecycle.cells m' a = None)
      /\ (forall a, ~ In a addrs -> Lifecycle.cells m' a = Lifecycle.cells m a).
Proof.
  induction addrs as [|a rest IH]; intros ty m Hown Hnd.
  - destruct Hown as [Hof [Hsh [Hl Hn]]].
    exists m. cbn [Lifecycle.zend_type_release_extended List.length].
    rewrite Hof, Hsh, Hl, Hn. cbn [rev map]. rewrite app_nil_r.
    split; [reflexivity|]. split; [reflexivity|].
    split; [intros a []|reflexivity].
  - destruct Hown as [Hof [Hp [et [d [Hcell Hrest]]]]].
    inversion Hnd as [|? ? Hnotin Hnd']; subst.
    destruct (IH et m Hrest Hnd') as [m1 [Hrel1 [Hev1 [Hfreed1 Hkept1]]]].
    cbn [List.length].
    rewrite (release_array_of_unfold (S (List.length rest)) ty m a Hof Hp).
    rewrite Hcell, Hrel1.
    rewrite (Hkept1 a Hnotin), Hcell.
    unfold Lifecycle.zend_array_of_release. rewrite store_same.
    cbn zeta. change (uint32_t (1 - 1) =? 0) with true. cbn iota.
    eexists. split; [reflexivity|].
    cbn [Lifecycle.emit Lifecycle.cells Lifecycle.released Lifecycle.store].
    split; [|split].
    + rewrite Hev1. cbn [rev]. rewrite map_app, app_assoc. reflexivity.
    + intros a' [<-|Hin].
      * rewrite Nat.eqb_refl. reflexivity.
      * destruct (Nat.eqb_spec a' a); [reflexivity|]. apply Hfreed1. exact Hin.
    + intros a' Hnot.
      assert (Hne : a' <> a) by (intros ->; apply Hnot; left; reflexivity).
      destruct (Nat.eqb_spec a' a); [contradiction|].
      apply Hkept1. intros Hin. apply Hnot. right. exact Hin.
Qed.

End LifecycleProperties.

(** ** The shape hash *)
Section HashProperties.
Context {E : zend_engine}.

Lemma hash_mix_range hash x : 0 <= hash_mix hash x < 2 ^ 32.
Proof. unfold hash_mix, uint32_t. apply Z.mod_pos_bound. lia. Qed.

(** Property X25.  [zend_compute_shape_hash] is a 32-bit value and reads,
    of each element, only the kind of key, the key (its low 32 bits for an
    integer key), the mask of the element type and the optional flag:
    shapes that agree on these have the same hash, whatever descriptors
    their element types point to. *)
Theorem shape_hash_is_32_bit_and_shallow (shape : zend_array_shape) :
  0 <= zend_compute_shape_hash shape < 2 ^ 32
  /\ forall shape',
       Forall2
         (fun e e' =>
            is_string_key e = is_string_key e'
            /\ key e = key e'
            /\ uint32_t (key_num e) = uint32_t (key_num e')
            /\ type_mask (type e) = type_mask (type e')
            /\ is_optional e = is_optional e')
         (elements shape) (elements shape') ->
       zend_compute_shape_hash shape = zend_compute_shape_hash shape'.
Proof.
  unfold zend_compute_shape_hash. cbn zeta. split.
  - generalize (hash_mix_range 5381 (num_elements shape)).
    generalize (hash_mix 5381 (num_elements shape)).
    induction (elements shape) as [|e els IH]; intros h Hh; [exact Hh|].
    cbn [fold_left]. apply IH. apply hash_mix_range.
  - intros shape' Hsame.
    assert (Hn : num_elements shape = num_elements shape').
    { unfold num_elements. f_equal.
      induction Hsame as [|e e' l l' _ _ IH]; [reflexivity|].
      cbn [List.length]. rewrite IH. reflexivity. }
    rewrite <- Hn. generalize (hash_mix 5381 (num_elements shape)).
    induction Hsame as [|e e' l l' (Hs & Hk & Hnum & Hm & Ho) _ IH];
      intros h; [reflexivity|].
    cbn [fold_left]. rewrite <- Hs, <- Hk, Hnum, <- Hm, <- Ho. apply IH.
Qed.

End HashProperties.

(** ** Compilation and checking together *)
Section CompileAndCheck.
Context {E : zend_engine}.
Hypothesis layout : engine_layout.

(** Property X26.  Compilation and checking compose: the compiled
    [array<T>] accepts a value that is not a reference exactly when it is
    an array whose values all match the compiled [T], and the compiled
    [array{...}] accepts it exactly when it is an array that satisfies
    every compiled element (absent and optional, or present with a
    matching value). *)
Theorem compiled_types_accept_by_structure (persistent : bool) :
  (forall element_type_ast element_type t val,
      zend_compile_type_internal element_type_ast true = Compiled element_type ->
      zend_compile_type_internal (array_of_ast element_type_ast) persistent
      = Compiled t ->
      Z_ISREF_P val = false ->
      zend_check_type_extended t val
      = zval_type_eqb (Z_TYPE_P val) IS_ARRAY
        && forallb (fun bucket => element_matches element_type (snd bucket))
             (Z_ARRVAL_P val))
  /\ (forall element_list elems t val,
         compile_shape_elements element_list = Compiled elems ->
         zend_compile_type_internal (shape_ast element_list) persistent
         = Compiled t ->
         Z_ISREF_P val = false ->
         zend_check_type_extended t val
         = zval_type_eqb (Z_TYPE_P val) IS_ARRAY
           && forallb (shape_element_ok (Z_ARRVAL_P val)) elems).
Proof.
  split.
  - intros a et t val Het Ht Hr.
    change (zend_compile_array_of_type (array_of_ast a) = Compiled t) in Ht.
    unfold array_of_ast in Ht.
    rewrite zend_compile_array_of_type_unfold, Het in Ht.
    cbn [bind_compile] in Ht.
    assert (Hshape : exists d, t = array_of_type et d).
    { destruct (ZEND_TYPE_IS_ARRAY_OF et); [|inversion Ht; eauto].
      destruct (ptr et); try discriminate. inversion Ht; eauto. }
    destruct Hshape as [d ->].
    pose proof (array_of_type_is_array_of et d) as Hof.
    unfold array_of_type, ZEND_TYPE_SET_ARRAY_OF_PTR in *.
    cbn [zend_check_type_extended]. rewrite Hr, Hof. cbn [ptr].
    destruct (zval_type_eqb (Z_TYPE_P val) IS_ARRAY); cbn [negb andb];
      [|reflexivity].
    rewrite zend_validate_array_of_unfold. cbn [element_type].
    apply array_of_foreach_pass.
  - intros cs elems t val Hels Ht Hr.
    change (zend_compile_array_shape_type (shape_ast cs) = Compiled t) in Ht.
    unfold shape_ast in Ht.
    rewrite zend_compile_shape_elements_unfold, Hels in Ht.
    cbn [bind_compile] in Ht. inversion Ht; subst t. clear Ht.
    pose proof (array_shape_type_not_array_of layout elems) as Hof.
    pose proof (array_shape_type_is_array_shape elems) as Hsh.
    unfold array_shape_type, ZEND_TYPE_SET_ARRAY_SHAPE_PTR in *.
    cbn [zend_check_type_extended]. rewrite Hr, Hof, Hsh. cbn [ptr].
    destruct (zval_type_eqb (Z_TYPE_P val) IS_ARRAY); cbn [negb andb];
      [|reflexivity].
    rewrite zend_validate_array_shape_unfold. cbn [elements].
    apply shape_loop_pass.
Qed.

End CompileAndCheck.

(** ** Reflection objects of compiled types *)
Section ReflectionObjects.
Context {E : zend_engine}.
Hypothesis layout : engine_layout.

(** Property X27.  For an engine whose bits do not overlap the tag bits,
    [reflection_type_from_zend_type] of a compiled type returns NULL
    exactly for types without a tag bit, and otherwise an object that
    holds the type and a descriptor that is not NULL, so that the NULL
    tests of [getDepth], [getElementType], [getElements] and
    [getElementCount] never fire for it. *)
Theorem reflection_objects_carry_their_descriptor (ast : zend_ast)
  (persistent : bool) (t : zend_type) :
  zend_compile_type_internal ast persistent = Compiled t ->
  match reflection_type_from_zend_type t with
  | Some (ReflectionArrayOfType array_of type) =>
      type = t
      /\ exists ao,
           array_of = Some ao /\ ptr t = PTR_ARRAY_OF ao
           /\ ReflectionArrayOfType_getDepth array_of = depth ao
           /\ ReflectionArrayOfType_getElementType array_of
              = reflection_type_from_zend_type (element_type ao)
  | Some (ReflectionArrayShapeType shape type) =>
      type = t
      /\ exists sh,
           shape = Some sh /\ ptr t = PTR_ARRAY_SHAPE sh
           /\ ReflectionArrayShapeType_getElementCount shape
              = Z.of_nat (List.length (ReflectionArrayShapeType_getElements shape))
  | Some (ReflectionArrayShapeElement _) => False
  | None => ZEND_TYPE_HAS_EXTENDED_ARRAY t = false
  end.
Proof.
  intros Hc. pose proof (compiled_well_tagged layout _ _ _ Hc) as Hwt.
  unfold reflection_type_from_zend_type.
  destruct (ZEND_TYPE_IS_ARRAY_OF t) eqn:Hof.
  { destruct (well_tagged_array_of t Hwt Hof) as [ao Hp].
    unfold ZEND_TYPE_ARRAY_OF_PTR. rewrite Hp.
    split; [reflexivity|]. exists ao. repeat split. }
  destruct (ZEND_TYPE_IS_ARRAY_SHAPE t) eqn:Hsh.
  { destruct (well_tagged_array_shape t Hwt Hof Hsh) as [sh Hp].
    unfold ZEND_TYPE_ARRAY_SHAPE_PTR. rewrite Hp.
    split; [reflexivity|]. exists sh.
    split; [reflexivity|]. split; [reflexivity|].
    cbn [ReflectionArrayShapeType_getElementCount
         ReflectionArrayShapeType_getElements].
    rewrite length_map. reflexivity. }
  rewrite has_extended_array_split, Hof, Hsh. reflexivity.
Qed.

End ReflectionObjects.

(** ** Arguments beyond the declared ones, and nested display *)
Section PositionsAndNesting.
Context {E : zend_engine}.

Lemma select_arg_info_beyond func arg_num :
  num_args func < arg_num ->
  select_arg_info func arg_num =
  if fn_variadic func then nth_error (arg_info func) (Z.to_nat (num_args func))
  else None.
Proof.
  intros Hn. unfold select_arg_info.
  replace (arg_num <=? num_args func) with false
    by (symmetry; apply Z.leb_gt; exact Hn).
  reflexivity.
Qed.

(** Property X28.  Past the declared parameters,
    [zend_verify_arg_type_extended] checks nothing for a function that is
    not variadic; for a variadic function it checks every further argument
    against the same descriptor, [arg_info[num_args]], so that the verdict
    and the format of the error are the same at every such position. *)
Theorem arguments_beyond_the_declared_ones (func : zend_function) (arg : zval) :
  (fn_variadic func = false ->
   forall arg_num,
     num_args func < arg_num ->
     zend_verify_arg_type_extended func arg_num arg = (true, []))
  /\ (fn_variadic func = true ->
      forall n1 n2,
        num_args func < n1 -> num_args func < n2 ->
        select_arg_info func n1 = select_arg_info func n2
        /\ fst (zend_verify_arg_type_extended func n1 arg)
           = fst (zend_verify_arg_type_extended func n2 arg)
        /\ map error_format (snd (zend_verify_arg_type_extended func n1 arg))
           = map error_format
               (snd (zend_verify_arg_type_extended func n2 arg))).
Proof.
  split.
  - intros Hv arg_num Hn. unfold zend_verify_arg_type_extended.
    rewrite (select_arg_info_beyond func arg_num Hn), Hv. reflexivity.
  - intros Hv n1 n2 H1 H2.
    assert (Hsel : select_arg_info func n1 = select_arg_info func n2)
      by (rewrite !select_arg_info_beyond by assumption; reflexivity).
    split; [exact Hsel|].
    unfold zend_verify_arg_type_extended. rewrite Hsel.
    destruct (select_arg_info func n2) as [info|]; [|split; reflexivity].
    destruct (negb (ZEND_TYPE_IS_SET (arg_type info))); [split; reflexivity|].
    destruct (ZEND_TYPE_IS_ARRAY_OF (arg_type info)).
    { destruct (ptr (arg_type info)); try (split; reflexivity).
      destruct (negb (zval_type_eqb (Z_TYPE_P arg) IS_ARRAY));
        [split; reflexivity|].
      destruct (zend_validate_array_of array_of (Z_ARRVAL_P arg)) as [[] bad];
        split; reflexivity. }
    destruct (ZEND_TYPE_IS_ARRAY_SHAPE (arg_type info)).
    { destruct (ptr (arg_type info)); try (split; reflexivity).
      destruct (negb (zval_type_eqb (Z_TYPE_P arg) IS_ARRAY));
        [split; reflexivity|].
      destruct (zend_validate_array_shape shape (Z_ARRVAL_P arg)) as [[] out];
        cbn [negb]; [split; reflexivity|].
      destruct (failed_element out) as [failed|]; [|split; reflexivity].
      destruct (bad_value out).
      - destruct (is_string_key failed); [destruct (key failed)|];
          split; reflexivity.
      - destruct (missing_is_string_key out); split; reflexivity. }
    destruct (negb (zend_check_type_extended (arg_type info) arg));
      split; reflexivity.
Qed.

Lemma string_repeat_snoc s n :
  (string_repeat s n ++ s = s ++ string_repeat s n)%string.
Proof.
  induction n as [|n IH]; cbn [string_repeat].
  - rewrite string_append_nil_r. reflexivity.
  - rewrite string_append_assoc, IH. reflexivity.
Qed.

Section LayoutNesting.
Hypothesis layout : engine_layout.

(** Property X29.  For an engine whose bits do not overlap the tag bits,
    [n] array-of wrappers around a type that compiles always compile, and
    [zend_type_to_string_extended] displays the result as [n] times
    [array<], the element type, and [n] times [>], also past the 255
    levels that the depth field can count. *)
Theorem nested_array_of_is_displayed_as_declared (base : zend_ast)
  (base_type : zend_type) (n : nat) :
  zend_compile_type_internal base true = Compiled base_type ->
  exists t,
    zend_compile_type_internal (Nat.iter n array_of_ast base) true = Compiled t
    /\ zend_type_to_string_extended t
       = (string_repeat "array<" n
          ++ zend_type_to_string_extended base_type
          ++ string_repeat ">" n)%string.
Proof.
  intros Hbase. induction n as [|n [t [Hc Hs]]].
  - exists base_type. split; [exact Hbase|].
    cbn [string_repeat String.append]. rewrite string_append_nil_r.
    reflexivity.
  - pose proof (zend_compile_array_of_type_unfold 0
                  (Nat.iter n array_of_ast base) []) as Hstep.
    rewrite Hc in Hstep. cbn [bind_compile] in Hstep.
    change (zend_compile_array_of_type
              (ast_node ZEND_AST_TYPE_ARRAY_OF 0
                 [Nat.iter n array_of_ast base]))
      with (zend_compile_type_internal
              (Nat.iter (S n) array_of_ast base) true) in Hstep.
    assert (Hstr : forall d,
      zend_type_to_string_extended (array_of_type t d)
      = (string_repeat "array<" (S n)
         ++ zend_type_to_string_extended base_type
         ++ string_repeat ">" (S n))%string).
    { intros d. rewrite zend_type_to_string_extended_unfold.
      rewrite array_of_type_is_array_of.
      unfold array_of_type, ZEND_TYPE_SET_ARRAY_OF_PTR. cbn [ptr element_type].
      rewrite Hs. cbn [string_repeat].
      rewrite <- (string_repeat_snoc ">" n).
      rewrite !string_append_assoc. reflexivity. }
    destruct (ZEND_TYPE_IS_ARRAY_OF t) eqn:Hof.
    + destruct (well_tagged_array_of t
                  (compiled_well_tagged layout _ _ _ Hc) Hof) as [inner Hp].
      rewrite Hp in Hstep. eexists. split; [exact Hstep|apply Hstr].
    + eexists. split; [exact Hstep|apply Hstr].
Qed.

End LayoutNesting.
End PositionsAndNesting.

(** ** The two boolean values *)
Section BooleanValues.
Context {E : zend_engine}.
Hypothesis bool_bits : MAY_BE_BOOL = Z.lor MAY_BE_FALSE MAY_BE_TRUE.

Lemma false_or_bool : Z.lor MAY_BE_FALSE MAY_BE_BOOL = MAY_BE_BOOL.
Proof.
  rewrite bool_bits, Z.lor_assoc, Z.lor_diag. reflexivity.
Qed.

Lemma true_or_bool : Z.lor MAY_BE_TRUE MAY_BE_BOOL = MAY_BE_BOOL.
Proof.
  rewrite bool_bits, (Z.lor_comm MAY_BE_FALSE MAY_BE_TRUE), Z.lor_assoc,
    Z.lor_diag. reflexivity.
Qed.

(** Property X30.  For an engine where [MAY_BE_BOOL] is [MAY_BE_FALSE |
    MAY_BE_TRUE], as in [zend_type_info.h], [zend_check_type_extended]
    gives the same answer for true and for false with every type: the
    tests of the two cases both reduce to the bool bits, so a type
    declared as [false] alone accepts true. *)
Theorem true_and_false_are_not_told_apart (ty : zend_type) :
  zend_check_type_extended ty zv_true = zend_check_type_extended ty zv_false
  /\ (ZEND_TYPE_HAS_EXTENDED_ARRAY ty = false ->
      ZEND_TYPE_HAS_LIST ty = false ->
      ZEND_TYPE_HAS_NAME ty = false ->
      zend_check_type_extended ty zv_true
      = mask_has (ZEND_TYPE_PURE_MASK ty) MAY_BE_BOOL).
Proof.
  split.
  - induction ty as [m|n m|l m IH|et rc d m _|rc h els m _] using zend_type_ind;
      cbn [zend_check_type_extended];
      change (Z_ISREF_P zv_true) with false;
      change (Z_ISREF_P zv_false) with false;
      cbn [Z_TYPE_P zval_type_eqb negb ptr];
      rewrite ?false_or_bool, ?true_or_bool; try reflexivity.
    destruct (ZEND_TYPE_IS_ARRAY_OF (Build_zend_type (PTR_LIST l) m));
      [reflexivity|].
    destruct (ZEND_TYPE_IS_ARRAY_SHAPE (Build_zend_type (PTR_LIST l) m));
      [reflexivity|].
    destruct (ZEND_TYPE_HAS_LIST (Build_zend_type (PTR_LIST l) m)).
    + cbn [type_mask].
      destruct (mask_has m _ZEND_TYPE_INTERSECTION_BIT).
      * induction IH as [|t l Ht _ IHl]; [reflexivity|].
        rewrite Ht, IHl. reflexivity.
      * induction IH as [|t l Ht _ IHl]; [reflexivity|].
        rewrite Ht, IHl. reflexivity.
    + destruct (ZEND_TYPE_HAS_NAME (Build_zend_type (PTR_LIST l) m));
        reflexivity.
  - intros Hx Hl Hn. destruct (no_extended_array _ Hx) as [Hof Hsh].
    destruct ty as [p m]. cbn [zend_check_type_extended].
    change (Z_ISREF_P zv_true) with false.
    rewrite Hof, Hsh, Hl, Hn. cbn [Z_TYPE_P]. rewrite true_or_bool.
    reflexivity.
Qed.

End BooleanValues.

(** ** The properties above at concrete inputs *)



(** Property X1 at a concrete input. *)
Lemma check_type_list_members_witness :
  zend_check_type_extended ex_int_or_string (zv_reference (zv_string "x"))
  = existsb (fun t => zend_check_type_extended t (zv_string "x"))
      [ex_int; ex_string].
Proof.
  exact (check_type_list_members ex_int_or_string [ex_int; ex_string]
           (zv_reference (zv_string "x")) eq_refl eq_refl eq_refl eq_refl).
Defined.

(** Property X2 at a concrete input. *)
Lemma validator_outputs_follow_result_witness :
  exists elem,
    failed_element
      (snd (zend_validate_array_shape ex_shape_id_name_opt
              [(key_str "name", zv_string "Bob")])) = Some elem.
Proof.
  assert (Hwt : well_tagged
                  (Build_zend_type (PTR_ARRAY_SHAPE ex_shape_id_name_opt)
                     ex_shape_bits)
                = true) by (vm_compute; reflexivity).
  destruct (proj2 (validator_outputs_follow_result
                     (Build_zend_type (PTR_ARRAY_SHAPE ex_shape_id_name_opt)
                        ex_shape_bits) Hwt)
              ex_shape_id_name_opt [(key_str "name", zv_string "Bob")])
    as [[Hpass _]|[_ [elem [Helem _]]]].
  - vm_compute. reflexivity.
  - vm_compute in Hpass. discriminate Hpass.
  - exists elem. exact Helem.
Defined.

(** Property X4 at a concrete input. *)
Lemma shape_validation_ignores_bucket_order_witness :
  zend_validate_array_shape ex_shape_id_name_opt
    [(key_str "name", zv_string "Bob"); (key_str "id", zv_long 1)]
  = zend_validate_array_shape ex_shape_id_name_opt
      [(key_str "id", zv_long 1); (key_str "name", zv_string "Bob")].
Proof.
  apply shape_validation_ignores_bucket_order.
  - apply perm_swap.
  - constructor.
    + intros [H|[]]. discriminate H.
    + constructor; [intros []|constructor].
Defined.

(** Property X6 at a concrete input. *)
Lemma shape_validation_weakens_with_declaration_witness :
  zend_validate_array_shape ex_shape_id [(key_str "id", zv_long 1)]
  = (true, shape_out_init).
Proof.
  apply (shape_validation_weakens_with_declaration ex_shape_id_name_opt
           ex_shape_id [(key_str "id", zv_long 1)]).
  - intros elem [<-|[]]. exists ex_elem_id.
    split; [left; reflexivity|].
    split; [reflexivity|]. split; [reflexivity|].
    intros H. discriminate H.
  - vm_compute. reflexivity.
Defined.

(** Property X7 at a concrete input. *)
Lemma equivalent_types_accept_same_values_witness :
  zend_check_type_extended ex_nullable_array_of_int
    (zv_array [(key_idx 0, zv_long 1)])
  = zend_check_type_extended (array_of_type ex_int 1)
      (zv_array [(key_idx 0, zv_long 1)]).
Proof.
  assert (Heq : zend_types_are_equivalent ex_nullable_array_of_int
                  (array_of_type ex_int 1) = true) by (vm_compute; reflexivity).
  assert (Ha : array_structured ex_nullable_array_of_int = true)
    by (vm_compute; reflexivity).
  assert (Hb : array_structured (array_of_type ex_int 1) = true)
    by (vm_compute; reflexivity).
  exact (equivalent_types_accept_same_values ex_nullable_array_of_int
           (array_of_type ex_int 1) (zv_array [(key_idx 0, zv_long 1)])
           Heq Ha Hb).
Defined.

(** Property X9 at a concrete input. *)
Lemma zend_types_are_equivalent_trans_witness :
  zend_types_are_equivalent (array_of_type ex_int 1) (array_of_type ex_int 7)
  = true.
Proof.
  assert (H1 : zend_types_are_equivalent (array_of_type ex_int 1)
                 ex_nullable_array_of_int = true) by (vm_compute; reflexivity).
  assert (H2 : zend_types_are_equivalent ex_nullable_array_of_int
                 (array_of_type ex_int 7) = true) by (vm_compute; reflexivity).
  exact (zend_types_are_equivalent_trans (array_of_type ex_int 1)
           ex_nullable_array_of_int (array_of_type ex_int 7) H1 H2).
Defined.

(** Property X10 at a concrete input. *)
Lemma equivalence_ignores_list_members_witness :
  exists t1 t2,
    zend_compile_type_internal int_or_string_ast true = Compiled t1
    /\ zend_compile_type_internal foo_or_bar_ast true = Compiled t2
    /\ zend_types_are_equivalent t1 t2 = true.
Proof.
  eexists. eexists.
  split; [vm_compute; reflexivity|]. split; [vm_compute; reflexivity|].
  apply (proj1 (equivalence_ignores_list_members example_engine_layout 0 0
                  [int_ast; string_ast]
                  [ast_zval ZEND_AST_CLASS_TYPE 0 (zv_string "Foo");
                   ast_zval ZEND_AST_CLASS_TYPE 0 (zv_string "Bar")]
                  true true _ _)).
  - vm_compute. reflexivity.
  - vm_compute. reflexivity.
Defined.

(** Property X11 at a concrete input. *)
Lemma compiled_descriptors_are_fresh_witness :
  exists t,
    zend_compile_type_internal
      (array_of_ast (shape_ast [element_ast "id" false int_ast])) true
    = Compiled t
    /\ freshly_compiled t = true.
Proof.
  eexists. split; [vm_compute; reflexivity|].
  apply (compiled_descriptors_are_fresh
           (array_of_ast (shape_ast [element_ast "id" false int_ast])) true).
  vm_compute. reflexivity.
Defined.

(** Property X12 at a concrete input. *)
Lemma compile_succeeds_iff_valid_witness :
  (exists t,
      zend_compile_type_internal
        (array_of_ast (shape_ast [element_ast "id" false int_ast])) true
      = Compiled t)
  <-> valid_type_ast (array_of_ast (shape_ast [element_ast "id" false int_ast]))
      = true.
Proof.
  exact (compile_succeeds_iff_valid example_engine_layout
           (array_of_ast (shape_ast [element_ast "id" false int_ast])) true).
Defined.

(** Property X15 at a concrete input. *)
Lemma compiled_types_have_one_kind_witness :
  well_tagged (array_of_type ex_int 1) = true
  /\ ZEND_TYPE_IS_ARRAY_SHAPE (array_of_type ex_int 1) = false.
Proof.
  assert (Hc : zend_compile_type_internal (array_of_ast int_ast) true
               = Compiled (array_of_type ex_int 1)) by (vm_compute; reflexivity).
  destruct (compiled_types_have_one_kind example_engine_layout
              (array_of_ast int_ast) true (array_of_type ex_int 1) Hc)
    as [Hwt [Hof _]].
  split; [exact Hwt|].
  assert (Hbit : ZEND_TYPE_IS_ARRAY_OF (array_of_type ex_int 1) = true)
    by (vm_compute; reflexivity).
  exact (proj1 (Hof Hbit)).
Defined.

(** Property X13 at a concrete input. *)
Lemma nullable_extended_array_rejects_null_witness :
  exists t,
    zend_compile_type_internal
      (ast_node ZEND_AST_NULLABLE_TYPE 0 [array_of_ast int_ast]) true
    = Compiled t
    /\ ReflectionArrayOfType_allowsNull t = true
    /\ zend_check_type_extended t zv_null = false.
Proof.
  assert (Hc : zend_compile_type_internal (array_of_ast int_ast) true
               = Compiled (array_of_type ex_int 1)) by (vm_compute; reflexivity).
  assert (Hext : ZEND_TYPE_HAS_EXTENDED_ARRAY (array_of_type ex_int 1) = true)
    by (vm_compute; reflexivity).
  assert (Hnull : MAY_BE_NULL <> 0) by (vm_compute; discriminate).
  destruct (nullable_extended_array_rejects_null 0 (array_of_ast int_ast) []
              true (array_of_type ex_int 1) Hc Hext Hnull)
    as [t [Ht [_ [Hallows [_ [Hcheck _]]]]]].
  exists t. split; [exact Ht|]. split; [exact Hallows|exact Hcheck].
Defined.

(** Property X14 at a concrete input. *)
Lemma nullability_of_extended_array_is_not_displayed_witness :
  zend_type_to_string_extended ex_nullable_array_of_int
  = zend_type_to_string_extended (array_of_type ex_int 1)
  /\ zend_types_are_equivalent ex_nullable_array_of_int (array_of_type ex_int 1)
     = true
  /\ zend_types_are_equivalent (array_of_type ex_int 1) ex_nullable_array_of_int
     = true.
Proof.
  assert (Hc : zend_compile_type_internal (array_of_ast int_ast) true
               = Compiled (array_of_type ex_int 1)) by (vm_compute; reflexivity).
  assert (Hext : ZEND_TYPE_HAS_EXTENDED_ARRAY (array_of_type ex_int 1) = true)
    by (vm_compute; reflexivity).
  assert (Hn : zend_compile_type_internal
                 (ast_node ZEND_AST_NULLABLE_TYPE 0 [array_of_ast int_ast]) true
               = Compiled ex_nullable_array_of_int) by (vm_compute; reflexivity).
  exact (nullability_of_extended_array_is_not_displayed example_engine_layout
           0 (array_of_ast int_ast) [] true (array_of_type ex_int 1)
           ex_nullable_array_of_int Hc Hext Hn).
Defined.

(** Property X16 at a concrete input. *)
Lemma integer_shape_key_round_trip_witness :
  exists elem,
    compile_shape_element
      (ast_node ZEND_AST_SHAPE_ELEMENT 0
         [ast_zval ZEND_AST_ZVAL 0 (zv_long (-1)); int_ast])
    = Compiled elem
    /\ declared_key elem = Some (key_idx (zend_ulong (-1)))
    /\ ReflectionArrayShapeElement_getName (Some elem) = zv_long (-1).
Proof.
  assert (Hr : - 2 ^ 63 <= -1 < 2 ^ 63) by lia.
  assert (Hty : zend_compile_type_internal int_ast true = Compiled ex_int)
    by (vm_compute; reflexivity).
  destruct (integer_shape_key_round_trip 0 0 (-1) int_ast [] ex_int Hr Hty)
    as [elem [Hc [Hkey [Hname _]]]].
  exists elem. split; [exact Hc|]. split; [exact Hkey|exact Hname].
Defined.

(** Property X18 at a concrete input. *)
Lemma shape_string_is_built_from_element_strings_witness :
  ReflectionArrayShapeType___toString
    (array_shape_type [ex_elem_id; ex_elem_name_opt])
  = ("array{"
     ++ String.concat ", "
          [ReflectionArrayShapeElement___toString (Some ex_elem_id);
           ReflectionArrayShapeElement___toString (Some ex_elem_name_opt)]
     ++ "}")%string.
Proof.
  assert (Hobj :
    reflection_type_from_zend_type
      (array_shape_type [ex_elem_id; ex_elem_name_opt])
    = Some (ReflectionArrayShapeType
              (Some (Build_zend_array_shape 1
                       (zend_compute_shape_hash
                          (Build_zend_array_shape 1 0
                             [ex_elem_id; ex_elem_name_opt]))
                       [ex_elem_id; ex_elem_name_opt]))
              (array_shape_type [ex_elem_id; ex_elem_name_opt])))
    by (vm_compute; reflexivity).
  apply (shape_string_is_built_from_element_strings _ _ Hobj).
  intros elem [<-|[<-|[]]] _ H; discriminate H.
Defined.

(** Property X22 at a concrete input. *)
Lemma addref_then_release_restores_descriptor_witness :
  exists m',
    Lifecycle.zend_array_of_release 1%nat
      (Lifecycle.zend_array_of_addref 1%nat ex_store)
    = Some m'
    /\ (forall a', Lifecycle.cells m' a' = Lifecycle.cells ex_store a')
    /\ Lifecycle.released m' = Lifecycle.released ex_store.
Proof.
  assert (Hr : 0 < 1 < 2 ^ 32) by lia.
  exact (proj1 (addref_then_release_restores_descriptor 1%nat ex_store 1 Hr)
           _ _ eq_refl).
Defined.

(** Property X23 at a concrete input. *)
Lemma shape_release_frees_at_the_last_owner_witness :
  exists m',
    Lifecycle.zend_array_shape_release 3%nat ex_store = Some m'
    /\ Lifecycle.cells m' 3%nat = None
    /\ Lifecycle.released m'
       = [Lifecycle.zend_string_release "tags"; Lifecycle.pefree 3%nat].
Proof.
  assert (Hr : 0 < 1 < 2 ^ 32) by lia.
  destruct (shape_release_frees_at_the_last_owner 3%nat ex_store 1 0 _
              eq_refl Hr) as [m' [Hrel [_ [Hlast _]]]].
  destruct (Hlast eq_refl) as [Hcell Hev].
  exists m'. split; [exact Hrel|]. split; [exact Hcell|exact Hev].
Defined.

(** Property X24 at a concrete input. *)
Lemma release_frees_a_uniquely_owned_chain_witness :
  exists m',
    Lifecycle.zend_type_release_extended 3 ex_owner_of_1 ex_store = Some m'
    /\ Lifecycle.released m' = [Lifecycle.pefree 2%nat; Lifecycle.pefree 1%nat]
    /\ Lifecycle.cells m' 1%nat = None
    /\ Lifecycle.cells m' 2%nat = None.
Proof.
  assert (Hown : owns_chain ex_store [1%nat; 2%nat] ex_owner_of_1).
  { cbn [owns_chain]. split; [vm_compute; reflexivity|].
    split; [reflexivity|]. eexists. eexists. split; [reflexivity|].
    split; [vm_compute; reflexivity|]. split; [reflexivity|].
    eexists. eexists. split; [reflexivity|].
    split; [vm_compute; reflexivity|]. split; [vm_compute; reflexivity|].
    split; vm_compute; reflexivity. }
  assert (Hnd : NoDup [1%nat; 2%nat]).
  { constructor.
    - intros [H|[]]. discriminate H.
    - constructor; [intros []|constructor]. }
  destruct (release_frees_a_uniquely_owned_chain [1%nat; 2%nat]
              ex_owner_of_1 ex_store Hown Hnd)
    as [m' [Hrel [Hev [Hfreed _]]]].
  exists m'. split; [exact Hrel|]. split; [exact Hev|].
  split; apply Hfreed; [left; reflexivity|right; left; reflexivity].
Defined.


(** Property X26 at a concrete input. *)
Lemma compiled_types_accept_by_structure_witness :
  zend_check_type_extended (array_of_type ex_int 1)
    (zv_array [(key_idx 0, zv_long 1); (key_idx 1, zv_string "x")])
  = zval_type_eqb IS_ARRAY IS_ARRAY
    && forallb (fun bucket => element_matches ex_int (snd bucket))
         [(key_idx 0, zv_long 1); (key_idx 1, zv_string "x")].
Proof.
  assert (Het : zend_compile_type_internal int_ast true = Compiled ex_int)
    by (vm_compute; reflexivity).
  assert (Ht : zend_compile_type_internal (array_of_ast int_ast) true
               = Compiled (array_of_type ex_int 1)) by (vm_compute; reflexivity).
  exact (proj1 (compiled_types_accept_by_structure example_engine_layout true)
           int_ast ex_int (array_of_type ex_int 1)
           (zv_array [(key_idx 0, zv_long 1); (key_idx 1, zv_string "x")])
           Het Ht eq_refl).
Defined.


(** Property X27 at a concrete input. *)
Lemma reflection_objects_carry_their_descriptor_witness :
  exists ao,
    reflection_type_from_zend_type (array_of_type ex_int 1)
    = Some (ReflectionArrayOfType (Some ao) (array_of_type ex_int 1))
    /\ ptr (array_of_type ex_int 1) = PTR_ARRAY_OF ao.
Proof.
  assert (Hc : zend_compile_type_internal (array_of_ast int_ast) true
               = Compiled (array_of_type ex_int 1)) by (vm_compute; reflexivity).
  pose proof (reflection_objects_carry_their_descriptor example_engine_layout
                (array_of_ast int_ast) true (array_of_type ex_int 1) Hc) as H.
  destruct (reflection_type_from_zend_type (array_of_type ex_int 1))
    as [[array_of ty|shape ty|element]|] eqn:Hobj.
  - destruct H as [Hty [ao [Hao [Hp _]]]]. exists ao.
    rewrite Hty, Hao. split; [reflexivity|exact Hp].
  - vm_compute in Hobj. discriminate Hobj.
  - contradiction.
  - vm_compute in Hobj. discriminate Hobj.
Defined.

(** Property X29 at a concrete input. *)
Lemma nested_array_of_is_displayed_as_declared_witness :
  exists t,
    zend_compile_type_internal (Nat.iter 300 array_of_ast int_ast) true
    = Compiled t
    /\ zend_type_to_string_extended t
       = (string_repeat "array<" 300 ++ zend_type_to_string_extended ex_int
          ++ string_repeat ">" 300)%string.
Proof.
  assert (Hbase : zend_compile_type_internal int_ast true = Compiled ex_int)
    by (vm_compute; reflexivity).
  exact (nested_array_of_is_displayed_as_declared example_engine_layout
           int_ast ex_int 300 Hbase).
Defined.

(** Property X30 at a concrete input. *)
Lemma true_and_false_are_not_told_apart_witness :
  zend_check_type_extended (Build_zend_type PTR_NULL (Z.shiftl 1 2)) zv_true
  = zend_check_type_extended (Build_zend_type PTR_NULL (Z.shiftl 1 2)) zv_false.
Proof.
  exact (proj1 (true_and_false_are_not_told_apart eq_refl
                  (Build_zend_type PTR_NULL (Z.shiftl 1 2)))).
Defined.
